(** * dive: the docker image analyzer (package [image])

    A shallow embedding of [image/docker_image.go] and of the
    accessors of [dockerLayer], with the properties of the analysis
    stated over it. [Fetch], which talks to the docker daemon, is
    left out; [Parse] is embedded over the entries of the outer
    archive, and [Analyze] over what [Parse] leaves in the analyzer,
    the JSON files and the map of the layer trees. A [tar.Reader] is
    the sequence of the headers that [Next] yields; [tarfile] relates
    it to the records of the archive.

    Conventions of the embedding:
    - a Go [uint64] is a [Z] in [0, 2^64), additions wrap;
    - a Go [int] / [int64] is a [Z];
    - a Go [string] is a [string], a [[]byte] a [list byte];
    - a [float64] is the term that the code builds, and its value an
      IEEE-754 binary64 number, a [spec_float];
    - a [*T] that may be [nil] is an [option T];
    - a Go function either returns or panics: [go A]; a function with
      an [error] result returns a [result A] inside [go] (or directly,
      when it cannot panic). *)

From Stdlib Require Import ZArith Lia Ascii String.
From Stdlib.Strings Require Import Byte.
From Stdlib.Floats Require Import SpecFloat.
From stdpp Require Import base option list gmap strings.

Local Open Scope string_scope.
Local Open Scope list_scope.
Local Open Scope Z_scope.

(** ** Package [strings] (Go standard library) *)

Module GoStrings.

(** [func HasPrefix(s, prefix string) bool]:
    [len(s) >= len(prefix) && s[:len(prefix)] == prefix]. *)
Definition HasPrefix (s prefix : string) : bool :=
  (String.length prefix <=? String.length s)%nat
  && String.eqb (substring 0 (String.length prefix) s) prefix.

(** [func TrimPrefix(s, prefix string) string]:
    [if HasPrefix(s, prefix) { return s[len(prefix):] }; return s]. *)
Definition TrimPrefix (s prefix : string) : string :=
  if HasPrefix s prefix
  then substring (String.length prefix)
                 (String.length s - String.length prefix) s
  else s.

(** [func HasSuffix(s, suffix string) bool]. *)
Definition HasSuffix (s suffix : string) : bool :=
  (String.length suffix <=? String.length s)%nat
  && String.eqb (substring (String.length s - String.length suffix)
                           (String.length suffix) s) suffix.

(** [func TrimSuffix(s, suffix string) string]. *)
Definition TrimSuffix (s suffix : string) : string :=
  if HasSuffix s suffix
  then substring 0 (String.length s - String.length suffix) s
  else s.

End GoStrings.

(** ** Unsigned 64-bit arithmetic *)

Definition uint64_modulus : Z := 2 ^ 64.

(** The conversion [uint64(x)]. *)
Definition uint64 (x : Z) : Z := x mod uint64_modulus.

(** [a += b] on [uint64] operands. *)
Definition add64 (a b : Z) : Z := (a + b) mod uint64_modulus.

(** ** Errors, panics and results *)

Inductive error : Type :=
| fmtErrorf (msg : string)      (* built by [fmt.Errorf] *)
| libError (msg : string).      (* returned by a library call *)

Inductive panic : Type :=
| LogrusPanic (err : error)     (* [logrus.Panic(err)] *)
| IndexOutOfRange               (* runtime error: index out of range *)
| NilDereference.               (* runtime error: nil pointer dereference *)

(** A [(T, error)] result. *)
Inductive result (A : Type) : Type :=
| Ok (a : A)
| Err (e : error).
Arguments Ok {A} a.
Arguments Err {A} e.

(** A Go computation: it returns or it panics. *)
Inductive go (A : Type) : Type :=
| Return (a : A)
| Panic (p : panic).
Arguments Return {A} a.
Arguments Panic {A} p.

#[export] Instance go_ret : MRet go := fun A a => Return a.
#[export] Instance go_bind : MBind go := fun A B f m =>
  match m with
  | Return a => f a
  | Panic p => Panic p
  end.

(** [xs[i]] for an [int] index: a bounds-checked read. *)
Definition at_index {A : Type} (xs : list A) (i : Z) : go A :=
  if (0 <=? i) && (i <? Z.of_nat (length xs))
  then match xs !! Z.to_nat i with
       | Some x => Return x
       | None => Panic IndexOutOfRange
       end
  else Panic IndexOutOfRange.

(** [xs[i] = x] for an [int] index: a bounds-checked write. *)
Definition store {A : Type} (xs : list A) (i : Z) (x : A) : go (list A) :=
  if (0 <=? i) && (i <? Z.of_nat (length xs))
  then Return (<[Z.to_nat i := x]> xs)
  else Panic IndexOutOfRange.

(** [p.f] through a pointer: dereferencing [nil] panics. *)
Definition deref {A : Type} (p : option A) : go A :=
  match p with
  | Some a => Return a
  | None => Panic NilDereference
  end.

(** ** Package [archive/tar] (Go standard library) *)

Module tar.

(** The type flags of [archive/tar]; a [Typeflag] is a byte. *)
Definition TypeReg : Z := 48.            (* '0' *)
Definition TypeRegA : Z := 0.            (* '\x00' *)
Definition TypeLink : Z := 49.           (* '1' *)
Definition TypeSymlink : Z := 50.        (* '2' *)
Definition TypeDir : Z := 53.            (* '5' *)
Definition TypeXHeader : Z := 120.       (* 'x' *)
Definition TypeXGlobalHeader : Z := 103. (* 'g' *)

(** The fields of [tar.Header] that the analyzer reads. *)
Record Header : Type := {
  Name : string;
  Typeflag : Z;
  Size : Z;          (* int64 *)
  Linkname : string
}.

(** A [*tar.Reader] positioned on an archive: the headers that the
    successive calls of [Next] yield, and how the sequence ends,
    [None] for [io.EOF] and [Some e] for a read error. *)
Record Reader : Type := {
  entries : list Header;
  failure : option error
}.

End tar.

(** ** Package [filetree] *)

Module filetree.

(** The kinds of a file record. *)
Inductive FileKind : Type :=
| Regular | Directory | Symlink | Whiteout | Other.

(** Modelled from the spec: [filetree.FileInfo] belongs to package
    [filetree], which is not embedded here. The record follows the
    spec's FileRecord (path, size, type, link target); [Path] and
    [Size] are the fields that [processLayerTar] reads. *)
Record FileInfo : Type := {
  Path : string;
  TypeFlag : Z;
  Size : Z;          (* int64 *)
  Linkname : string
}.

(** Modelled from the spec: [filetree.NewFileInfo] produces the record
    of one archive entry from its header. *)
Definition NewFileInfo (header : tar.Header) (path : string) : FileInfo :=
  {| Path := path;
     TypeFlag := tar.Typeflag header;
     Size := tar.Size header;
     Linkname := tar.Linkname header |}.

(** The final segment of a slash-separated path. *)
Fixpoint lastSegment_from (acc s : string) : string :=
  match s with
  | EmptyString => acc
  | String c rest =>
      if Ascii.eqb c "/"%char
      then lastSegment_from EmptyString rest
      else lastSegment_from (acc +:+ String c EmptyString) rest
  end.

Definition lastSegment (s : string) : string :=
  lastSegment_from EmptyString s.

(** The deletion-marker prefix of the layer format (docker and OCI
    layers mark a deleted path with [.wh.]). *)
Definition whiteoutPrefix : string := ".wh.".

(** Modelled from the spec: the classification of a record. A path
    whose final segment begins with the deletion marker is a whiteout;
    otherwise the type flag decides. *)
Definition kind (f : FileInfo) : FileKind :=
  if String.prefix whiteoutPrefix (lastSegment (Path f)) then Whiteout
  else if (TypeFlag f =? tar.TypeReg) || (TypeFlag f =? tar.TypeRegA)
  then Regular
  else if TypeFlag f =? tar.TypeDir then Directory
  else if TypeFlag f =? tar.TypeSymlink then Symlink
  else Other.

(** Modelled from the spec: [filetree.FileTree] belongs to package
    [filetree]. A tree has the name of the archive it was built from,
    the running total [FileSize] (a [uint64]) and the records it
    keeps, one per path. *)
Record FileTree : Type := {
  Name : string;
  FileSize : Z;
  Files : gmap string FileInfo
}.

Definition NewFileTree : FileTree :=
  {| Name := ""; FileSize := 0; Files := ∅ |}.

Definition setName (name : string) (tree : FileTree) : FileTree :=
  {| Name := name; FileSize := FileSize tree; Files := Files tree |}.

Definition setFileSize (size : Z) (tree : FileTree) : FileTree :=
  {| Name := Name tree; FileSize := size; Files := Files tree |}.

(** Modelled from the spec: the method [AddPath] of [FileTree]
    inserts the record at its path and replaces any record the tree
    has there (the last write wins). The spec names no failure of the
    insertion; the [error] result of the source is kept in the
    type. *)
Definition AddPath (tree : FileTree) (path : string) (data : FileInfo)
  : result FileTree :=
  Ok {| Name := Name tree;
        FileSize := FileSize tree;
        Files := <[path := data]> (Files tree) |}.

(** The sum of the sizes of the [Regular] records that a tree keeps. *)
Definition keptRegularSize (tree : FileTree) : Z :=
  map_fold (fun _ f acc =>
              match kind f with
              | Regular => acc + Size f
              | _ => acc
              end) 0 (Files tree).

(** [tree.FileSize] through a [*FileTree]. *)
Definition totalSize (tree : option FileTree) : go Z :=
  t ← deref tree; mret (FileSize t).

(** The field of [filetree.EfficiencyData] that [Analyze] reads. *)
Record EfficiencyData : Type := {
  CumulativeSize : Z   (* int64 *)
}.

End filetree.

(** ** Package [image]: reading one layer archive *)

(** [getFileList] iterates through the provided [tar.Reader] and
    returns the details of the files it holds. The loop calls [Next]
    once per round: at [io.EOF] it stops, on a read error it returns
    the error, on an [XGlobalHeader] or [XHeader] entry it returns a
    format error, and otherwise it appends the record of the entry. *)
Fixpoint getFileList_loop (entries : list tar.Header) (failure : option error)
    (files : list filetree.FileInfo) : result (list filetree.FileInfo) :=
  match entries with
  | [] =>
      match failure with
      | None => Ok files
      | Some err => Err err
      end
  | header :: rest =>
      if tar.Typeflag header =? tar.TypeXGlobalHeader then
        Err (fmtErrorf ("Provided Tar file '" +:+ tar.Name header
                        +:+ "' has unexpected header '103' (XGlobalHeader)"))
      else if tar.Typeflag header =? tar.TypeXHeader then
        Err (fmtErrorf ("Provided Tar file '" +:+ tar.Name header
                        +:+ "' has unexpected header '120' (XHeader)"))
      else
        getFileList_loop rest failure
          (files ++ [filetree.NewFileInfo header (tar.Name header)])
  end.

Definition getFileList (tarReader : tar.Reader)
  : result (list filetree.FileInfo) :=
  getFileList_loop (tar.entries tarReader) (tar.failure tarReader) [].

(** The loop of [processLayerTar] over the file list: every element
    adds its size to the total of the tree and is then added to the
    tree; an error of [AddPath] ends the build. *)
Fixpoint processLayerTar_loop (tree : filetree.FileTree)
    (fileInfos : list filetree.FileInfo) : result filetree.FileTree :=
  match fileInfos with
  | [] => Ok tree
  | element :: rest =>
      let tree :=
        filetree.setFileSize
          (add64 (filetree.FileSize tree) (uint64 (filetree.Size element)))
          tree in
      match filetree.AddPath tree (filetree.Path element) element with
      | Err err => Err err
      | Ok tree => processLayerTar_loop tree rest
      end
  end.

(** [processLayerTar] iterates through the files in the provided tar
    archive and returns the resulting tree. *)
Definition processLayerTar (name : string) (layerIdx : Z)
    (reader : tar.Reader) : result filetree.FileTree :=
  let tree := filetree.setName name filetree.NewFileTree in
  match getFileList reader with
  | Err err => Err err
  | Ok fileInfos => processLayerTar_loop tree fileInfos
  end.

(** ** Package [image]: manifest, config and layers *)

(** The fields of the manifest, of the config and of a history entry
    that the analyzer reads; their declarations are in another file
    of the package. *)
Record dockerImageManifest : Type := {
  ConfigPath : string;
  LayerTarPaths : list string
}.

Record dockerImageHistoryEntry : Type := {
  ID : string;
  Size : Z;            (* uint64 *)
  CreatedBy : string;
  EmptyLayer : bool
}.

Record dockerImageRootFs : Type := {
  DiffIds : list string
}.

Record dockerImageConfig : Type := {
  History : list dockerImageHistoryEntry;
  RootFs : dockerImageRootFs
}.

Definition setID (id : string) (h : dockerImageHistoryEntry)
  : dockerImageHistoryEntry :=
  {| ID := id; Size := Size h;
     CreatedBy := CreatedBy h; EmptyLayer := EmptyLayer h |}.

Definition setSize (size : Z) (h : dockerImageHistoryEntry)
  : dockerImageHistoryEntry :=
  {| ID := ID h; Size := size;
     CreatedBy := CreatedBy h; EmptyLayer := EmptyLayer h |}.

(** [dockerLayer] represents a Docker image layer and metadata. *)
Record dockerLayer : Type := {
  tarPath : string;
  history : dockerImageHistoryEntry;
  index : Z;
  tree : option filetree.FileTree
}.

(** The methods of [dockerLayer]; [String], which formats a line with
    [fmt] and [humanize], is left out. *)
Definition dockerLayer_TarId (layer : dockerLayer) : string :=
  GoStrings.TrimSuffix (tarPath layer) "/layer.tar".

Definition dockerLayer_Id (layer : dockerLayer) : string :=
  ID (history layer).

Definition dockerLayer_Index (layer : dockerLayer) : Z :=
  index layer.

Definition dockerLayer_Size (layer : dockerLayer) : Z :=
  Size (history layer).

Definition dockerLayer_Tree (layer : dockerLayer) : option filetree.FileTree :=
  tree layer.

Definition dockerLayer_Command (layer : dockerLayer) : string :=
  GoStrings.TrimPrefix (CreatedBy (history layer)) "/bin/sh -c ".

Definition dockerLayer_ShortId (layer : dockerLayer) : string :=
  let rangeBound := 25%nat in
  if (rangeBound <? String.length (ID (history layer)))%nat
  then substring 0 25 (ID (history layer))
  else ID (history layer).

(** A [float64], as the code builds it: the model records which
    conversion and which division the code performs; its IEEE-754
    value is [float64_value], below. *)
Inductive float64 : Type :=
| float64_of_uint64 (x : Z)      (* [float64(x)] *)
| float64_quo (a b : float64).   (* [a / b] *)

(** The fields of [AnalysisResult], as [Analyze] fills them. *)
Record AnalysisResult : Type := {
  Layers : list dockerLayer;
  RefTrees : list (option filetree.FileTree);
  Efficiency : float64;
  UserSizeByes : Z;
  SizeBytes : Z;
  WastedBytes : Z;
  WastedUserPercent : float64;
  Inefficiencies : list filetree.EfficiencyData
}.

(** The analyzer. [Client], the handle of the docker daemon, plays no
    part in [Analyze] and is left out. *)
Record dockerImageAnalyzer : Type := {
  id : string;
  jsonFiles : gmap string (list Byte.byte);
  trees : list (option filetree.FileTree);
  layerMap : gmap string filetree.FileTree;
  layers : list (option dockerLayer)
}.

Definition newDockerImageAnalyzer (imageId : string) : dockerImageAnalyzer :=
  {| id := imageId; jsonFiles := ∅; trees := []; layerMap := ∅; layers := [] |}.

(** [image.jsonFiles[name]]: a missing key reads as the nil slice. *)
Definition jsonFile (image : dockerImageAnalyzer) (name : string) : list Byte.byte :=
  default [] (jsonFiles image !! name).

(** ** Package [image]: the analysis *)

(** The calls of [Analyze] into other packages: the two uses of
    [json.Unmarshal], one per target type, and [filetree.Efficiency],
    which returns a score and the list of inefficiencies, or
    panics. *)
Record Environment : Type := {
  json_Unmarshal_manifest :
    list Byte.byte → result (list dockerImageManifest);
  json_Unmarshal_config :
    list Byte.byte → result dockerImageConfig;
  filetree_Efficiency :
    list (option filetree.FileTree)
    → go (float64 * list filetree.EfficiencyData)
}.

Definition newDockerImageManifest (env : Environment)
    (manifestBytes : list Byte.byte) : go dockerImageManifest :=
  match json_Unmarshal_manifest env manifestBytes with
  | Err err => Panic (LogrusPanic err)
  | Ok manifest => at_index manifest 0
  end.

(** The loop of [newDockerImageConfig] over the history: an empty
    layer gets the id ["<missing>"], any other entry the next diff
    id. *)
Fixpoint assignIDs (diffIds : list string) (layerIdx : Z)
    (history : list dockerImageHistoryEntry)
  : go (list dockerImageHistoryEntry) :=
  match history with
  | [] => mret []
  | h :: rest =>
      if EmptyLayer h then
        rest' ← assignIDs diffIds layerIdx rest;
        mret (setID "<missing>" h :: rest')
      else
        diffId ← at_index diffIds layerIdx;
        rest' ← assignIDs diffIds (layerIdx + 1) rest;
        mret (setID diffId h :: rest')
  end.

Definition newDockerImageConfig (env : Environment)
    (configBytes : list Byte.byte) : go dockerImageConfig :=
  match json_Unmarshal_config env configBytes with
  | Err err => Panic (LogrusPanic err)
  | Ok imageConfig =>
      history ← assignIDs (DiffIds (RootFs imageConfig)) 0
                          (History imageConfig);
      mret {| History := history; RootFs := RootFs imageConfig |}
  end.

(** The loop of [Analyze] that builds the layers array: it walks the
    history forwards and the layers backwards, and ignores the history
    items that have no layer contents. *)
Fixpoint assembleLayers (trees : list (option filetree.FileTree))
    (layerTarPaths : list string)
    (history : list dockerImageHistoryEntry)
    (layers : list (option dockerLayer))
    (layerIdx tarPathIdx : Z) : go (list (option dockerLayer)) :=
  match history with
  | [] => mret layers
  | h :: rest =>
      if EmptyLayer h then
        assembleLayers trees layerTarPaths rest layers layerIdx tarPathIdx
      else
        tree ← at_index trees ((Z.of_nat (length trees) - 1) - layerIdx);
        size ← filetree.totalSize tree;
        let h := setSize (uint64 size) h in
        stored ← at_index trees layerIdx;
        path ← at_index layerTarPaths tarPathIdx;
        layers ← store layers layerIdx
                   (Some {| history := h; index := layerIdx;
                            tree := stored; tarPath := path |});
        assembleLayers trees layerTarPaths rest layers
                       (layerIdx - 1) (tarPathIdx + 1)
  end.

(** The loop of [Analyze] over [image.layers]: it copies every layer
    to the result and adds up the sizes; [v.Size()] reads through the
    pointer [v]. *)
Fixpoint sumLayers (i : Z) (vs : list (option dockerLayer))
    (layers : list dockerLayer) (sizeBytes userSizeBytes : Z)
  : go (list dockerLayer * Z * Z) :=
  match vs with
  | [] => mret (layers, sizeBytes, userSizeBytes)
  | v :: rest =>
      layer ← deref v;
      let sizeBytes := add64 sizeBytes (dockerLayer_Size layer) in
      let userSizeBytes :=
        if i =? 0 then userSizeBytes
        else add64 userSizeBytes (dockerLayer_Size layer) in
      sumLayers (i + 1) rest (layers ++ [layer]) sizeBytes userSizeBytes
  end.

(** The loop of [Analyze] over the inefficiencies, which it reads from
    the last to the first. *)
Definition sumWasted (inefficiencies : list filetree.EfficiencyData) : Z :=
  foldl (fun wastedBytes fileData =>
           add64 wastedBytes (uint64 (filetree.CumulativeSize fileData)))
        0 (reverse inefficiencies).

(** [Analyze] returns the result together with the analyzer, whose
    [trees] and [layers] it has set. *)
Definition Analyze (env : Environment) (image : dockerImageAnalyzer)
  : go (dockerImageAnalyzer * result AnalysisResult) :=
  manifest ← newDockerImageManifest env (jsonFile image "manifest.json");
  config ← newDockerImageConfig env (jsonFile image (ConfigPath manifest));
  let image_trees :=
    (fun treeName => layerMap image !! treeName) <$> LayerTarPaths manifest in
  let image_layers := replicate (length image_trees) None in
  image_layers ← assembleLayers image_trees (LayerTarPaths manifest)
                   (History config) image_layers
                   (Z.of_nat (length image_trees) - 1) 0;
  '(efficiency, inefficiencies) ← filetree_Efficiency env image_trees;
  '(layers, sizeBytes, userSizeBytes) ← sumLayers 0 image_layers [] 0 0;
  let wastedBytes := sumWasted inefficiencies in
  mret ({| id := id image; jsonFiles := jsonFiles image;
           trees := image_trees; layerMap := layerMap image;
           layers := image_layers |},
        Ok {| Layers := layers;
              RefTrees := image_trees;
              Efficiency := efficiency;
              UserSizeByes := userSizeBytes;
              SizeBytes := sizeBytes;
              WastedBytes := wastedBytes;
              WastedUserPercent :=
                float64_quo (float64_of_uint64 wastedBytes)
                            (float64_of_uint64 userSizeBytes);
              Inefficiencies := inefficiencies |}).

(** ** Vocabulary of the statements *)

(** The history entries that have layer contents, in the order of the
    history. *)
Definition contentHistory (history : list dockerImageHistoryEntry)
  : list dockerImageHistoryEntry :=
  filter (fun h => EmptyLayer h = false) history.

(** The sum of a list of sizes. *)
Definition sumZ (xs : list Z) : Z := foldr Z.add 0 xs.

(** An entry of extended-header type. *)
Definition isExtendedHeader (header : tar.Header) : bool :=
  (tar.Typeflag header =? tar.TypeXGlobalHeader)
  || (tar.Typeflag header =? tar.TypeXHeader).

(** The message of the format error for an entry. *)
Definition formatErrorMessage (header : tar.Header) : string :=
  if tar.Typeflag header =? tar.TypeXGlobalHeader
  then "Provided Tar file '" +:+ tar.Name header
       +:+ "' has unexpected header '103' (XGlobalHeader)"
  else "Provided Tar file '" +:+ tar.Name header
       +:+ "' has unexpected header '120' (XHeader)".

(** A runtime panic, as opposed to a call of [logrus.Panic]. *)
Definition runtimePanic (p : panic) : Prop :=
  p = IndexOutOfRange ∨ p = NilDereference.

(** The layer that the loop stores for the content entry [h] that is
    number [j] of the history, counted among the content entries. *)
Definition assembledAt (ts : list (option filetree.FileTree))
    (ps : list string) (j : nat) (h : dockerImageHistoryEntry)
    (layer : dockerLayer) : Prop :=
  ∃ t stored path,
    ts !! j = Some (Some t)
    ∧ ts !! (length ts - 1 - j)%nat = Some stored
    ∧ ps !! j = Some path
    ∧ layer = {| history := setSize (uint64 (filetree.FileSize t)) h;
                 index := Z.of_nat (length ts) - 1 - Z.of_nat j;
                 tree := stored;
                 tarPath := path |}.

(** The trees of an image, in the order of the manifest. *)
Definition manifestTrees (image : dockerImageAnalyzer)
    (m : dockerImageManifest) : list (option filetree.FileTree) :=
  (fun treeName => layerMap image !! treeName) <$> LayerTarPaths m.

(** A well-formed image: the manifest and the config decode, the
    history has as many entries with contents as the manifest has
    layers and the config has diff ids for them, every layer of the
    manifest has its tree, and [Efficiency] returns. *)
Definition wellFormed (env : Environment) (image : dockerImageAnalyzer)
    (m : dockerImageManifest) (cfg : dockerImageConfig) : Prop :=
  (∃ ms, json_Unmarshal_manifest env (jsonFile image "manifest.json")
         = Ok (m :: ms))
  ∧ json_Unmarshal_config env (jsonFile image (ConfigPath m)) = Ok cfg
  ∧ length (contentHistory (History cfg)) = length (LayerTarPaths m)
  ∧ (length (contentHistory (History cfg)) ≤ length (DiffIds (RootFs cfg)))%nat
  ∧ (∀ path, path ∈ LayerTarPaths m → is_Some (layerMap image !! path))
  ∧ ∃ scored, filetree_Efficiency env (manifestTrees image m) = Return scored.

(** ** Sample images *)

(** A regular file of a layer archive. *)
Definition regularFile (name : string) (size : Z) : tar.Header :=
  {| tar.Name := name; tar.Typeflag := tar.TypeReg;
     tar.Size := size; tar.Linkname := "" |}.

Definition archiveOf (entries : list tar.Header) : tar.Reader :=
  {| tar.entries := entries; tar.failure := None |}.

(** The trees of three layer archives, as [processLayerTar] builds
    them; a failed build leaves no tree. *)
Definition builtTree (name : string) (entries : list tar.Header)
  : option filetree.FileTree :=
  match processLayerTar name 1 (archiveOf entries) with
  | Ok tree => Some tree
  | Err _ => None
  end.

Definition sampleLayerMap (layerFiles : list (string * list tar.Header))
  : gmap string filetree.FileTree :=
  foldl (fun m nf =>
           match builtTree nf.1 nf.2 with
           | Some tree => <[nf.1 := tree]> m
           | None => m
           end) ∅ layerFiles.

Definition baseFiles : list tar.Header := [regularFile "bin/sh" 500].
Definition appFiles : list tar.Header := [regularFile "app" 10].
Definition etcFiles : list tar.Header := [regularFile "etc/motd" 3].

(** JSON text is written with [dq] for the double quote. *)
Definition dq : string := String (ascii_of_nat 34) EmptyString.
Definition quoted (s : string) : string := dq +:+ s +:+ dq.

Definition manifestJSON (layerPaths : string) : string :=
  "[{" +:+ quoted "Config" +:+ ":" +:+ quoted "config.json" +:+ ","
  +:+ quoted "Layers" +:+ ":[" +:+ layerPaths +:+ "]}]".

(** A manifest of two layers and a manifest of three layers. *)
Definition manifestTwoJSON : string :=
  manifestJSON (quoted "a/layer.tar" +:+ "," +:+ quoted "b/layer.tar").

Definition manifestThreeJSON : string :=
  manifestJSON (quoted "a/layer.tar" +:+ "," +:+ quoted "b/layer.tar"
                +:+ "," +:+ quoted "c/layer.tar").

(** A config whose history has two entries with contents and, between
    them, one without. *)
Definition configJSON : string :=
  "{" +:+ quoted "history" +:+ ":[{" +:+ quoted "created_by" +:+ ":"
  +:+ quoted "/bin/sh -c #(nop) ADD file:1 in /" +:+ "},{"
  +:+ quoted "created_by" +:+ ":" +:+ quoted "/bin/sh -c #(nop) ENV A=1"
  +:+ "," +:+ quoted "empty_layer" +:+ ":true},{"
  +:+ quoted "created_by" +:+ ":" +:+ quoted "/bin/sh -c make install"
  +:+ "}]," +:+ quoted "rootfs" +:+ ":{" +:+ quoted "diff_ids" +:+ ":["
  +:+ quoted "sha256:aa" +:+ "," +:+ quoted "sha256:bb" +:+ "]}}".

Definition sampleManifest (paths : list string) : dockerImageManifest :=
  {| ConfigPath := "config.json"; LayerTarPaths := paths |}.

Definition sampleEntry (createdBy : string) (empty : bool)
  : dockerImageHistoryEntry :=
  {| ID := ""; Size := 0; CreatedBy := createdBy; EmptyLayer := empty |}.

Definition sampleConfig : dockerImageConfig :=
  {| History := [sampleEntry "/bin/sh -c #(nop) ADD file:1 in /" false;
                 sampleEntry "/bin/sh -c #(nop) ENV A=1" true;
                 sampleEntry "/bin/sh -c make install" false];
     RootFs := {| DiffIds := ["sha256:aa"; "sha256:bb"] |} |}.

(** The errors of [json.Unmarshal] on the text [not json] and on a
    text that ends too early. *)
Definition jsonInvalidCharacter : error :=
  libError "invalid character 'o' in literal null (expecting 'u')".

Definition jsonUnexpectedEnd : error :=
  libError "unexpected end of JSON input".

(** The sample environment: [json.Unmarshal] on the documents of the
    sample images, which hold the texts above, [[]], [not json], [{]
    and no others, and an [Efficiency] that finds nothing wasted. *)
Definition sampleEnv : Environment :=
  {| json_Unmarshal_manifest := fun b =>
       let text := string_of_list_byte b in
       if String.eqb text manifestTwoJSON
       then Ok [sampleManifest ["a/layer.tar"; "b/layer.tar"]]
       else if String.eqb text manifestThreeJSON
       then Ok [sampleManifest ["a/layer.tar"; "b/layer.tar"; "c/layer.tar"]]
       else if String.eqb text "[]" then Ok []
       else if String.eqb text "not json" then Err jsonInvalidCharacter
       else Err jsonUnexpectedEnd;
     json_Unmarshal_config := fun b =>
       if String.eqb (string_of_list_byte b) configJSON
       then Ok sampleConfig
       else Err jsonUnexpectedEnd;
     filetree_Efficiency := fun _ => Return (float64_of_uint64 1, []) |}.

Definition sampleImage (manifest : string)
    (layerFiles : list (string * list tar.Header)) : dockerImageAnalyzer :=
  {| id := "sample";
     jsonFiles := <["manifest.json" := list_byte_of_string manifest]>
                  (<["config.json" := list_byte_of_string configJSON]> ∅);
     trees := [];
     layerMap := sampleLayerMap layerFiles;
     layers := [] |}.

(** Two layers, both parsed. *)
Definition twoLayerImage : dockerImageAnalyzer :=
  sampleImage manifestTwoJSON
    [("a/layer.tar", baseFiles); ("b/layer.tar", appFiles)].

(** Three layers in the manifest, two entries with contents in the
    history. *)
Definition threeLayerImage : dockerImageAnalyzer :=
  sampleImage manifestThreeJSON
    [("a/layer.tar", baseFiles); ("b/layer.tar", appFiles);
     ("c/layer.tar", etcFiles)].

(** Two layers in the manifest, of which only the first was parsed. *)
Definition truncatedImage : dockerImageAnalyzer :=
  sampleImage manifestTwoJSON [("a/layer.tar", baseFiles)].

(** A manifest that is no JSON, and a manifest that is an empty
    array. *)
Definition brokenImage : dockerImageAnalyzer :=
  sampleImage "not json" [("a/layer.tar", baseFiles)].

Definition emptyManifestImage : dockerImageAnalyzer :=
  sampleImage "[]" [("a/layer.tar", baseFiles)].

(** Layers, archives and an image for the examples below. *)
Definition shellLayer : dockerLayer :=
  {| tarPath := "b/layer.tar";
     history := sampleEntry "/bin/sh -c make install" false;
     index := 0; tree := None |}.

Definition plainLayer : dockerLayer :=
  {| tarPath := "a/layer.tar";
     history := sampleEntry "bash -c make" false;
     index := 1; tree := None |}.

Definition rewrittenFiles : list tar.Header :=
  [regularFile "a" 100; regularFile "a" 40; regularFile "b" 10;
   {| tar.Name := "c"; tar.Typeflag := tar.TypeLink;
      tar.Size := 5; tar.Linkname := "a" |}].

(** The header that [Next] yields for a global extended header, the
    first record of an archive that [git archive] writes, and a layer
    that holds one. *)
Definition globalHeader : tar.Header :=
  {| tar.Name := "pax_global_header"; tar.Typeflag := tar.TypeXGlobalHeader;
     tar.Size := 0; tar.Linkname := "" |}.

Definition extendedFiles : list tar.Header :=
  [regularFile "a" 100; globalHeader; regularFile "b" 10].

Definition brokenConfigImage : dockerImageAnalyzer :=
  {| id := "sample";
     jsonFiles := <["manifest.json" := list_byte_of_string manifestTwoJSON]>
                  (<["config.json" := list_byte_of_string "{"]> ∅);
     trees := []; layerMap := ∅; layers := [] |}.

(** ** Package [image]: reading the image archive *)

(** One entry of the outer archive, as [Parse] meets it: its header,
    the records that a [tar.Reader] opened on its contents yields, and
    what [ioutil.ReadAll] returns for its contents. *)
Record imageEntry : Type := {
  entryHeader : tar.Header;
  entryLayer : tar.Reader;
  entryBytes : result (list Byte.byte)
}.

(** The outer archive: its entries and how their sequence ends,
    [None] for [io.EOF] and [Some e] for a read error. *)
Record imageArchive : Type := {
  imageEntries : list imageEntry;
  imageFailure : option error
}.

(** A run that may end the process through [utils.Exit]. *)
Inductive exits (A : Type) : Type :=
| Continues (a : A)
| Exits (code : Z).
Arguments Continues {A} a.
Arguments Exits {A} code.

Definition setLayerMap (layerMap' : gmap string filetree.FileTree)
    (image : dockerImageAnalyzer) : dockerImageAnalyzer :=
  {| id := id image; jsonFiles := jsonFiles image; trees := trees image;
     layerMap := layerMap'; layers := layers image |}.

Definition setJsonFiles (jsonFiles' : gmap string (list Byte.byte))
    (image : dockerImageAnalyzer) : dockerImageAnalyzer :=
  {| id := id image; jsonFiles := jsonFiles'; trees := trees image;
     layerMap := layerMap image; layers := layers image |}.

(** The loop of [Parse] over the outer archive. A read error prints
    and exits with code 1. An entry that is neither a symlink nor a
    regular file is passed over. An entry whose name ends in
    [layer.tar] is read as a layer archive: its tree goes to the layer
    map under the name of the entry, and its error, if any, is
    returned. An entry whose name ends in [.json] goes to the JSON
    files. [currentLayer] counts the layer archives; it is a [uint],
    which [processLayerTar] does not read. *)
Fixpoint Parse_loop (entries : list imageEntry) (failure : option error)
    (currentLayer : Z) (image : dockerImageAnalyzer)
  : exits (dockerImageAnalyzer * option error) :=
  match entries with
  | [] =>
      match failure with
      | None => Continues (image, None)
      | Some err => Exits 1
      end
  | entry :: rest =>
      let header := entryHeader entry in
      let name := tar.Name header in
      if negb (tar.Typeflag header =? tar.TypeSymlink)
         && negb (tar.Typeflag header =? tar.TypeReg)
      then Parse_loop rest failure currentLayer image
      else if GoStrings.HasSuffix name "layer.tar" then
        let currentLayer := currentLayer + 1 in
        match processLayerTar name currentLayer (entryLayer entry) with
        | Err err => Continues (image, Some err)
        | Ok tree =>
            Parse_loop rest failure currentLayer
              (setLayerMap (<[name := tree]> (layerMap image)) image)
        end
      else if GoStrings.HasSuffix name ".json" then
        match entryBytes entry with
        | Err err => Continues (image, Some err)
        | Ok fileBuffer =>
            Parse_loop rest failure currentLayer
              (setJsonFiles (<[name := fileBuffer]> (jsonFiles image)) image)
        end
      else Parse_loop rest failure currentLayer image
  end.

(** [Parse] returns the analyzer as it has filled it and the error,
    if any, or exits. *)
Definition Parse (image : dockerImageAnalyzer) (tarFile : imageArchive)
  : exits (dockerImageAnalyzer * option error) :=
  Parse_loop (imageEntries tarFile) (imageFailure tarFile) 0 image.

(** [GetAnalyzer] returns the docker analyzer of an image id. *)
Definition GetAnalyzer (imageID : string) : dockerImageAnalyzer :=
  newDockerImageAnalyzer imageID.

(** ** The second version of the sources *)

(** The sources hold a second version of [getFileList] and of
    [ShortId]. *)
Module Variant.

(** This [getFileList] prints a read error and exits with code 1
    where the other returns the error. *)
Fixpoint getFileList_loop (entries : list tar.Header) (failure : option error)
    (files : list filetree.FileInfo)
  : exits (result (list filetree.FileInfo)) :=
  match entries with
  | [] =>
      match failure with
      | None => Continues (Ok files)
      | Some err => Exits 1
      end
  | header :: rest =>
      let name := tar.Name header in
      if tar.Typeflag header =? tar.TypeXGlobalHeader then
        Continues
          (Err (fmtErrorf ("Provided Tar file '" +:+ name
                           +:+ "' has unexpected header '103' (XGlobalHeader)")))
      else if tar.Typeflag header =? tar.TypeXHeader then
        Continues
          (Err (fmtErrorf ("Provided Tar file '" +:+ name
                           +:+ "' has unexpected header '120' (XHeader)")))
      else
        getFileList_loop rest failure
          (files ++ [filetree.NewFileInfo header name])
  end.

Definition getFileList (tarReader : tar.Reader)
  : exits (result (list filetree.FileInfo)) :=
  getFileList_loop (tar.entries tarReader) (tar.failure tarReader) [].

(** This [ShortId] lowers the bound of the slice to the length of a
    short id. *)
Definition dockerLayer_ShortId (layer : dockerLayer) : string :=
  let id := dockerLayer_Id layer in
  let rangeBound :=
    if (String.length id <? 25)%nat then String.length id else 25%nat in
  substring 0 rangeBound id.

End Variant.

(** ** More vocabulary *)

(** An entry that [Parse] reads: a symlink or a regular file. *)
Definition isFileEntry (entry : imageEntry) : bool :=
  (tar.Typeflag (entryHeader entry) =? tar.TypeSymlink)
  || (tar.Typeflag (entryHeader entry) =? tar.TypeReg).

(** An entry that [Parse] reads as a layer archive, and one that it
    reads as a JSON file. *)
Definition isLayerEntry (entry : imageEntry) : bool :=
  isFileEntry entry
  && GoStrings.HasSuffix (tar.Name (entryHeader entry)) "layer.tar".

Definition isJsonEntry (entry : imageEntry) : bool :=
  isFileEntry entry
  && negb (GoStrings.HasSuffix (tar.Name (entryHeader entry)) "layer.tar")
  && GoStrings.HasSuffix (tar.Name (entryHeader entry)) ".json".

Definition entryName (entry : imageEntry) : string :=
  tar.Name (entryHeader entry).

(** The last entry of an archive that satisfies [select] and has the
    given name. *)
Definition lastEntry (select : imageEntry → bool) (name : string)
    (entries : list imageEntry) : option imageEntry :=
  last (filter (fun e => select e = true ∧ entryName e = name) entries).

(** An analyzer whose keys are well named: a key of the layer map
    ends in [layer.tar] and is the name of its tree, a key of the JSON
    files ends in [.json] and not in [layer.tar]. *)
Definition keysWellNamed (image : dockerImageAnalyzer) : Prop :=
  (∀ name tree, layerMap image !! name = Some tree →
     GoStrings.HasSuffix name "layer.tar" = true
     ∧ filetree.Name tree = name)
  ∧ (∀ name, is_Some (jsonFiles image !! name) →
       GoStrings.HasSuffix name ".json" = true
       ∧ GoStrings.HasSuffix name "layer.tar" = false).

(** ** More sample images *)

(** An environment whose config has one diff id for two history
    entries with contents. *)
Definition shortDiffIdsEnv : Environment :=
  {| json_Unmarshal_manifest := json_Unmarshal_manifest sampleEnv;
     json_Unmarshal_config := fun _ =>
       Ok {| History := History sampleConfig;
             RootFs := {| DiffIds := ["sha256:aa"] |} |};
     filetree_Efficiency := filetree_Efficiency sampleEnv |}.

(** An image of one layer: its manifest, its config and the
    environment that decodes them. *)
Definition manifestOneJSON : string := manifestJSON (quoted "a/layer.tar").

Definition configOneJSON : string :=
  "{" +:+ quoted "history" +:+ ":[{" +:+ quoted "created_by" +:+ ":"
  +:+ quoted "/bin/sh -c #(nop) ADD file:1 in /" +:+ "}],"
  +:+ quoted "rootfs" +:+ ":{" +:+ quoted "diff_ids" +:+ ":["
  +:+ quoted "sha256:aa" +:+ "]}}".

Definition configOne : dockerImageConfig :=
  {| History := [sampleEntry "/bin/sh -c #(nop) ADD file:1 in /" false];
     RootFs := {| DiffIds := ["sha256:aa"] |} |}.

Definition oneLayerEnv : Environment :=
  {| json_Unmarshal_manifest := fun b =>
       if String.eqb (string_of_list_byte b) manifestOneJSON
       then Ok [sampleManifest ["a/layer.tar"]]
       else Err jsonUnexpectedEnd;
     json_Unmarshal_config := fun b =>
       if String.eqb (string_of_list_byte b) configOneJSON
       then Ok configOne
       else Err jsonUnexpectedEnd;
     filetree_Efficiency := fun _ => Return (float64_of_uint64 1, []) |}.

Definition oneLayerImage : dockerImageAnalyzer :=
  {| id := "sample";
     jsonFiles := <["manifest.json" := list_byte_of_string manifestOneJSON]>
                  (<["config.json" := list_byte_of_string configOneJSON]> ∅);
     trees := [];
     layerMap := sampleLayerMap [("a/layer.tar", baseFiles)];
     layers := [] |}.

(** An environment whose [Efficiency] reports two inefficiencies. *)
Definition wastefulEnv : Environment :=
  {| json_Unmarshal_manifest := json_Unmarshal_manifest sampleEnv;
     json_Unmarshal_config := json_Unmarshal_config sampleEnv;
     filetree_Efficiency := fun _ =>
       Return (float64_of_uint64 0,
               [{| filetree.CumulativeSize := 100 |};
                {| filetree.CumulativeSize := 40 |}]) |}.

(** An analyzer that holds the manifest and not the config. *)
Definition manifestOnlyImage : dockerImageAnalyzer :=
  {| id := "sample";
     jsonFiles := <["manifest.json" := list_byte_of_string manifestTwoJSON]> ∅;
     trees := []; layerMap := ∅; layers := [] |}.

(** ** Sample archives *)

(** The entries of a saved image. Of the two views of the contents of
    an entry, the one that [Parse] does not read is left empty. *)
Definition noArchive : tar.Reader :=
  {| tar.entries := []; tar.failure := Some (libError "unexpected EOF") |}.

Definition layerEntry (name : string) (files : list tar.Header) : imageEntry :=
  {| entryHeader := regularFile name 0;
     entryLayer := archiveOf files;
     entryBytes := Ok [] |}.

Definition jsonEntry (name text : string) : imageEntry :=
  {| entryHeader := regularFile name (Z.of_nat (String.length text));
     entryLayer := noArchive;
     entryBytes := Ok (list_byte_of_string text) |}.

Definition otherEntry (name : string) (typeflag : Z) : imageEntry :=
  {| entryHeader := {| tar.Name := name; tar.Typeflag := typeflag;
                       tar.Size := 0; tar.Linkname := "" |};
     entryLayer := noArchive;
     entryBytes := Ok [] |}.

(** A saved image of two layers, as [docker save] lays it out. *)
Definition savedImage : imageArchive :=
  {| imageEntries :=
       [otherEntry "a/" tar.TypeDir;
        otherEntry "a/VERSION" tar.TypeReg;
        otherEntry "a/json" tar.TypeReg;
        layerEntry "a/layer.tar" baseFiles;
        otherEntry "b/" tar.TypeDir;
        layerEntry "b/layer.tar" appFiles;
        jsonEntry "config.json" configJSON;
        jsonEntry "manifest.json" manifestTwoJSON;
        otherEntry "repositories" tar.TypeReg];
     imageFailure := None |}.

(** An image cut short by a read error. *)
Definition savedImageCut : imageArchive :=
  {| imageEntries := [layerEntry "a/layer.tar" baseFiles];
     imageFailure := Some (libError "unexpected EOF") |}.

(** An archive that holds the layer [a/layer.tar] twice. *)
Definition savedImageTwice : imageArchive :=
  {| imageEntries :=
       [layerEntry "a/layer.tar" etcFiles;
        layerEntry "a/layer.tar" appFiles];
     imageFailure := None |}.

(** An image whose manifest has one layer and whose history has two
    entries with contents, and the environment that decodes it. *)
Definition oneOfTwoEnv : Environment :=
  {| json_Unmarshal_manifest := json_Unmarshal_manifest oneLayerEnv;
     json_Unmarshal_config := json_Unmarshal_config sampleEnv;
     filetree_Efficiency := filetree_Efficiency sampleEnv |}.

Definition oneTreeTooFew : dockerImageAnalyzer :=
  {| id := "sample";
     jsonFiles := <["manifest.json" := list_byte_of_string manifestOneJSON]>
                  (<["config.json" := list_byte_of_string configJSON]> ∅);
     trees := [];
     layerMap := sampleLayerMap [("a/layer.tar", baseFiles)];
     layers := [] |}.

(** ** Package [archive/tar]: from the records of an archive to [Next]

    [Next] does not yield every record of an archive. A record of type
    [XHeader], [GNULongName] or [GNULongLink] is a meta header that
    affects the next header: [Next] reads its payload, goes on to the
    record that follows and yields that one, with the fields that the
    payload gives. A record of type [XGlobalHeader] is yielded, with
    its name and its type. *)

Module tarfile.

Definition TypeGNULongName : Z := 76.    (* 'L' *)
Definition TypeGNULongLink : Z := 75.    (* 'K' *)

(** The PAX records of the payload of an extended header that set a
    field of [tar.Header] that the analyzer reads: [path], [linkpath]
    and [size]. *)
Record PAXRecords : Type := {
  paxPath : option string;
  paxLinkpath : option string;
  paxSize : option Z
}.

(** One record of an archive that [Next] decodes without an error: its
    header block, the PAX records of its payload when it is an
    extended header, and the name in its payload when it is a GNU
    long name or long link. Sparse files are left out. *)
Record Block : Type := {
  header : tar.Header;
  paxRecords : PAXRecords;
  longName : string
}.

(** An archive: its records, and how reading it ends, [None] for
    [io.EOF] and [Some e] for a read error. *)
Record Archive : Type := {
  blocks : list Block;
  ending : option error
}.

Definition noRecords : PAXRecords :=
  {| paxPath := None; paxLinkpath := None; paxSize := None |}.

(** [mergePAX] overwrites the fields of the header for which there is
    a PAX record. *)
Definition mergePAX (hdr : tar.Header) (paxHdrs : PAXRecords) : tar.Header :=
  {| tar.Name := default (tar.Name hdr) (paxPath paxHdrs);
     tar.Typeflag := tar.Typeflag hdr;
     tar.Size := default (tar.Size hdr) (paxSize paxHdrs);
     tar.Linkname := default (tar.Linkname hdr) (paxLinkpath paxHdrs) |}.

(** The header that [Next] returns for a record that is no meta
    header: the PAX records and the GNU long names read since the last
    header go into it, and the type [TypeRegA] of old archives becomes
    [TypeDir] for a name that ends in a slash and [TypeReg]
    otherwise. *)
Definition fileHeader (hdr : tar.Header) (paxHdrs : PAXRecords)
    (gnuLongName gnuLongLink : string) : tar.Header :=
  let hdr := mergePAX hdr paxHdrs in
  let name := if String.eqb gnuLongName "" then tar.Name hdr else gnuLongName in
  let linkname :=
    if String.eqb gnuLongLink "" then tar.Linkname hdr else gnuLongLink in
  let typeflag :=
    if tar.Typeflag hdr =? tar.TypeRegA
    then if GoStrings.HasSuffix name "/" then tar.TypeDir else tar.TypeReg
    else tar.Typeflag hdr in
  {| tar.Name := name; tar.Typeflag := typeflag;
     tar.Size := tar.Size hdr; tar.Linkname := linkname |}.

(** The headers that the successive calls of [Next] yield on the
    records of an archive. [paxHdrs], [gnuLongName] and [gnuLongLink]
    are the locals of one call: what the meta headers read in this
    call have given so far. *)
Fixpoint Next (paxHdrs : PAXRecords) (gnuLongName gnuLongLink : string)
    (blocks : list Block) : list tar.Header :=
  match blocks with
  | [] => []
  | block :: rest =>
      let hdr := header block in
      if tar.Typeflag hdr =? tar.TypeXGlobalHeader then
        {| tar.Name := tar.Name (mergePAX hdr (paxRecords block));
           tar.Typeflag := tar.Typeflag hdr;
           tar.Size := 0; tar.Linkname := "" |}
        :: Next noRecords "" "" rest
      else if tar.Typeflag hdr =? tar.TypeXHeader then
        Next (paxRecords block) gnuLongName gnuLongLink rest
      else if tar.Typeflag hdr =? TypeGNULongName then
        Next paxHdrs (longName block) gnuLongLink rest
      else if tar.Typeflag hdr =? TypeGNULongLink then
        Next paxHdrs gnuLongName (longName block) rest
      else
        fileHeader hdr paxHdrs gnuLongName gnuLongLink
        :: Next noRecords "" "" rest
  end.

(** [tar.NewReader] on an archive. *)
Definition NewReader (archive : Archive) : tar.Reader :=
  {| tar.entries := Next noRecords "" "" (blocks archive);
     tar.failure := ending archive |}.

End tarfile.

(** A record without a payload that [Next] interprets. *)
Definition plainBlock (hdr : tar.Header) : tarfile.Block :=
  {| tarfile.header := hdr; tarfile.paxRecords := tarfile.noRecords;
     tarfile.longName := "" |}.

(** A layer archive in PAX format: the record of the file [b] comes
    after an extended header that holds its times. *)
Definition paxBlock : tarfile.Block :=
  plainBlock {| tar.Name := "PaxHeaders/b"; tar.Typeflag := tar.TypeXHeader;
                tar.Size := 30; tar.Linkname := "" |}.

Definition paxArchive : tarfile.Archive :=
  {| tarfile.blocks :=
       [plainBlock (regularFile "a" 100); paxBlock;
        plainBlock (regularFile "b" 10)];
     tarfile.ending := None |}.

(** A layer archive with a global extended header between two
    files. *)
Definition globalBlock : tarfile.Block :=
  plainBlock {| tar.Name := "pax_global_header";
                tar.Typeflag := tar.TypeXGlobalHeader;
                tar.Size := 52; tar.Linkname := "" |}.

Definition globalArchive : tarfile.Archive :=
  {| tarfile.blocks :=
       [plainBlock (regularFile "a" 100); globalBlock;
        plainBlock (regularFile "b" 10)];
     tarfile.ending := None |}.

(** An entry of the outer archive whose contents are a layer
    archive. *)
Definition layerArchiveEntry (name : string) (archive : tarfile.Archive)
  : imageEntry :=
  {| entryHeader := regularFile name 0;
     entryLayer := tarfile.NewReader archive;
     entryBytes := Ok [] |}.

(** ** The values of [float64]

    A [float64] is an IEEE-754 binary64 number. The conversion of a
    [uint64] rounds to the nearest number, to the even one of two that
    are as near, and the division is the division of IEEE-754. *)







(** * Properties *)

(** ** Strings *)

Lemma substring_whole (s : string) : substring 0 (String.length s) s = s.
Proof. induction s as [|c s IH]; simpl; [done | by rewrite IH]. Qed.

Lemma substring_skip_app (p r : string) (m : nat) :
  substring (String.length p) m (p +:+ r) = substring 0 m r.
Proof. induction p as [|c p IH]; simpl; [by destruct m, r | done]. Qed.

Lemma substring_take_app (p r : string) :
  substring 0 (String.length p) (p +:+ r) = p.
Proof. induction p as [|c p IH]; simpl; [by destruct r | by rewrite IH]. Qed.

Lemma string_length_app (p r : string) :
  String.length (p +:+ r) = (String.length p + String.length r)%nat.
Proof. induction p as [|c p IH]; simpl; [done | by rewrite IH]. Qed.

Lemma substring_split (n : nat) (s : string) :
  (n ≤ String.length s)%nat →
  s = substring 0 n s +:+ substring n (String.length s - n) s.
Proof.
  revert s. induction n as [|n IH]; intros s Hn.
  - rewrite Nat.sub_0_r, substring_whole. by destruct s.
  - destruct s as [|c s]; simpl in *; [lia |].
    change (String c s = String c (substring 0 n s
              +:+ substring n (String.length s - n) s)).
    f_equal. apply IH. lia.
Qed.

Lemma HasPrefix_true (s p : string) :
  GoStrings.HasPrefix s p = true ↔ ∃ r, s = p +:+ r.
Proof.
  unfold GoStrings.HasPrefix. split.
  - intros [Hlen Heq]%andb_true_iff.
    apply Nat.leb_le in Hlen. apply String.eqb_eq in Heq.
    exists (substring (String.length p) (String.length s - String.length p) s).
    rewrite <- Heq at 1. by apply substring_split.
  - intros [r ->]. apply andb_true_iff. split.
    + apply Nat.leb_le. rewrite string_length_app. lia.
    + apply String.eqb_eq, substring_take_app.
Qed.

Lemma TrimPrefix_app (p r : string) : GoStrings.TrimPrefix (p +:+ r) p = r.
Proof.
  unfold GoStrings.TrimPrefix.
  destruct (GoStrings.HasPrefix (p +:+ r) p) eqn:H.
  - rewrite substring_skip_app, string_length_app.
    replace (String.length p + String.length r - String.length p)%nat
      with (String.length r) by lia.
    apply substring_whole.
  - assert (GoStrings.HasPrefix (p +:+ r) p = true) as H'
      by (apply HasPrefix_true; eauto).
    congruence.
Qed.

Lemma TrimPrefix_no_prefix (s p : string) :
  (¬ ∃ r, s = p +:+ r) → GoStrings.TrimPrefix s p = s.
Proof.
  intros Hno. unfold GoStrings.TrimPrefix.
  destruct (GoStrings.HasPrefix s p) eqn:H; [|done].
  apply HasPrefix_true in H. contradiction.
Qed.

(** C10. [Command] returns the [CreatedBy] of the history entry of the
    layer without the prefix ["/bin/sh -c "] when [CreatedBy] starts
    with it, and [CreatedBy] itself when it does not. *)
Theorem Command_trims_shell_prefix (layer : dockerLayer) :
  (∀ rest, CreatedBy (history layer) = "/bin/sh -c " +:+ rest →
           dockerLayer_Command layer = rest)
  ∧ ((¬ ∃ rest, CreatedBy (history layer) = "/bin/sh -c " +:+ rest) →
     dockerLayer_Command layer = CreatedBy (history layer)).
Proof.
  unfold dockerLayer_Command. split.
  - intros rest ->. apply TrimPrefix_app.
  - apply TrimPrefix_no_prefix.
Qed.

Lemma Command_trims_shell_prefix_witness :
  dockerLayer_Command shellLayer = "make install"
  ∧ dockerLayer_Command plainLayer = "bash -c make".
Proof.
  split.
  - apply (proj1 (Command_trims_shell_prefix shellLayer) "make install").
    reflexivity.
  - apply (proj2 (Command_trims_shell_prefix plainLayer)).
    intros [rest H]. simpl in H. discriminate H.
Defined.

(** ** Unsigned arithmetic *)

Lemma add64_uint64_r (a x : Z) : add64 a (uint64 x) = uint64 (a + x).
Proof. unfold add64, uint64. apply Zplus_mod_idemp_r. Qed.

Lemma uint64_add_l (a b : Z) : uint64 (uint64 a + b) = uint64 (a + b).
Proof. unfold uint64. apply Zplus_mod_idemp_l. Qed.

Lemma uint64_add_r (a b : Z) : uint64 (a + uint64 b) = uint64 (a + b).
Proof. unfold uint64. apply Zplus_mod_idemp_r. Qed.

Lemma uint64_idemp (a : Z) : uint64 (uint64 a) = uint64 a.
Proof. unfold uint64. apply Zmod_mod. Qed.

Lemma add64_uint64 (a b : Z) : add64 a b = uint64 (a + b).
Proof. reflexivity. Qed.

(** ** Reading one layer archive *)

Lemma getFileList_loop_ok (entries : list tar.Header)
    (files : list filetree.FileInfo) :
  Forall (fun h => isExtendedHeader h = false) entries →
  getFileList_loop entries None files
  = Ok (files ++ ((fun h => filetree.NewFileInfo h (tar.Name h)) <$> entries)).
Proof.
  revert files. induction entries as [|h rest IH]; intros files Hall; simpl.
  - by rewrite app_nil_r.
  - apply Forall_cons in Hall as [Hh Hrest].
    unfold isExtendedHeader in Hh. apply orb_false_iff in Hh as [-> ->].
    rewrite IH by done. by rewrite <- app_assoc.
Qed.

Lemma getFileList_loop_extended (entries : list tar.Header)
    (failure : option error) (files : list filetree.FileInfo) :
  (∃ h, h ∈ entries ∧ isExtendedHeader h = true) →
  ∃ before h after,
    entries = before ++ h :: after
    ∧ Forall (fun x => isExtendedHeader x = false) before
    ∧ isExtendedHeader h = true
    ∧ getFileList_loop entries failure files
      = Err (fmtErrorf (formatErrorMessage h)).
Proof.
  revert files. induction entries as [|x rest IH]; intros files [h [Hin Hext]].
  - by apply elem_of_nil in Hin.
  - destruct (isExtendedHeader x) eqn:Hx.
    + exists [], x, rest. repeat split; [constructor | done |].
      simpl. unfold formatErrorMessage. unfold isExtendedHeader in Hx.
      destruct (tar.Typeflag x =? tar.TypeXGlobalHeader) eqn:Hg; [done |].
      simpl in Hx. by rewrite Hx.
    + apply elem_of_cons in Hin as [-> | Hin]; [congruence |].
      destruct (IH (files ++ [filetree.NewFileInfo x (tar.Name x)]))
        as (before & h' & after & -> & Hbefore & Hh' & Hrun); [by eauto |].
      exists (x :: before), h', after. repeat split; [by constructor | done |].
      simpl. unfold isExtendedHeader in Hx.
      apply orb_false_iff in Hx as [-> ->]. exact Hrun.
Qed.

Lemma processLayerTar_loop_FileSize (fileInfos : list filetree.FileInfo)
    (tree : filetree.FileTree) :
  ∃ tree',
    processLayerTar_loop tree fileInfos = Ok tree'
    ∧ filetree.Name tree' = filetree.Name tree
    ∧ (fileInfos ≠ [] ∨ filetree.FileSize tree = uint64 (filetree.FileSize tree) →
       filetree.FileSize tree'
       = uint64 (filetree.FileSize tree + sumZ (filetree.Size <$> fileInfos))).
Proof.
  revert tree. induction fileInfos as [|f rest IH]; intros tree; simpl.
  - exists tree. repeat split. intros [? | H]; [done |].
    by rewrite Z.add_0_r.
  - match goal with |- context [processLayerTar_loop ?t rest] =>
      destruct (IH t) as (tree' & Hrun & Hname & Hsize) end.
    exists tree'. split; [exact Hrun |]. split; [exact Hname |].
    intros _. rewrite Hsize; simpl.
    + rewrite add64_uint64_r, uint64_add_l. f_equal.
      symmetry. apply Z.add_assoc.
    + right. by rewrite add64_uint64_r, uint64_idemp.
Qed.


(** C6, as the code has it. A layer archive without extended headers
    that is read to its end builds a tree, and the [FileSize] of the
    tree is the sum, modulo 2^64, of the sizes of all the records of
    the archive: every record counts, whatever its kind, and also
    when a later record replaces it at the same path. *)
Theorem processLayerTar_FileSize_all_records (name : string) (layerIdx : Z)
    (reader : tar.Reader) :
  Forall (fun h => isExtendedHeader h = false) (tar.entries reader) →
  tar.failure reader = None →
  ∃ tree,
    processLayerTar name layerIdx reader = Ok tree
    ∧ filetree.Name tree = name
    ∧ filetree.FileSize tree
      = uint64 (sumZ (tar.Size <$> tar.entries reader)).
Proof.
  intros Hall Heof. unfold processLayerTar, getFileList.
  rewrite Heof, getFileList_loop_ok by done. simpl.
  match goal with |- context [processLayerTar_loop ?t ?fs] =>
    destruct (processLayerTar_loop_FileSize fs t)
      as (tree & Hrun & Hname & Hsize) end.
  exists tree. split; [exact Hrun |]. split; [exact Hname |].
  rewrite Hsize by (right; reflexivity). simpl.
  by rewrite <- list_fmap_compose.
Qed.

Lemma processLayerTar_FileSize_all_records_witness :
  ∃ tree,
    processLayerTar "a/layer.tar" 1 (archiveOf rewrittenFiles) = Ok tree
    ∧ filetree.Name tree = "a/layer.tar"
    ∧ filetree.FileSize tree = 155.
Proof.
  apply (processLayerTar_FileSize_all_records "a/layer.tar" 1
           (archiveOf rewrittenFiles)).
  - repeat constructor.
  - reflexivity.
Defined.

(** C6, as the spec has it, fails: in an archive that writes the path
    [a] twice and holds a hard link [c] of declared size 5, the first
    record of [a] and the link both count in [FileSize], which is then
    not the sum of the sizes of the regular records that the tree
    keeps. *)
Lemma FileSize_counts_replaced_records :
  ∃ tree,
    processLayerTar "a/layer.tar" 1 (archiveOf rewrittenFiles) = Ok tree
    ∧ filetree.FileSize tree = 155
    ∧ filetree.keptRegularSize tree = 50
    ∧ filetree.FileSize tree ≠ filetree.keptRegularSize tree.
Proof.
  eexists. split; [reflexivity |].
  split; [reflexivity |]. split; [by vm_compute |]. by vm_compute.
Qed.

(** What [Next] yields: a header of type [XHeader] never, and a
    header of type [XGlobalHeader] for every such record. *)
Lemma fileHeader_Typeflag (hdr : tar.Header) (paxHdrs : tarfile.PAXRecords)
    (gnuLongName gnuLongLink : string) :
  tar.Typeflag hdr ≠ tar.TypeXGlobalHeader →
  tar.Typeflag hdr ≠ tar.TypeXHeader →
  isExtendedHeader
    (tarfile.fileHeader hdr paxHdrs gnuLongName gnuLongLink) = false.
Proof.
  intros Hg Hx. unfold isExtendedHeader, tarfile.fileHeader. simpl.
  destruct (tar.Typeflag hdr =? tar.TypeRegA) eqn:Ha.
  - by destruct (GoStrings.HasSuffix _ "/").
  - apply orb_false_iff. split; by apply Z.eqb_neq.
Qed.

Lemma Next_never_XHeader (blocks : list tarfile.Block) :
  ∀ (paxHdrs : tarfile.PAXRecords) (gnuLongName gnuLongLink : string),
    Forall (fun h => tar.Typeflag h ≠ tar.TypeXHeader)
           (tarfile.Next paxHdrs gnuLongName gnuLongLink blocks).
Proof.
  induction blocks as [|block rest IH]; intros paxHdrs gnuLongName gnuLongLink;
    simpl; [constructor |].
  destruct (tar.Typeflag (tarfile.header block) =? tar.TypeXGlobalHeader)
    eqn:Hg.
  { constructor; [| apply IH]. simpl. apply Z.eqb_eq in Hg. by rewrite Hg. }
  destruct (tar.Typeflag (tarfile.header block) =? tar.TypeXHeader) eqn:Hx;
    [apply IH |].
  destruct (tar.Typeflag (tarfile.header block) =? tarfile.TypeGNULongName);
    [apply IH |].
  destruct (tar.Typeflag (tarfile.header block) =? tarfile.TypeGNULongLink);
    [apply IH |].
  constructor; [| apply IH].
  apply Z.eqb_neq in Hg, Hx.
  pose proof (fileHeader_Typeflag _ paxHdrs gnuLongName gnuLongLink Hg Hx) as H.
  unfold isExtendedHeader in H. apply orb_false_iff in H as [_ H].
  by apply Z.eqb_neq.
Qed.

Lemma Next_extended (blocks : list tarfile.Block) :
  ∀ (paxHdrs : tarfile.PAXRecords) (gnuLongName gnuLongLink : string),
    Forall (fun h => isExtendedHeader h = false)
           (tarfile.Next paxHdrs gnuLongName gnuLongLink blocks)
    ↔ Forall (fun b => tar.Typeflag (tarfile.header b) ≠ tar.TypeXGlobalHeader)
             blocks.
Proof.
  induction blocks as [|block rest IH]; intros paxHdrs gnuLongName gnuLongLink;
    simpl; [by split; constructor |].
  rewrite (Forall_cons (fun b => tar.Typeflag (tarfile.header b)
                                  ≠ tar.TypeXGlobalHeader)).
  destruct (tar.Typeflag (tarfile.header block) =? tar.TypeXGlobalHeader)
    eqn:Hg.
  { rewrite Forall_cons. unfold isExtendedHeader at 1. simpl. rewrite Hg. simpl.
    apply Z.eqb_eq in Hg. split; [by intros [? _] | by intros [? _]]. }
  apply Z.eqb_neq in Hg.
  destruct (tar.Typeflag (tarfile.header block) =? tar.TypeXHeader) eqn:Hx;
    [rewrite IH; tauto |].
  destruct (tar.Typeflag (tarfile.header block) =? tarfile.TypeGNULongName);
    [rewrite IH; tauto |].
  destruct (tar.Typeflag (tarfile.header block) =? tarfile.TypeGNULongLink);
    [rewrite IH; tauto |].
  apply Z.eqb_neq in Hx.
  rewrite Forall_cons, IH, fileHeader_Typeflag by done. tauto.
Qed.

Lemma NewReader_global (archive : tarfile.Archive) :
  (∃ b, b ∈ tarfile.blocks archive
        ∧ tar.Typeflag (tarfile.header b) = tar.TypeXGlobalHeader) →
  ∃ before h after,
    tar.entries (tarfile.NewReader archive) = before ++ h :: after
    ∧ Forall (fun x => isExtendedHeader x = false) before
    ∧ tar.Typeflag h = tar.TypeXGlobalHeader
    ∧ getFileList (tarfile.NewReader archive)
      = Err (fmtErrorf ("Provided Tar file '" +:+ tar.Name h
                        +:+ "' has unexpected header '103' (XGlobalHeader)")).
Proof.
  intros (b & Hin & Hb).
  assert (∃ h, h ∈ tar.entries (tarfile.NewReader archive)
               ∧ isExtendedHeader h = true) as Hext.
  { destruct (decide (Forall (fun h => isExtendedHeader h = false)
                        (tar.entries (tarfile.NewReader archive))))
      as [Hall | Hex].
    - apply Next_extended in Hall.
      rewrite Forall_forall in Hall. by destruct (Hall b Hin).
    - apply not_Forall_Exists in Hex; [| apply _].
      apply Exists_exists in Hex as (h & Hh & Hne). simpl in Hne.
      apply not_false_is_true in Hne. by eauto. }
  destruct (getFileList_loop_extended _ (tar.failure (tarfile.NewReader archive))
              [] Hext)
    as (before & h & after & Hsplit & Hbefore & Hh & Hrun).
  exists before, h, after.
  split; [exact Hsplit |]. split; [exact Hbefore |].
  assert (tar.Typeflag h = tar.TypeXGlobalHeader) as Hg.
  { pose proof (Next_never_XHeader (tarfile.blocks archive)
                  tarfile.noRecords "" "") as Hnever.
    rewrite Forall_forall in Hnever.
    assert (h ∈ tar.entries (tarfile.NewReader archive)) as Hmem
      by (rewrite Hsplit; apply elem_of_app; right; apply elem_of_cons; by left).
    apply Hnever in Hmem.
    unfold isExtendedHeader in Hh. apply orb_true_iff in Hh as [Hh | Hh].
    - by apply Z.eqb_eq.
    - by apply Z.eqb_eq in Hh. }
  split; [exact Hg |].
  unfold getFileList. rewrite Hrun. unfold formatErrorMessage.
  apply Z.eqb_eq in Hg. by rewrite Hg.
Qed.




(** ** Computations that return or panic *)

Lemma go_bind_Return {A B : Type} (m : go A) (f : A → go B) (b : B) :
  m ≫= f = Return b → ∃ a, m = Return a ∧ f a = Return b.
Proof. destruct m as [a | p]; simpl; [eauto | discriminate]. Qed.

Lemma go_bind_Panic {A B : Type} (m : go A) (f : A → go B) (p : panic) :
  m ≫= f = Panic p → m = Panic p ∨ ∃ a, m = Return a ∧ f a = Panic p.
Proof. destruct m as [a | q]; simpl; [eauto | intros [= ->]; eauto]. Qed.

Lemma go_bind_unit {A B : Type} (a : A) (f : A → go B) :
  Return a ≫= f = f a.
Proof. reflexivity. Qed.

Tactic Notation "go_inv" hyp(H) "as" ident(a) ident(Ha) :=
  apply go_bind_Return in H as (a & Ha & H).

Lemma at_index_lookup {A : Type} (xs : list A) (i : nat) (x : A) :
  xs !! i = Some x → at_index xs (Z.of_nat i) = Return x.
Proof.
  intros H. unfold at_index. pose proof (lookup_lt_Some _ _ _ H) as Hlt.
  rewrite Nat2Z.id, H.
  replace ((0 <=? Z.of_nat i) && (Z.of_nat i <? Z.of_nat (length xs)))
    with true; [done |].
  symmetry. apply andb_true_iff. split; [apply Z.leb_le | apply Z.ltb_lt]; lia.
Qed.

Lemma at_index_Return {A : Type} (xs : list A) (z : Z) (x : A) :
  at_index xs z = Return x → ∃ i : nat, z = Z.of_nat i ∧ xs !! i = Some x.
Proof.
  unfold at_index.
  destruct ((0 <=? z) && (z <? Z.of_nat (length xs))) eqn:Hin; [|discriminate].
  apply andb_true_iff in Hin as [H0%Z.leb_le _].
  destruct (xs !! Z.to_nat z) as [y|] eqn:Hy; [|discriminate].
  intros [= ->]. exists (Z.to_nat z). split; [lia | done].
Qed.

Lemma at_index_Panic {A : Type} (xs : list A) (z : Z) (p : panic) :
  at_index xs z = Panic p → p = IndexOutOfRange.
Proof.
  unfold at_index.
  destruct ((0 <=? z) && (z <? Z.of_nat (length xs)));
    [destruct (xs !! Z.to_nat z) |]; congruence.
Qed.

Lemma store_insert {A : Type} (xs : list A) (i : nat) (x : A) :
  (i < length xs)%nat → store xs (Z.of_nat i) x = Return (<[i := x]> xs).
Proof.
  intros H. unfold store. rewrite Nat2Z.id.
  replace ((0 <=? Z.of_nat i) && (Z.of_nat i <? Z.of_nat (length xs)))
    with true; [done |].
  symmetry. apply andb_true_iff. split; [apply Z.leb_le | apply Z.ltb_lt]; lia.
Qed.

Lemma store_Return {A : Type} (xs xs' : list A) (z : Z) (x : A) :
  store xs z x = Return xs' →
  ∃ i : nat, z = Z.of_nat i ∧ (i < length xs)%nat ∧ xs' = <[i := x]> xs.
Proof.
  unfold store.
  destruct ((0 <=? z) && (z <? Z.of_nat (length xs))) eqn:Hin; [|discriminate].
  apply andb_true_iff in Hin as [H0%Z.leb_le H1%Z.ltb_lt].
  intros [= <-]. exists (Z.to_nat z). repeat split; lia.
Qed.

Lemma store_Panic {A : Type} (xs : list A) (z : Z) (x : A) (p : panic) :
  store xs z x = Panic p → p = IndexOutOfRange.
Proof.
  unfold store.
  destruct ((0 <=? z) && (z <? Z.of_nat (length xs))); congruence.
Qed.

Lemma totalSize_Return (tree : option filetree.FileTree) (size : Z) :
  filetree.totalSize tree = Return size →
  ∃ t, tree = Some t ∧ size = filetree.FileSize t.
Proof. destruct tree as [t|]; simpl; [intros [= <-]; eauto | discriminate]. Qed.

Lemma totalSize_Panic (tree : option filetree.FileTree) (p : panic) :
  filetree.totalSize tree = Panic p → tree = None ∧ p = NilDereference.
Proof. destruct tree as [t|]; simpl; [discriminate | by intros [= <-]]. Qed.

(** ** The ids of the history *)

Lemma contentHistory_cons_empty (h : dockerImageHistoryEntry)
    (rest : list dockerImageHistoryEntry) :
  EmptyLayer h = true → contentHistory (h :: rest) = contentHistory rest.
Proof.
  intros H. unfold contentHistory. apply filter_cons_False. congruence.
Qed.

Lemma contentHistory_cons_content (h : dockerImageHistoryEntry)
    (rest : list dockerImageHistoryEntry) :
  EmptyLayer h = false → contentHistory (h :: rest) = h :: contentHistory rest.
Proof. intros H. unfold contentHistory. by apply filter_cons_True. Qed.

Lemma assignIDs_Return (diffIds : list string)
    (history : list dockerImageHistoryEntry) :
  ∀ (i : nat) (history' : list dockerImageHistoryEntry),
    assignIDs diffIds (Z.of_nat i) history = Return history' →
    length (contentHistory history') = length (contentHistory history)
    ∧ ∀ j h, contentHistory history !! j = Some h →
        ∃ diffId, diffIds !! (i + j)%nat = Some diffId
                  ∧ contentHistory history' !! j = Some (setID diffId h).
Proof.
  induction history as [|h rest IH]; intros i history' Hrun; simpl in Hrun.
  - injection Hrun as <-. split; [done |]. intros j h Hj. by destruct j.
  - destruct (EmptyLayer h) eqn:Hh.
    + go_inv Hrun as rest' Hrest. injection Hrun as <-.
      destruct (IH _ _ Hrest) as [Hlen Hids].
      rewrite (contentHistory_cons_empty (setID _ h)) by done.
      by rewrite contentHistory_cons_empty.
    + go_inv Hrun as a Ha. apply at_index_Return in Ha as (i' & Hi' & Hd).
      apply Nat2Z.inj in Hi' as <-.
      go_inv Hrun as rest' Hrest. injection Hrun as <-.
      replace (Z.of_nat i + 1) with (Z.of_nat (S i)) in Hrest by lia.
      destruct (IH _ _ Hrest) as [Hlen Hids].
      rewrite (contentHistory_cons_content (setID _ h)) by done.
      rewrite contentHistory_cons_content by done. split.
      * simpl. by rewrite Hlen.
      * intros [|j] h' Hj; simpl in Hj.
        -- injection Hj as <-. exists a. by rewrite Nat.add_0_r.
        -- destruct (Hids j h' Hj) as (d & Hd' & Hj').
           exists d. split; [| done].
           by replace (i + S j)%nat with (S i + j)%nat by lia.
Qed.

Lemma assignIDs_total (diffIds : list string)
    (history : list dockerImageHistoryEntry) :
  ∀ i : nat,
    (i + length (contentHistory history) ≤ length diffIds)%nat →
    ∃ history', assignIDs diffIds (Z.of_nat i) history = Return history'.
Proof.
  induction history as [|h rest IH]; intros i Hlen; simpl; [by eauto |].
  destruct (EmptyLayer h) eqn:Hh.
  - rewrite contentHistory_cons_empty in Hlen by done.
    destruct (IH i Hlen) as [history' ->]. simpl. eauto.
  - rewrite contentHistory_cons_content in Hlen by done. simpl in Hlen.
    destruct (lookup_lt_is_Some_2 diffIds i) as [d Hd]; [lia |].
    rewrite (at_index_lookup _ _ _ Hd). simpl.
    replace (Z.of_nat i + 1) with (Z.of_nat (S i)) by lia.
    destruct (IH (S i)) as [history' ->]; [lia |]. simpl. eauto.
Qed.

Lemma assignIDs_Panic (diffIds : list string)
    (history : list dockerImageHistoryEntry) :
  ∀ (z : Z) (p : panic),
    assignIDs diffIds z history = Panic p → p = IndexOutOfRange.
Proof.
  induction history as [|h rest IH]; intros z p Hrun; simpl in Hrun;
    [discriminate |].
  destruct (EmptyLayer h).
  - apply go_bind_Panic in Hrun as [H | (a & _ & H)]; [by eauto | discriminate].
  - apply go_bind_Panic in Hrun as [H | (a & _ & H)];
      [by eapply at_index_Panic |].
    apply go_bind_Panic in H as [H | (b & _ & H)]; [by eauto | discriminate].
Qed.

(** ** The layers array *)

Section AssembleLayers.

Context (ts : list (option filetree.FileTree)) (ps : list string).

Let n : nat := length ts.

Lemma assembleLayers_Return (hs : list dockerImageHistoryEntry) :
  ∀ (i : nat) (ls ls' : list (option dockerLayer)),
    length ls = n →
    assembleLayers ts ps hs ls (Z.of_nat n - 1 - Z.of_nat i) (Z.of_nat i)
    = Return ls' →
    length ls' = n
    ∧ (contentHistory hs = [] ∨ (i + length (contentHistory hs) ≤ n)%nat)
    ∧ (∀ j h, contentHistory hs !! j = Some h →
         ∃ layer, assembledAt ts ps (i + j) h layer
                  ∧ ls' !! (n - 1 - (i + j))%nat = Some (Some layer))
    ∧ (∀ s, (s + i + length (contentHistory hs) < n ∨ n ≤ s + i)%nat →
         ls' !! s = ls !! s).
Proof.
  induction hs as [|h rest IH]; intros i ls ls' Hls Hrun; simpl in Hrun.
  - injection Hrun as <-.
    split; [done |]. split; [by left |]. split; [| done].
    intros j h Hj. by destruct j.
  - destruct (EmptyLayer h) eqn:Hh.
    { rewrite contentHistory_cons_empty by done. by apply IH. }
    rewrite contentHistory_cons_content by done.
    go_inv Hrun as tr Htr. apply at_index_Return in Htr as (i' & Hi' & Hti).
    assert (i' = i) as -> by (subst n; lia). clear Hi'.
    go_inv Hrun as size Hsize. apply totalSize_Return in Hsize as (t & -> & ->).
    go_inv Hrun as stored Hstored.
    apply at_index_Return in Hstored as (s0 & Hs0 & Hstored).
    go_inv Hrun as path Hpath.
    apply at_index_Return in Hpath as (i'' & Hi'' & Hpath).
    apply Nat2Z.inj in Hi'' as <-.
    go_inv Hrun as ls1 Hls1. apply store_Return in Hls1 as (s1 & Hs1 & Hlt & ->).
    pose proof (lookup_lt_Some _ _ _ Hti) as Hi. fold n in Hi.
    assert (s0 = (n - 1 - i)%nat) as -> by lia.
    assert (s1 = (n - 1 - i)%nat) as -> by lia.
    replace (Z.of_nat n - 1 - Z.of_nat i - 1)
      with (Z.of_nat n - 1 - Z.of_nat (S i)) in Hrun by lia.
    replace (Z.of_nat i + 1) with (Z.of_nat (S i)) in Hrun by lia.
    apply IH in Hrun as (Hlen & Hk & Hentries & Hsame);
      [| by rewrite length_insert].
    split; [exact Hlen |]. split; [right; simpl; destruct Hk as [-> | Hk]; simpl; lia |].
    split.
    + intros [|j] h' Hj; simpl in Hj.
      * injection Hj as <-. rewrite Nat.add_0_r.
        eexists. split.
        -- exists t, stored, path.
           split; [exact Hti |]. split; [exact Hstored |].
           split; [exact Hpath | reflexivity].
        -- rewrite Hsame by lia.
           by rewrite list_lookup_insert_eq by lia.
      * destruct (Hentries j h' Hj) as (layer & Hlayer & Hslot).
        replace (i + S j)%nat with (S i + j)%nat by lia. eauto.
    + intros s Hs. simpl in Hs. rewrite Hsame by lia.
      apply list_lookup_insert_ne. lia.
Qed.

Lemma assembleLayers_total (hs : list dockerImageHistoryEntry) :
  ∀ (i : nat) (ls : list (option dockerLayer)),
    length ps = n → length ls = n →
    (contentHistory hs = [] ∨ (i + length (contentHistory hs) ≤ n)%nat) →
    (∀ j, (j < length (contentHistory hs))%nat →
          ∃ t, ts !! (i + j)%nat = Some (Some t)) →
    ∃ ls', assembleLayers ts ps hs ls (Z.of_nat n - 1 - Z.of_nat i)
             (Z.of_nat i) = Return ls'.
Proof.
  induction hs as [|h rest IH]; intros i ls Hps Hls Hk Htrees; simpl;
    [by eauto |].
  destruct (EmptyLayer h) eqn:Hh.
  { rewrite contentHistory_cons_empty in Hk, Htrees by done. by apply IH. }
  rewrite contentHistory_cons_content in Hk, Htrees by done.
  destruct Hk as [? | Hk]; [done |]. simpl in Hk, Htrees.
  destruct (Htrees 0%nat) as [t Ht]; [lia |]. rewrite Nat.add_0_r in Ht.
  replace (Z.of_nat (length ts) - 1 - (Z.of_nat n - 1 - Z.of_nat i))
    with (Z.of_nat i) by (subst n; lia).
  rewrite (at_index_lookup _ _ _ Ht). simpl.
  destruct (lookup_lt_is_Some_2 ts (n - 1 - i)) as [stored Hstored];
    [subst n; lia |].
  replace (Z.of_nat n - 1 - Z.of_nat i) with (Z.of_nat (n - 1 - i)) by lia.
  rewrite (at_index_lookup _ _ _ Hstored). simpl.
  destruct (lookup_lt_is_Some_2 ps i) as [path Hpath]; [lia |].
  rewrite (at_index_lookup _ _ _ Hpath). simpl.
  rewrite store_insert by lia. simpl.
  replace (Z.of_nat (n - 1 - i) - 1)
    with (Z.of_nat n - 1 - Z.of_nat (S i)) by lia.
  replace (Z.of_nat i + 1) with (Z.of_nat (S i)) by lia.
  apply IH; [done | by rewrite length_insert | right; lia |].
  intros j Hj. replace (S i + j)%nat with (i + S j)%nat by lia.
  apply Htrees. lia.
Qed.

Lemma assembleLayers_Panic (hs : list dockerImageHistoryEntry) :
  ∀ (ls : list (option dockerLayer)) (layerIdx tarPathIdx : Z) (p : panic),
    assembleLayers ts ps hs ls layerIdx tarPathIdx = Panic p →
    runtimePanic p.
Proof.
  induction hs as [|h rest IH]; intros ls layerIdx tarPathIdx p Hrun;
    simpl in Hrun; [discriminate |].
  destruct (EmptyLayer h); [by eauto |].
  apply go_bind_Panic in Hrun as [H | (a & _ & Hrun)];
    [left; by eapply at_index_Panic |].
  apply go_bind_Panic in Hrun as [H | (b & _ & Hrun)];
    [right; by eapply totalSize_Panic |].
  apply go_bind_Panic in Hrun as [H | (c & _ & Hrun)];
    [left; by eapply at_index_Panic |].
  apply go_bind_Panic in Hrun as [H | (d & _ & Hrun)];
    [left; by eapply at_index_Panic |].
  apply go_bind_Panic in Hrun as [H | (e & _ & Hrun)];
    [left; by eapply store_Panic |].
  by eauto.
Qed.

End AssembleLayers.

(** ** The sizes of the result *)

Lemma sumLayers_Some (ls : list dockerLayer) :
  ∀ (i : Z) (acc : list dockerLayer) (s u : Z),
    0 ≤ i → s = uint64 s → u = uint64 u →
    sumLayers i (Some <$> ls) acc s u
    = Return (acc ++ ls,
              uint64 (s + sumZ (dockerLayer_Size <$> ls)),
              uint64 (u + sumZ (dockerLayer_Size
                                  <$> (if i =? 0 then drop 1 ls else ls)))).
Proof.
  induction ls as [|l rest IH]; intros i acc s u Hi Hs Hu; simpl.
  - rewrite app_nil_r.
    destruct (i =? 0); simpl; rewrite !Z.add_0_r; by rewrite <- Hs, <- Hu.
  - rewrite IH; [| lia | by rewrite add64_uint64, uint64_idemp
                   | destruct (i =? 0); [done | by rewrite add64_uint64, uint64_idemp]].
    rewrite <- app_assoc. simpl.
    replace (i + 1 =? 0) with false by (symmetry; apply Z.eqb_neq; lia).
    f_equal. f_equal; [f_equal |].
    + rewrite add64_uint64, uint64_add_l. f_equal. symmetry. apply Z.add_assoc.
    + destruct (i =? 0); simpl; [by rewrite drop_0 |].
      rewrite add64_uint64, uint64_add_l. f_equal. symmetry. apply Z.add_assoc.
Qed.

Lemma sumLayers_Return (vs : list (option dockerLayer)) :
  ∀ (i : Z) (acc : list dockerLayer) (s u : Z) res,
    sumLayers i vs acc s u = Return res → ∃ ls, vs = Some <$> ls.
Proof.
  induction vs as [|v rest IH]; intros i acc s u res Hrun; simpl in Hrun.
  - by exists [].
  - go_inv Hrun as l Hl. destruct v as [l'|]; [| discriminate].
    apply IH in Hrun as [ls ->]. by exists (l' :: ls).
Qed.

Lemma sumLayers_Panic (vs : list (option dockerLayer)) :
  ∀ (i : Z) (acc : list dockerLayer) (s u : Z) (p : panic),
    sumLayers i vs acc s u = Panic p → p = NilDereference.
Proof.
  induction vs as [|v rest IH]; intros i acc s u p Hrun; simpl in Hrun;
    [discriminate |].
  destruct v as [l|]; simpl in Hrun; [by eauto | congruence].
Qed.

(** ** The analysis *)

(** What a returning run of [Analyze] has gone through. *)
Lemma Analyze_Return (env : Environment) (image image' : dockerImageAnalyzer)
    (res : result AnalysisResult) :
  Analyze env image = Return (image', res) →
  ∃ m ms cfg history ls efficiency inefficiencies,
    json_Unmarshal_manifest env (jsonFile image "manifest.json") = Ok (m :: ms)
    ∧ json_Unmarshal_config env (jsonFile image (ConfigPath m)) = Ok cfg
    ∧ assignIDs (DiffIds (RootFs cfg)) 0 (History cfg) = Return history
    ∧ assembleLayers (manifestTrees image m) (LayerTarPaths m) history
        (replicate (length (manifestTrees image m)) None)
        (Z.of_nat (length (manifestTrees image m)) - 1) 0
      = Return (Some <$> ls)
    ∧ filetree_Efficiency env (manifestTrees image m)
      = Return (efficiency, inefficiencies)
    ∧ trees image' = manifestTrees image m
    ∧ layers image' = Some <$> ls
    ∧ res = Ok {| Layers := ls;
                  RefTrees := manifestTrees image m;
                  Efficiency := efficiency;
                  UserSizeByes :=
                    uint64 (sumZ (dockerLayer_Size <$> drop 1 ls));
                  SizeBytes := uint64 (sumZ (dockerLayer_Size <$> ls));
                  WastedBytes := sumWasted inefficiencies;
                  WastedUserPercent :=
                    float64_quo
                      (float64_of_uint64 (sumWasted inefficiencies))
                      (float64_of_uint64
                         (uint64 (sumZ (dockerLayer_Size <$> drop 1 ls))));
                  Inefficiencies := inefficiencies |}.
Proof.
  unfold Analyze. intros Hrun.
  go_inv Hrun as m Hm. unfold newDockerImageManifest in Hm.
  destruct (json_Unmarshal_manifest env (jsonFile image "manifest.json"))
    as [manifest | err] eqn:Hmanifest; [| discriminate].
  apply at_index_Return in Hm as (i & Hi & Hm0).
  assert (i = 0%nat) as -> by lia.
  destruct manifest as [|m0 ms]; [discriminate |]. injection Hm0 as ->.
  go_inv Hrun as config Hconfig. unfold newDockerImageConfig in Hconfig.
  destruct (json_Unmarshal_config env (jsonFile image (ConfigPath m)))
    as [cfg | err] eqn:Hcfg; [| discriminate].
  go_inv Hconfig as history Hhistory. injection Hconfig as <-.
  go_inv Hrun as vs Hvs.
  go_inv Hrun as scored Hscored. destruct scored as [efficiency inefficiencies].
  go_inv Hrun as summed Hsummed. destruct summed as [[ls sizeBytes] userSizeBytes].
  destruct (sumLayers_Return _ _ _ _ _ _ Hsummed) as [ls' ->].
  rewrite sumLayers_Some in Hsummed by done.
  simpl in Hsummed. injection Hsummed as <- <- <-.
  injection Hrun as <- <-.
  exists m, ms, cfg, history, ls', efficiency, inefficiencies.
  repeat split; done.
Qed.

Lemma lookup_manifestTrees (image : dockerImageAnalyzer)
    (m : dockerImageManifest) (j : nat) (t : option filetree.FileTree) :
  manifestTrees image m !! j = Some t →
  ∃ path, LayerTarPaths m !! j = Some path ∧ t = layerMap image !! path.
Proof.
  unfold manifestTrees. rewrite list_lookup_fmap.
  destruct (LayerTarPaths m !! j) as [path|]; simpl; [| discriminate].
  intros [= <-]. eauto.
Qed.

Lemma length_manifestTrees (image : dockerImageAnalyzer)
    (m : dockerImageManifest) :
  length (manifestTrees image m) = length (LayerTarPaths m).
Proof. unfold manifestTrees. apply length_fmap. Qed.

(** A returning run has met a manifest and a history of the same
    number of layers, has found the tree of every layer, and has
    stored the layer of the content entry [j] at the position
    [n - 1 - j]. *)
Lemma Analyze_Return_layers (env : Environment)
    (image image' : dockerImageAnalyzer) (res : result AnalysisResult) :
  Analyze env image = Return (image', res) →
  ∃ m ms cfg r,
    json_Unmarshal_manifest env (jsonFile image "manifest.json") = Ok (m :: ms)
    ∧ json_Unmarshal_config env (jsonFile image (ConfigPath m)) = Ok cfg
    ∧ res = Ok r
    ∧ RefTrees r = manifestTrees image m
    ∧ length (contentHistory (History cfg)) = length (LayerTarPaths m)
    ∧ length (Layers r) = length (LayerTarPaths m)
    ∧ (∀ path, path ∈ LayerTarPaths m → is_Some (layerMap image !! path))
    ∧ (∀ j h, contentHistory (History cfg) !! j = Some h →
         ∃ diffId layer,
           DiffIds (RootFs cfg) !! j = Some diffId
           ∧ assembledAt (manifestTrees image m) (LayerTarPaths m) j
               (setID diffId h) layer
           ∧ Layers r !! (length (LayerTarPaths m) - 1 - j)%nat = Some layer)
    ∧ SizeBytes r = uint64 (sumZ (dockerLayer_Size <$> Layers r))
    ∧ UserSizeByes r = uint64 (sumZ (dockerLayer_Size <$> drop 1 (Layers r))).
Proof.
  intros Hrun.
  apply Analyze_Return in Hrun
    as (m & ms & cfg & history & ls & eff & ineffs
        & Hm & Hcfg & Hids & Hasm & Heff & _ & _ & ->).
  apply (assignIDs_Return _ _ 0%nat) in Hids as [Hcount Hids].
  set (ts := manifestTrees image m) in *.
  replace (Z.of_nat (length ts) - 1)
    with (Z.of_nat (length ts) - 1 - Z.of_nat 0) in Hasm by lia.
  apply (assembleLayers_Return ts (LayerTarPaths m) history 0%nat) in Hasm
    as (Hlen & Hk & Hentries & Hsame); [| by rewrite length_replicate].
  rewrite length_fmap in Hlen. rewrite Hcount in Hk, Hsame.
  pose proof (length_manifestTrees image m) as Hn. fold ts in Hn.
  set (k := length (contentHistory (History cfg))) in *.
  assert (k = length ts) as Hkn.
  { destruct (decide (k < length ts)%nat) as [Hlt |].
    - specialize (Hsame 0%nat). rewrite list_lookup_fmap in Hsame.
      rewrite lookup_replicate_2 in Hsame by lia.
      destruct (ls !! 0%nat); simpl in Hsame; [| by (discriminate Hsame; lia)].
      assert (Some (Some d) = Some None) as [=]. apply Hsame. lia.
    - destruct Hk as [Hnil | Hk]; [| lia].
      apply (f_equal length) in Hnil. rewrite Hcount in Hnil.
      simpl in Hnil. fold k in Hnil. lia. }
  assert (∀ j h, contentHistory (History cfg) !! j = Some h →
            ∃ diffId layer,
              DiffIds (RootFs cfg) !! j = Some diffId
              ∧ assembledAt ts (LayerTarPaths m) j (setID diffId h) layer
              ∧ ls !! (length (LayerTarPaths m) - 1 - j)%nat = Some layer)
    as Hlayers.
  { intros j h Hj. destruct (Hids j h Hj) as (diffId & Hd & Hj').
    destruct (Hentries j _ Hj') as (layer & Hlayer & Hslot).
    exists diffId, layer. split; [exact Hd |]. split; [exact Hlayer |].
    simpl in Hslot. rewrite list_lookup_fmap, Hn in Hslot.
    destruct (ls !! (length (LayerTarPaths m) - 1 - j)%nat);
      simpl in Hslot; congruence. }
  exists m, ms, cfg. eexists. split; [exact Hm |]. split; [exact Hcfg |].
  split; [reflexivity |]. simpl.
  split; [reflexivity |]. split; [lia |]. split; [lia |].
  split; [| split; [exact Hlayers | done]].
  intros path [j Hj]%list_elem_of_lookup.
  destruct (lookup_lt_is_Some_2 (contentHistory (History cfg)) j) as [h Hh].
  { apply lookup_lt_Some in Hj. fold k. lia. }
  destruct (Hlayers j h Hh) as (_ & _ & _ & (t & _ & _ & Ht & _) & _).
  apply lookup_manifestTrees in Ht as (path' & Hpath' & Ht).
  rewrite Hj in Hpath'. injection Hpath' as <-. by rewrite <- Ht.
Qed.

Lemma at_index_head {A : Type} (x : A) (xs : list A) :
  at_index (x :: xs) 0 = Return x.
Proof. by apply (at_index_lookup (x :: xs) 0%nat x). Qed.

Lemma all_Some_fmap {A : Type} (vs : list (option A)) :
  (∀ s, (s < length vs)%nat → ∃ x, vs !! s = Some (Some x)) →
  ∃ xs, vs = Some <$> xs.
Proof.
  induction vs as [|v rest IH]; intros Hall; [by exists [] |].
  destruct (Hall 0%nat) as [x Hx]; [simpl; lia |]. injection Hx as ->.
  destruct IH as [xs ->].
  { intros s Hs. apply (Hall (S s)). simpl. lia. }
  by exists (x :: xs).
Qed.

Lemma Analyze_total (env : Environment) (image : dockerImageAnalyzer)
    (m : dockerImageManifest) (cfg : dockerImageConfig) :
  wellFormed env image m cfg →
  ∃ image' r, Analyze env image = Return (image', Ok r).
Proof.
  intros ([ms Hm] & Hcfg & Hcount & Hdiff & Htrees & [[eff ineffs] Heff]).
  unfold Analyze, newDockerImageManifest, newDockerImageConfig.
  rewrite Hm, at_index_head, go_bind_unit, Hcfg.
  destruct (assignIDs_total (DiffIds (RootFs cfg)) (History cfg) 0%nat)
    as [history Hhistory]; [lia |].
  change (Z.of_nat 0) with 0 in Hhistory.
  rewrite Hhistory, !go_bind_unit.
  apply (assignIDs_Return _ _ 0%nat) in Hhistory as [Hcount' _].
  fold (manifestTrees image m).
  set (ts := manifestTrees image m) in *.
  pose proof (length_manifestTrees image m) as Hn. fold ts in Hn.
  destruct (assembleLayers_total ts (LayerTarPaths m) history 0%nat
              (replicate (length ts) None)) as [vs Hvs].
  { lia. }
  { apply length_replicate. }
  { right. lia. }
  { intros j Hj. simpl.
    destruct (lookup_lt_is_Some_2 (LayerTarPaths m) j) as [path Hpath]; [lia |].
    destruct (Htrees path) as [t Ht]; [by eapply list_elem_of_lookup_2 |].
    exists t. unfold ts, manifestTrees.
    by rewrite list_lookup_fmap, Hpath; simpl; rewrite Ht. }
  pose proof Hvs as Hshape.
  apply assembleLayers_Return in Hshape as (Hlen & _ & Hentries & _);
    [| apply length_replicate].
  destruct (all_Some_fmap vs) as [ls ->].
  { intros s Hs. rewrite Hlen in Hs.
    destruct (lookup_lt_is_Some_2 (contentHistory history)
                (length ts - 1 - s)) as [h Hh]; [lia |].
    destruct (Hentries _ _ Hh) as (layer & _ & Hslot).
    exists layer. simpl in Hslot.
    by replace (length ts - 1 - (length ts - 1 - s))%nat with s in Hslot by lia. }
  change (Z.of_nat 0) with 0 in Hvs. rewrite Z.sub_0_r in Hvs.
  cbn [History]. rewrite Hvs, go_bind_unit, Heff, go_bind_unit.
  rewrite sumLayers_Some, go_bind_unit by done. eauto.
Qed.

(** The layer at the position [s] of a returned result: its tree is
    the tree number [s] of the manifest, its size the [FileSize] of
    the tree number [n - 1 - s]. *)
Lemma Analyze_tree_and_size (env : Environment)
    (image image' : dockerImageAnalyzer) (r : AnalysisResult) :
  Analyze env image = Return (image', Ok r) →
  ∀ s layer, Layers r !! s = Some layer →
    index layer = Z.of_nat s
    ∧ RefTrees r !! s = Some (tree layer)
    ∧ ∃ t, RefTrees r !! (length (RefTrees r) - 1 - s)%nat = Some (Some t)
           ∧ dockerLayer_Size layer = uint64 (filetree.FileSize t).
Proof.
  intros Hrun s layer Hs.
  apply Analyze_Return_layers in Hrun
    as (m & ms & cfg & r' & _ & _ & [= <-] & Htrees & Hcount & Hlen & _
        & Hlayers & _).
  pose proof (lookup_lt_Some _ _ _ Hs) as Hlt.
  destruct (lookup_lt_is_Some_2 (contentHistory (History cfg))
              (length (LayerTarPaths m) - 1 - s)) as [h Hh]; [lia |].
  destruct (Hlayers _ _ Hh)
    as (diffId & layer' & _ & (t & stored & path & Ht & Hstored & _ & ->) & Hslot).
  replace (length (LayerTarPaths m) - 1 - (length (LayerTarPaths m) - 1 - s))%nat
    with s in Hslot by lia.
  rewrite Hs in Hslot. injection Hslot as ->.
  rewrite Htrees, length_manifestTrees in *.
  replace (length (LayerTarPaths m) - 1 - (length (LayerTarPaths m) - 1 - s))%nat
    with s in Hstored by lia.
  simpl. split; [lia |]. split; [exact Hstored |]. by exists t.
Qed.

(** C8. On a well-formed image [Analyze] returns a result with one
    layer per history entry with contents and none for the others:
    the layer of the entry that is number [i] among the entries with
    contents stands at the position [n - 1 - i] of the result, has the
    index [n - 1 - i], the tar path number [i] of the manifest, the
    command of that entry and the diff id number [i]. *)
Theorem layers_are_indexed_in_reverse (env : Environment)
    (image : dockerImageAnalyzer) (m : dockerImageManifest)
    (cfg : dockerImageConfig) :
  wellFormed env image m cfg →
  ∃ image' r,
    Analyze env image = Return (image', Ok r)
    ∧ length (Layers r) = length (contentHistory (History cfg))
    ∧ (∀ i h, contentHistory (History cfg) !! i = Some h →
         ∃ layer,
           Layers r !! (length (contentHistory (History cfg)) - 1 - i)%nat
           = Some layer
           ∧ index layer
             = Z.of_nat (length (contentHistory (History cfg))) - 1 - Z.of_nat i
           ∧ LayerTarPaths m !! i = Some (tarPath layer)
           ∧ CreatedBy (history layer) = CreatedBy h
           ∧ DiffIds (RootFs cfg) !! i = Some (ID (history layer)))
    ∧ (∀ layer, layer ∈ Layers r → EmptyLayer (history layer) = false).
Proof.
  intros Hwf. destruct (Analyze_total _ _ _ _ Hwf) as (image' & r & Hrun).
  exists image', r. split; [exact Hrun |].
  destruct Hwf as ([ms Hm] & Hcfg & _).
  apply Analyze_Return_layers in Hrun
    as (m' & ms' & cfg' & r' & Hm' & Hcfg' & [= <-] & _ & Hcount & Hlen & _
        & Hlayers & _).
  rewrite Hm in Hm'. injection Hm' as <- <-.
  rewrite Hcfg in Hcfg'. injection Hcfg' as <-.
  rewrite Hcount. split; [exact Hlen |].
  assert (∀ i h, contentHistory (History cfg) !! i = Some h →
            ∃ layer,
              Layers r !! (length (LayerTarPaths m) - 1 - i)%nat = Some layer
              ∧ index layer = Z.of_nat (length (LayerTarPaths m)) - 1 - Z.of_nat i
              ∧ LayerTarPaths m !! i = Some (tarPath layer)
              ∧ CreatedBy (history layer) = CreatedBy h
              ∧ DiffIds (RootFs cfg) !! i = Some (ID (history layer))
              ∧ EmptyLayer (history layer) = EmptyLayer h) as Hfields.
  { intros i h Hi.
    destruct (Hlayers i h Hi)
      as (diffId & layer & Hd & (t & stored & path & _ & _ & Hpath & Hlayer)
          & Hslot).
    exists layer. subst layer. simpl.
    rewrite length_manifestTrees in *. by repeat split. }
  split.
  - intros i h Hi.
    destruct (Hfields i h Hi) as (layer & ? & ? & ? & ? & ? & _). eauto 10.
  - intros layer [s Hs]%list_elem_of_lookup.
    pose proof (lookup_lt_Some _ _ _ Hs) as Hlt.
    destruct (lookup_lt_is_Some_2 (contentHistory (History cfg))
                (length (LayerTarPaths m) - 1 - s)) as [h Hh]; [lia |].
    destruct (Hfields _ _ Hh) as (layer' & Hslot & _ & _ & _ & _ & Hempty).
    replace (length (LayerTarPaths m) - 1 - (length (LayerTarPaths m) - 1 - s))%nat
      with s in Hslot by lia.
    rewrite Hs in Hslot. injection Hslot as <-. rewrite Hempty.
    apply list_elem_of_lookup_2 in Hh.
    by apply list_elem_of_filter in Hh as [Hh _].
Qed.

Lemma twoLayerImage_wellFormed :
  wellFormed sampleEnv twoLayerImage
    (sampleManifest ["a/layer.tar"; "b/layer.tar"]) sampleConfig.
Proof.
  split; [by exists [] |]. split; [reflexivity |]. split; [reflexivity |].
  split; [simpl; lia |]. split.
  - intros path Hpath. apply list_elem_of_In in Hpath. simpl in Hpath.
    destruct Hpath as [<- | [<- | []]]; vm_compute; eauto.
  - eexists. reflexivity.
Defined.

Lemma layers_are_indexed_in_reverse_witness :
  ∃ image' r,
    Analyze sampleEnv twoLayerImage = Return (image', Ok r)
    ∧ length (Layers r) = length (contentHistory (History sampleConfig))
    ∧ (∀ i h, contentHistory (History sampleConfig) !! i = Some h →
         ∃ layer,
           Layers r !! (length (contentHistory (History sampleConfig)) - 1 - i)%nat
           = Some layer
           ∧ index layer
             = Z.of_nat (length (contentHistory (History sampleConfig)))
               - 1 - Z.of_nat i
           ∧ LayerTarPaths (sampleManifest ["a/layer.tar"; "b/layer.tar"]) !! i
             = Some (tarPath layer)
           ∧ CreatedBy (history layer) = CreatedBy h
           ∧ DiffIds (RootFs sampleConfig) !! i = Some (ID (history layer)))
    ∧ (∀ layer, layer ∈ Layers r → EmptyLayer (history layer) = false).
Proof.
  apply (layers_are_indexed_in_reverse sampleEnv twoLayerImage
           (sampleManifest ["a/layer.tar"; "b/layer.tar"]) sampleConfig).
  exact twoLayerImage_wellFormed.
Defined.

(** ** Sums *)

Lemma sumZ_app (xs ys : list Z) : sumZ (xs ++ ys) = sumZ xs + sumZ ys.
Proof.
  induction xs as [|x xs IH]; [done |].
  change (x + sumZ (xs ++ ys) = x + sumZ xs + sumZ ys). rewrite IH. lia.
Qed.

Lemma sumZ_reverse (xs : list Z) : sumZ (reverse xs) = sumZ xs.
Proof.
  induction xs as [|x xs IH]; [done |].
  rewrite reverse_cons, sumZ_app, IH.
  change (sumZ xs + (x + 0) = x + sumZ xs). lia.
Qed.

Lemma uint64_sumZ_uint64 {A : Type} (f : A → Z) (xs : list A) :
  uint64 (sumZ ((fun x => uint64 (f x)) <$> xs)) = uint64 (sumZ (f <$> xs)).
Proof.
  induction xs as [|x xs IH]; [done |].
  change (uint64 (uint64 (f x) + sumZ ((fun x => uint64 (f x)) <$> xs))
          = uint64 (f x + sumZ (f <$> xs))).
  rewrite uint64_add_l, <- uint64_add_r, IH, uint64_add_r. done.
Qed.

Lemma uint64_sub_l (a b : Z) : uint64 (uint64 a - b) = uint64 (a - b).
Proof. unfold uint64. apply Zminus_mod_idemp_l. Qed.

(** The sizes of the layers of a returned result are the sizes of the
    trees, read backwards. *)
Lemma Analyze_layer_sizes (env : Environment)
    (image image' : dockerImageAnalyzer) (r : AnalysisResult) :
  Analyze env image = Return (image', Ok r) →
  ∃ ts, RefTrees r = Some <$> ts
        ∧ dockerLayer_Size <$> Layers r
          = reverse ((fun t => uint64 (filetree.FileSize t)) <$> ts).
Proof.
  intros Hrun.
  pose proof (Analyze_tree_and_size _ _ _ _ Hrun) as Hpair.
  apply Analyze_Return_layers in Hrun
    as (m & ms & cfg & r' & _ & _ & [= <-] & Htrees & _ & Hlen & Hall & _).
  assert (length (RefTrees r) = length (Layers r)) as Hn
    by (by rewrite Htrees, length_manifestTrees).
  destruct (all_Some_fmap (RefTrees r)) as [ts Hts].
  { intros s Hs. destruct (lookup_lt_is_Some_2 _ _ Hs) as [t Ht].
    rewrite Htrees in Ht.
    apply lookup_manifestTrees in Ht as (path & Hpath & ->).
    destruct (Hall path) as [t Ht]; [by eapply list_elem_of_lookup_2 |].
    exists t. rewrite Htrees. unfold manifestTrees.
    by rewrite list_lookup_fmap, Hpath; simpl; rewrite Ht. }
  exists ts. split; [exact Hts |].
  rewrite Hts, length_fmap in Hn.
  apply list_eq. intros s.
  destruct (decide (s < length (Layers r))%nat) as [Hs | Hs].
  - destruct (lookup_lt_is_Some_2 _ _ Hs) as [layer Hlayer].
    destruct (Hpair s layer Hlayer) as (_ & _ & t & Ht & Hsize).
    rewrite reverse_lookup by (rewrite length_fmap; lia).
    rewrite !list_lookup_fmap, Hlayer, length_fmap. simpl. rewrite Hsize.
    rewrite Hts, length_fmap, list_lookup_fmap in Ht.
    replace (length ts - S s)%nat with (length ts - 1 - s)%nat by lia.
    destruct (ts !! (length ts - 1 - s)%nat); simpl in *; congruence.
  - rewrite !lookup_ge_None_2;
      [done | rewrite length_reverse, length_fmap; lia | rewrite length_fmap; lia].
Qed.

(** What the summing loop computes. In a returned result [SizeBytes]
    is the sum, modulo 2^64, of the sizes of all the layers, which is
    also the sum of the [FileSize] of all the trees; [UserSizeByes]
    leaves out the layer at position 0 of the result, and no other. *)
Lemma Analyze_sizes (env : Environment)
    (image image' : dockerImageAnalyzer) (r : AnalysisResult) :
  Analyze env image = Return (image', Ok r) →
  SizeBytes r = uint64 (sumZ (dockerLayer_Size <$> Layers r))
  ∧ (∃ ts, RefTrees r = Some <$> ts
           ∧ SizeBytes r = uint64 (sumZ (filetree.FileSize <$> ts)))
  ∧ UserSizeByes r = uint64 (sumZ (dockerLayer_Size <$> drop 1 (Layers r)))
  ∧ (∀ layer, Layers r !! 0%nat = Some layer →
       index layer = 0
       ∧ UserSizeByes r = uint64 (SizeBytes r - dockerLayer_Size layer)).
Proof.
  intros Hrun.
  destruct (Analyze_layer_sizes _ _ _ _ Hrun) as (ts & Hts & Hsizes).
  pose proof (Analyze_tree_and_size _ _ _ _ Hrun) as Hpair.
  apply Analyze_Return_layers in Hrun
    as (m & ms & cfg & r' & _ & _ & [= <-] & _ & _ & _ & _ & _ & Hsize & Huser).
  split; [exact Hsize |]. split; [| split; [exact Huser |]].
  - exists ts. split; [exact Hts |].
    by rewrite Hsize, Hsizes, sumZ_reverse, uint64_sumZ_uint64.
  - intros layer Hlayer.
    destruct (Hpair 0%nat layer Hlayer) as (Hindex & _).
    split; [exact Hindex |].
    rewrite Hsize, Huser, uint64_sub_l.
    destruct (Layers r) as [|l rest]; [discriminate |].
    injection Hlayer as ->. simpl. rewrite drop_0. f_equal.
    change (sumZ (dockerLayer_Size <$> rest)
            = dockerLayer_Size layer + sumZ (dockerLayer_Size <$> rest)
              - dockerLayer_Size layer).
    lia.
Qed.

Lemma Analyze_sizes_witness :
  ∃ image' r,
    Analyze sampleEnv twoLayerImage = Return (image', Ok r)
    ∧ SizeBytes r = uint64 (sumZ (dockerLayer_Size <$> Layers r))
    ∧ (∃ ts, RefTrees r = Some <$> ts
             ∧ SizeBytes r = uint64 (sumZ (filetree.FileSize <$> ts)))
    ∧ UserSizeByes r = uint64 (sumZ (dockerLayer_Size <$> drop 1 (Layers r)))
    ∧ (∀ layer, Layers r !! 0%nat = Some layer →
         index layer = 0
         ∧ UserSizeByes r = uint64 (SizeBytes r - dockerLayer_Size layer)).
Proof.
  eexists _, _. split; [vm_compute; reflexivity |].
  eapply (Analyze_sizes sampleEnv twoLayerImage). vm_compute. reflexivity.
Defined.

(** C2, on the code: in the image of two layers the base layer, the
    one of the first history entry, has the index [n - 1 = 1] and the
    size 500, and the sizes add up to 510. The loop leaves out the
    layer at position 0, which is the newest one, and keeps the base
    layer: [UserSizeByes] is 500 and not 510 - 500. *)
Lemma UserSizeByes_keeps_last_index :
  ∃ image' r base,
    Analyze sampleEnv twoLayerImage = Return (image', Ok r)
    ∧ Layers r !! (length (Layers r) - 1)%nat = Some base
    ∧ index base = Z.of_nat (length (Layers r)) - 1
    ∧ CreatedBy (history base) = "/bin/sh -c #(nop) ADD file:1 in /"
    ∧ dockerLayer_Size base = 500
    ∧ SizeBytes r = 510
    ∧ UserSizeByes r = 500
    ∧ UserSizeByes r ≠ uint64 (SizeBytes r - dockerLayer_Size base).
Proof.
  eexists _, _, _. split; [vm_compute; reflexivity |].
  split; [reflexivity |]. repeat split. by vm_compute.
Qed.

(** C1, on the code: in the image of two layers the layer of index 1
    has the tar path of the first archive and the size of its tree,
    500, and holds the tree of the second archive, of size 10. *)
Lemma Analyze_stores_the_mirrored_tree :
  ∃ image' r layer t,
    Analyze sampleEnv twoLayerImage = Return (image', Ok r)
    ∧ Layers r !! 1%nat = Some layer
    ∧ tarPath layer = "a/layer.tar"
    ∧ dockerLayer_Size layer = 500
    ∧ dockerLayer_Tree layer = Some t
    ∧ filetree.Name t = "b/layer.tar"
    ∧ filetree.totalSize (dockerLayer_Tree layer) = Return 10
    ∧ filetree.totalSize (dockerLayer_Tree layer)
      ≠ Return (dockerLayer_Size layer).
Proof.
  eexists _, _, _, _. split; [vm_compute; reflexivity |].
  split; [reflexivity |]. split; [reflexivity |]. split; [reflexivity |].
  split; [reflexivity |]. repeat split. by vm_compute.
Qed.

(** ** Inputs on which the analysis does not return *)

Lemma Analyze_Panic (env : Environment) (image : dockerImageAnalyzer)
    (p : panic) :
  Analyze env image = Panic p →
  (∃ err, p = LogrusPanic err
          ∧ (json_Unmarshal_manifest env (jsonFile image "manifest.json")
             = Err err
             ∨ ∃ m ms,
                 json_Unmarshal_manifest env (jsonFile image "manifest.json")
                 = Ok (m :: ms)
                 ∧ json_Unmarshal_config env (jsonFile image (ConfigPath m))
                   = Err err))
  ∨ runtimePanic p
  ∨ ∃ m ms,
      json_Unmarshal_manifest env (jsonFile image "manifest.json") = Ok (m :: ms)
      ∧ filetree_Efficiency env (manifestTrees image m) = Panic p.
Proof.
  unfold Analyze. intros Hrun.
  apply go_bind_Panic in Hrun as [H | (m & Hm & Hrun)].
  { unfold newDockerImageManifest in H.
    destruct (json_Unmarshal_manifest env (jsonFile image "manifest.json"))
      as [manifest | err]; [| injection H as <-; left; eauto].
    right. left. left. by eapply at_index_Panic. }
  unfold newDockerImageManifest in Hm.
  destruct (json_Unmarshal_manifest env (jsonFile image "manifest.json"))
    as [manifest | err] eqn:Hmanifest; [| discriminate].
  apply at_index_Return in Hm as (i & Hi & Hm0).
  assert (i = 0%nat) as -> by lia.
  destruct manifest as [|m0 ms]; [discriminate |]. injection Hm0 as ->.
  apply go_bind_Panic in Hrun as [H | (config & _ & Hrun)].
  { unfold newDockerImageConfig in H.
    destruct (json_Unmarshal_config env (jsonFile image (ConfigPath m)))
      as [cfg | err] eqn:Hcfg; [| injection H as <-; left; eauto 10].
    apply go_bind_Panic in H as [H | (? & _ & H)]; [| discriminate].
    right. left. left. by eapply assignIDs_Panic. }
  apply go_bind_Panic in Hrun as [H | (vs & _ & Hrun)].
  { right. left. by eapply assembleLayers_Panic. }
  apply go_bind_Panic in Hrun as [H | ([eff ineffs] & _ & Hrun)].
  { right. right. by exists m, ms. }
  apply go_bind_Panic in Hrun as [H | ([[ls s] u] & _ & Hrun)];
    [| discriminate].
  right. left. right. by eapply sumLayers_Panic.
Qed.

(** C3, as the code has it. When the manifest and the history
    disagree on the number of layers, [Analyze] does not return: it
    ends in a runtime panic, an index out of range or a nil
    dereference, unless [Efficiency] has panicked before. No error
    value is returned. *)
Theorem count_mismatch_panics (env : Environment)
    (image : dockerImageAnalyzer) (m : dockerImageManifest)
    (ms : list dockerImageManifest) (cfg : dockerImageConfig) :
  json_Unmarshal_manifest env (jsonFile image "manifest.json") = Ok (m :: ms) →
  json_Unmarshal_config env (jsonFile image (ConfigPath m)) = Ok cfg →
  length (LayerTarPaths m) ≠ length (contentHistory (History cfg)) →
  ∃ p, Analyze env image = Panic p
       ∧ (runtimePanic p
          ∨ filetree_Efficiency env (manifestTrees image m) = Panic p).
Proof.
  intros Hm Hcfg Hcount.
  destruct (Analyze env image) as [[image' res] | p] eqn:Hrun.
  - apply Analyze_Return_layers in Hrun
      as (m' & ms' & cfg' & r & Hm' & Hcfg' & _ & _ & Hcount' & _).
    rewrite Hm in Hm'. injection Hm' as <- <-.
    rewrite Hcfg in Hcfg'. injection Hcfg' as <-. by rewrite Hcount' in Hcount.
  - exists p. split; [done |].
    apply Analyze_Panic in Hrun
      as [(err & _ & [H | (m' & ms' & Hm' & H)]) | [H | (m' & ms' & Hm' & H)]].
    + congruence.
    + rewrite Hm in Hm'. injection Hm' as <- <-. congruence.
    + by left.
    + rewrite Hm in Hm'. injection Hm' as <- <-. by right.
Qed.

Lemma count_mismatch_panics_witness :
  ∃ p, Analyze sampleEnv threeLayerImage = Panic p
       ∧ (runtimePanic p
          ∨ filetree_Efficiency sampleEnv
              (manifestTrees threeLayerImage
                 (sampleManifest ["a/layer.tar"; "b/layer.tar"; "c/layer.tar"]))
            = Panic p).
Proof.
  apply (count_mismatch_panics sampleEnv threeLayerImage
           (sampleManifest ["a/layer.tar"; "b/layer.tar"; "c/layer.tar"])
           [] sampleConfig).
  - reflexivity.
  - reflexivity.
  - simpl. lia.
Defined.

(** C3, as the spec has it, fails: with three layers in the manifest
    and two history entries with contents, [Analyze] ends in a nil
    dereference and returns no error. *)
Lemma count_mismatch_is_no_error :
  length (LayerTarPaths
            (sampleManifest ["a/layer.tar"; "b/layer.tar"; "c/layer.tar"]))
  = 3%nat
  ∧ length (contentHistory (History sampleConfig)) = 2%nat
  ∧ Analyze sampleEnv threeLayerImage = Panic NilDereference
  ∧ ¬ ∃ image' err,
        Analyze sampleEnv threeLayerImage = Return (image', Err err).
Proof.
  split; [reflexivity |]. split; [reflexivity |].
  assert (Analyze sampleEnv threeLayerImage = Panic NilDereference) as H
    by (vm_compute; reflexivity).
  split; [exact H |]. intros (image' & err & H'). congruence.
Qed.

Lemma assembleLayers_missing_tree (ts : list (option filetree.FileTree))
    (ps : list string) (hs : list dockerImageHistoryEntry) :
  ∀ (i : nat) (ls : list (option dockerLayer)),
    length ps = length ts → length ls = length ts →
    (i + length (contentHistory hs) ≤ length ts)%nat →
    (∃ j, (j < length (contentHistory hs))%nat ∧ ts !! (i + j)%nat = Some None) →
    assembleLayers ts ps hs ls (Z.of_nat (length ts) - 1 - Z.of_nat i)
      (Z.of_nat i) = Panic NilDereference.
Proof.
  induction hs as [|h rest IH]; intros i ls Hps Hls Hk (j & Hj & Hnone).
  { simpl in Hj. lia. }
  simpl. destruct (EmptyLayer h) eqn:Hh.
  { rewrite contentHistory_cons_empty in Hk, Hj by done. apply IH; eauto. }
  rewrite contentHistory_cons_content in Hk, Hj by done. simpl in Hk, Hj.
  destruct (lookup_lt_is_Some_2 ts i) as [tr Htr]; [lia |].
  replace (Z.of_nat (length ts) - 1 - (Z.of_nat (length ts) - 1 - Z.of_nat i))
    with (Z.of_nat i) by lia.
  rewrite (at_index_lookup _ _ _ Htr), go_bind_unit.
  destruct tr as [t|]; [| reflexivity].
  destruct j as [|j]; [rewrite Nat.add_0_r in Hnone; congruence |].
  change (filetree.totalSize (Some t)) with (Return (filetree.FileSize t)).
  rewrite go_bind_unit.
  destruct (lookup_lt_is_Some_2 ts (length ts - 1 - i)) as [stored Hstored];
    [lia |].
  replace (Z.of_nat (length ts) - 1 - Z.of_nat i)
    with (Z.of_nat (length ts - 1 - i)) by lia.
  rewrite (at_index_lookup _ _ _ Hstored), go_bind_unit.
  destruct (lookup_lt_is_Some_2 ps i) as [path Hpath]; [lia |].
  rewrite (at_index_lookup _ _ _ Hpath), go_bind_unit.
  rewrite store_insert, go_bind_unit by lia.
  replace (Z.of_nat (length ts - 1 - i) - 1)
    with (Z.of_nat (length ts) - 1 - Z.of_nat (S i)) by lia.
  replace (Z.of_nat i + 1) with (Z.of_nat (S i)) by lia.
  apply IH; [done | by rewrite length_insert | lia |].
  exists j. split; [lia |].
  by replace (S i + j)%nat with (i + S j)%nat by lia.
Qed.

(** C4, as the code has it. When a layer of the manifest has no tree
    in the layer map, [Analyze] does not return: it panics, and
    returns no error value. On an image that is well-formed but for
    the missing tree the panic is the nil dereference of the read of
    [tree.FileSize]. *)
Theorem missing_tree_panics (env : Environment)
    (image : dockerImageAnalyzer) (m : dockerImageManifest)
    (ms : list dockerImageManifest) (path : string) :
  json_Unmarshal_manifest env (jsonFile image "manifest.json") = Ok (m :: ms) →
  path ∈ LayerTarPaths m →
  layerMap image !! path = None →
  (∃ p, Analyze env image = Panic p)
  ∧ (∀ cfg,
       json_Unmarshal_config env (jsonFile image (ConfigPath m)) = Ok cfg →
       length (contentHistory (History cfg)) = length (LayerTarPaths m) →
       (length (contentHistory (History cfg))
        ≤ length (DiffIds (RootFs cfg)))%nat →
       Analyze env image = Panic NilDereference).
Proof.
  intros Hm Hpath Hnone. split.
  - destruct (Analyze env image) as [[image' res] | p] eqn:Hrun; [| by eauto].
    apply Analyze_Return_layers in Hrun
      as (m' & ms' & cfg' & r & Hm' & _ & _ & _ & _ & _ & Hall & _).
    rewrite Hm in Hm'. injection Hm' as <- <-.
    destruct (Hall path Hpath) as [t Ht]. congruence.
  - intros cfg Hcfg Hcount Hdiff.
    unfold Analyze, newDockerImageManifest, newDockerImageConfig.
    rewrite Hm, at_index_head, go_bind_unit, Hcfg.
    destruct (assignIDs_total (DiffIds (RootFs cfg)) (History cfg) 0%nat)
      as [history Hhistory]; [lia |].
    change (Z.of_nat 0) with 0 in Hhistory.
    rewrite Hhistory, !go_bind_unit.
    apply (assignIDs_Return _ _ 0%nat) in Hhistory as [Hcount' _].
    fold (manifestTrees image m).
    pose proof (length_manifestTrees image m) as Hn.
    cbn [History].
    rewrite <- (Z.sub_0_r (Z.of_nat (length (manifestTrees image m)) - 1)).
    change 0 with (Z.of_nat 0).
    rewrite assembleLayers_missing_tree; [done | lia | | lia |].
    { apply length_replicate. }
    apply list_elem_of_lookup in Hpath as [j Hj].
    exists j. split; [apply lookup_lt_Some in Hj; lia |].
    rewrite Nat.add_0_l. unfold manifestTrees.
    by rewrite list_lookup_fmap, Hj; simpl; rewrite Hnone.
Qed.

Lemma missing_tree_panics_witness :
  (∃ p, Analyze sampleEnv truncatedImage = Panic p)
  ∧ (∀ cfg,
       json_Unmarshal_config sampleEnv
         (jsonFile truncatedImage
            (ConfigPath (sampleManifest ["a/layer.tar"; "b/layer.tar"])))
       = Ok cfg →
       length (contentHistory (History cfg))
       = length (LayerTarPaths (sampleManifest ["a/layer.tar"; "b/layer.tar"])) →
       (length (contentHistory (History cfg))
        ≤ length (DiffIds (RootFs cfg)))%nat →
       Analyze sampleEnv truncatedImage = Panic NilDereference).
Proof.
  apply (missing_tree_panics sampleEnv truncatedImage
           (sampleManifest ["a/layer.tar"; "b/layer.tar"]) [] "b/layer.tar").
  - reflexivity.
  - apply list_elem_of_lookup. by exists 1%nat.
  - by vm_compute.
Defined.

(** C4, as the spec has it, fails: with the second of two layers left
    unparsed, [Analyze] ends in a nil dereference and returns no
    error. *)
Lemma missing_tree_is_no_error :
  "b/layer.tar" ∈ LayerTarPaths (sampleManifest ["a/layer.tar"; "b/layer.tar"])
  ∧ layerMap truncatedImage !! "b/layer.tar" = None
  ∧ Analyze sampleEnv truncatedImage = Panic NilDereference
  ∧ ¬ ∃ image' err,
        Analyze sampleEnv truncatedImage = Return (image', Err err).
Proof.
  split; [apply list_elem_of_lookup; by exists 1%nat |].
  split; [by vm_compute |].
  assert (Analyze sampleEnv truncatedImage = Panic NilDereference) as H
    by (vm_compute; reflexivity).
  split; [exact H |]. intros (image' & err & H'). congruence.
Qed.

(** C9, as the code has it. When the bytes of the manifest, or the
    bytes of the config that a decoded manifest names, are no valid
    JSON, [Analyze] panics with the error of the decoder: it returns
    neither an error value nor a result. *)
Theorem malformed_json_panics (env : Environment)
    (image : dockerImageAnalyzer) :
  (∀ err,
     json_Unmarshal_manifest env (jsonFile image "manifest.json") = Err err →
     Analyze env image = Panic (LogrusPanic err))
  ∧ (∀ m ms err,
       json_Unmarshal_manifest env (jsonFile image "manifest.json")
       = Ok (m :: ms) →
       json_Unmarshal_config env (jsonFile image (ConfigPath m)) = Err err →
       Analyze env image = Panic (LogrusPanic err)).
Proof.
  split.
  - intros err Hm. unfold Analyze, newDockerImageManifest. by rewrite Hm.
  - intros m ms err Hm Hcfg.
    unfold Analyze, newDockerImageManifest, newDockerImageConfig.
    by rewrite Hm, at_index_head, go_bind_unit, Hcfg.
Qed.

Lemma malformed_json_panics_witness :
  Analyze sampleEnv brokenImage = Panic (LogrusPanic jsonInvalidCharacter)
  ∧ Analyze sampleEnv brokenConfigImage
    = Panic (LogrusPanic jsonUnexpectedEnd).
Proof.
  split.
  - apply (proj1 (malformed_json_panics sampleEnv brokenImage)).
    reflexivity.
  - apply (proj2 (malformed_json_panics sampleEnv brokenConfigImage)
             (sampleManifest ["a/layer.tar"; "b/layer.tar"]) []).
    + reflexivity.
    + reflexivity.
Defined.

(** The manifest that is an empty array: the read of [manifest[0]]
    is out of range. *)
Lemma empty_manifest_panics (env : Environment) (image : dockerImageAnalyzer) :
  json_Unmarshal_manifest env (jsonFile image "manifest.json") = Ok [] →
  Analyze env image = Panic IndexOutOfRange.
Proof. intros Hm. unfold Analyze, newDockerImageManifest. by rewrite Hm. Qed.

Lemma empty_manifest_example :
  Analyze sampleEnv emptyManifestImage = Panic IndexOutOfRange.
Proof. by apply empty_manifest_panics. Qed.

(** C9, as the spec has it, fails: a manifest that is no JSON makes
    [Analyze] panic, and no error is returned to the caller. *)
Lemma malformed_manifest_is_no_error :
  json_Unmarshal_manifest sampleEnv (jsonFile brokenImage "manifest.json")
  = Err jsonInvalidCharacter
  ∧ Analyze sampleEnv brokenImage = Panic (LogrusPanic jsonInvalidCharacter)
  ∧ ¬ ∃ image' err, Analyze sampleEnv brokenImage = Return (image', Err err).
Proof.
  split; [reflexivity |].
  assert (Analyze sampleEnv brokenImage
          = Panic (LogrusPanic jsonInvalidCharacter)) as H
    by (vm_compute; reflexivity).
  split; [exact H |]. intros (image' & err & H'). congruence.
Qed.

(** [Analyze] hands on the score that [Efficiency] returns and
    divides the wasted bytes by the user bytes without a test. *)
Lemma Analyze_forwards_efficiency (env : Environment)
    (image image' : dockerImageAnalyzer) (r : AnalysisResult) :
  Analyze env image = Return (image', Ok r) →
  filetree_Efficiency env (RefTrees r) = Return (Efficiency r, Inefficiencies r)
  ∧ WastedBytes r = sumWasted (Inefficiencies r)
  ∧ WastedUserPercent r
    = float64_quo (float64_of_uint64 (WastedBytes r))
                  (float64_of_uint64 (UserSizeByes r)).
Proof.
  intros Hrun.
  apply Analyze_Return in Hrun
    as (m & ms & cfg & history & ls & eff & ineffs
        & _ & _ & _ & _ & Heff & _ & _ & [= ->]).
  by repeat split.
Qed.

(** [Analyze] returns no error value on any input. *)
Lemma Analyze_returns_no_error (env : Environment)
    (image image' : dockerImageAnalyzer) (err : error) :
  Analyze env image ≠ Return (image', Err err).
Proof.
  intros Hrun.
  apply Analyze_Return_layers in Hrun as (? & ? & ? & ? & _ & _ & [=] & _).
Qed.

(** * Further properties *)

(** ** The accessors of a layer *)

Lemma HasSuffix_true (s suffix : string) :
  GoStrings.HasSuffix s suffix = true ↔ ∃ d, s = d +:+ suffix.
Proof.
  unfold GoStrings.HasSuffix. split.
  - intros [Hlen Heq]%andb_true_iff.
    apply Nat.leb_le in Hlen. apply String.eqb_eq in Heq.
    exists (substring 0 (String.length s - String.length suffix) s).
    remember (String.length s - String.length suffix)%nat as n eqn:Hn.
    rewrite <- Heq.
    replace (String.length suffix) with (String.length s - n)%nat by lia.
    apply substring_split. lia.
  - intros [d ->]. apply andb_true_iff. split.
    + apply Nat.leb_le. rewrite string_length_app. lia.
    + apply String.eqb_eq. rewrite string_length_app.
      replace (String.length d + String.length suffix - String.length suffix)%nat
        with (String.length d) by lia.
      rewrite substring_skip_app. apply substring_whole.
Qed.

Lemma TrimSuffix_app (d suffix : string) :
  GoStrings.TrimSuffix (d +:+ suffix) suffix = d.
Proof.
  unfold GoStrings.TrimSuffix.
  destruct (GoStrings.HasSuffix (d +:+ suffix) suffix) eqn:H.
  - rewrite string_length_app.
    replace (String.length d + String.length suffix - String.length suffix)%nat
      with (String.length d) by lia.
    apply substring_take_app.
  - assert (GoStrings.HasSuffix (d +:+ suffix) suffix = true) as H'
      by (apply HasSuffix_true; eauto).
    congruence.
Qed.

Lemma length_substring_0 (n : nat) (s : string) :
  String.length (substring 0 n s) = (n `min` String.length s)%nat.
Proof.
  revert s. induction n as [|n IH]; intros [|c s]; simpl; [done.. |].
  by rewrite IH.
Qed.

(** X1. [TarId] is the tar path of the layer without the suffix
    [/layer.tar] when the path ends with it, and the tar path itself
    when it does not. *)
Theorem TarId_trims_layer_tar (layer : dockerLayer) :
  (∀ dir, tarPath layer = dir +:+ "/layer.tar" →
          dockerLayer_TarId layer = dir)
  ∧ ((¬ ∃ dir, tarPath layer = dir +:+ "/layer.tar") →
     dockerLayer_TarId layer = tarPath layer).
Proof.
  unfold dockerLayer_TarId. split.
  - intros dir ->. apply TrimSuffix_app.
  - intros Hno. unfold GoStrings.TrimSuffix.
    destruct (GoStrings.HasSuffix (tarPath layer) "/layer.tar") eqn:H; [| done].
    apply HasSuffix_true in H. contradiction.
Qed.

Lemma TarId_trims_layer_tar_witness :
  dockerLayer_TarId
    {| tarPath := "4fe1/layer.tar"; history := sampleEntry "" false;
       index := 0; tree := None |} = "4fe1"
  ∧ dockerLayer_TarId
      {| tarPath := "layer.tar"; history := sampleEntry "" false;
         index := 0; tree := None |} = "layer.tar".
Proof.
  split.
  - apply (proj1 (TarId_trims_layer_tar
                    {| tarPath := "4fe1/layer.tar";
                       history := sampleEntry "" false;
                       index := 0; tree := None |}) "4fe1").
    reflexivity.
  - apply (proj2 (TarId_trims_layer_tar
                    {| tarPath := "layer.tar";
                       history := sampleEntry "" false;
                       index := 0; tree := None |})).
    intros [dir H]. simpl in H.
    apply (f_equal String.length) in H. rewrite string_length_app in H.
    simpl in H. lia.
Defined.

(** X2. [ShortId] is the id of the layer cut to its first 25 bytes: a
    prefix of the id, of the length of the id when that is at most
    25. *)
Theorem ShortId_is_prefix_of_Id (layer : dockerLayer) :
  (∃ rest, dockerLayer_Id layer = dockerLayer_ShortId layer +:+ rest)
  ∧ String.length (dockerLayer_ShortId layer)
    = (25 `min` String.length (dockerLayer_Id layer))%nat.
Proof.
  unfold dockerLayer_ShortId, dockerLayer_Id.
  destruct (25 <? String.length (ID (history layer)))%nat eqn:Hlen.
  - apply Nat.ltb_lt in Hlen. split.
    + eexists. apply substring_split. lia.
    + apply length_substring_0.
  - apply Nat.ltb_ge in Hlen. split.
    + exists "". clear. induction (ID (history layer)) as [|c s IH]; [done |].
      change (String c s = String c (s +:+ "")). by rewrite <- IH.
    + lia.
Qed.

(** X3. The two versions of [ShortId] return the same string. *)
Theorem ShortId_versions_agree (layer : dockerLayer) :
  Variant.dockerLayer_ShortId layer = dockerLayer_ShortId layer.
Proof.
  unfold Variant.dockerLayer_ShortId, dockerLayer_ShortId, dockerLayer_Id.
  destruct (String.length (ID (history layer)) <? 25)%nat eqn:Hlt.
  - apply Nat.ltb_lt in Hlt.
    replace (25 <? String.length (ID (history layer)))%nat with false
      by (symmetry; apply Nat.ltb_ge; lia).
    apply substring_whole.
  - apply Nat.ltb_ge in Hlt.
    destruct (25 <? String.length (ID (history layer)))%nat eqn:Hgt; [done |].
    apply Nat.ltb_ge in Hgt.
    replace 25%nat with (String.length (ID (history layer))) at 1 by lia.
    apply substring_whole.
Qed.

(** ** The file list of a layer archive *)

Lemma getFileList_loop_failure (entries : list tar.Header) (err : error)
    (files : list filetree.FileInfo) :
  Forall (fun h => isExtendedHeader h = false) entries →
  getFileList_loop entries (Some err) files = Err err.
Proof.
  revert files. induction entries as [|h rest IH]; intros files Hall; simpl;
    [done |].
  apply Forall_cons in Hall as [Hh Hrest].
  unfold isExtendedHeader in Hh. apply orb_false_iff in Hh as [-> ->].
  by apply IH.
Qed.

Lemma getFileList_Ok (tarReader : tar.Reader)
    (files : list filetree.FileInfo) :
  getFileList tarReader = Ok files
  ↔ Forall (fun h => isExtendedHeader h = false) (tar.entries tarReader)
    ∧ tar.failure tarReader = None
    ∧ files = (fun h => filetree.NewFileInfo h (tar.Name h))
              <$> tar.entries tarReader.
Proof.
  unfold getFileList. split.
  - intros Hrun.
    destruct (decide (Forall (fun h => isExtendedHeader h = false)
                        (tar.entries tarReader))) as [Hall | Hex].
    + destruct (tar.failure tarReader) as [err|] eqn:Hfail.
      * rewrite getFileList_loop_failure in Hrun by done. discriminate.
      * rewrite getFileList_loop_ok in Hrun by done.
        injection Hrun as <-. by repeat split.
    + apply not_Forall_Exists in Hex; [| apply _].
      apply Exists_exists in Hex as (h & Hin & Hh). simpl in Hh.
      apply not_false_is_true in Hh.
      destruct (getFileList_loop_extended (tar.entries tarReader)
                  (tar.failure tarReader) [])
        as (? & ? & ? & _ & _ & _ & Herr); [by eauto |].
      congruence.
  - intros (Hall & -> & ->). by rewrite getFileList_loop_ok.
Qed.

(** X4. [getFileList] returns a file list exactly when the archive holds
    no record of type [XGlobalHeader] and is read to its end; the list
    then has one record per header that [Next] yields, in the order of
    the archive, which [NewFileInfo] makes of the header and its name.
    A record of type [XHeader] is no obstacle and has no record in the
    list. *)
Theorem getFileList_returns_iff (archive : tarfile.Archive)
    (files : list filetree.FileInfo) :
  getFileList (tarfile.NewReader archive) = Ok files
  ↔ Forall (fun b => tar.Typeflag (tarfile.header b) ≠ tar.TypeXGlobalHeader)
           (tarfile.blocks archive)
    ∧ tarfile.ending archive = None
    ∧ files = (fun h => filetree.NewFileInfo h (tar.Name h))
              <$> tar.entries (tarfile.NewReader archive).
Proof.
  rewrite getFileList_Ok. unfold tarfile.NewReader at 1. simpl.
  by rewrite Next_extended.
Qed.

Lemma getFileList_returns_iff_witness :
  getFileList (tarfile.NewReader paxArchive)
  = Ok [filetree.NewFileInfo (regularFile "a" 100) "a";
        filetree.NewFileInfo (regularFile "b" 10) "b"].
Proof.
  apply (proj2 (getFileList_returns_iff paxArchive _)).
  split; [repeat constructor; discriminate |]. split; reflexivity.
Defined.

(** X5. When an archive without an entry of extended-header type ends in
    a read error, [getFileList] returns that error, and so does
    [processLayerTar], without a tree. *)
Theorem read_error_fails_layer (name : string) (layerIdx : Z)
    (tarReader : tar.Reader) (err : error) :
  Forall (fun h => isExtendedHeader h = false) (tar.entries tarReader) →
  tar.failure tarReader = Some err →
  getFileList tarReader = Err err
  ∧ processLayerTar name layerIdx tarReader = Err err.
Proof.
  intros Hall Hfail.
  assert (getFileList tarReader = Err err) as Hrun.
  { unfold getFileList. rewrite Hfail. by apply getFileList_loop_failure. }
  split; [exact Hrun |]. unfold processLayerTar. by rewrite Hrun.
Qed.

Lemma read_error_fails_layer_witness :
  getFileList {| tar.entries := baseFiles;
                 tar.failure := Some (libError "unexpected EOF") |}
  = Err (libError "unexpected EOF")
  ∧ processLayerTar "a/layer.tar" 1
      {| tar.entries := baseFiles;
         tar.failure := Some (libError "unexpected EOF") |}
    = Err (libError "unexpected EOF").
Proof.
  apply (read_error_fails_layer "a/layer.tar" 1
           {| tar.entries := baseFiles;
              tar.failure := Some (libError "unexpected EOF") |}).
  - repeat constructor.
  - reflexivity.
Defined.

Lemma sumZ_nonneg (xs : list Z) : Forall (fun x => 0 ≤ x) xs → 0 ≤ sumZ xs.
Proof.
  induction 1 as [|x xs Hx _ IH]; [done |].
  change (0 ≤ x + sumZ xs). lia.
Qed.

Lemma uint64_range (a : Z) : 0 ≤ uint64 a < uint64_modulus.
Proof. unfold uint64. by apply Z.mod_pos_bound. Qed.

(** X6. The [FileSize] of a tree that [processLayerTar] returns lies in
    the range of a [uint64]; when no entry has a negative size and
    the sizes add up to less than 2^64, it is their sum. *)
Theorem processLayerTar_FileSize_exact (name : string) (layerIdx : Z)
    (reader : tar.Reader) (tree : filetree.FileTree) :
  processLayerTar name layerIdx reader = Ok tree →
  0 ≤ filetree.FileSize tree < uint64_modulus
  ∧ (Forall (fun h => 0 ≤ tar.Size h) (tar.entries reader) →
     sumZ (tar.Size <$> tar.entries reader) < uint64_modulus →
     filetree.FileSize tree = sumZ (tar.Size <$> tar.entries reader)).
Proof.
  unfold processLayerTar. intros Hrun.
  destruct (getFileList reader) as [files | err] eqn:Hfiles; [| discriminate].
  apply getFileList_Ok in Hfiles as (_ & _ & ->).
  match type of Hrun with processLayerTar_loop ?t ?fs = _ =>
    destruct (processLayerTar_loop_FileSize fs t)
      as (tree' & Hrun' & _ & Hsize) end.
  rewrite Hrun in Hrun'. injection Hrun' as <-.
  rewrite Hsize by (right; reflexivity).
  rewrite <- list_fmap_compose.
  change (0 + sumZ (tar.Size <$> tar.entries reader))
    with (sumZ (tar.Size <$> tar.entries reader)).
  split; [apply uint64_range |].
  intros Hpos Hsum. unfold uint64. apply Z.mod_small.
  split; [| done]. apply sumZ_nonneg. by apply Forall_fmap.
Qed.

Lemma processLayerTar_FileSize_exact_witness :
  ∃ tree,
    processLayerTar "a/layer.tar" 1 (archiveOf rewrittenFiles) = Ok tree
    ∧ 0 ≤ filetree.FileSize tree < uint64_modulus
    ∧ filetree.FileSize tree = 155.
Proof.
  eexists. split; [reflexivity |].
  match goal with |- context [filetree.FileSize ?t] =>
    destruct (processLayerTar_FileSize_exact "a/layer.tar" 1
                (archiveOf rewrittenFiles) t eq_refl) as [Hrange Hsum] end.
  split; [exact Hrange |]. apply Hsum.
  - repeat constructor; simpl; lia.
  - reflexivity.
Defined.

(** ** The second version of [getFileList] *)

Lemma Variant_getFileList_loop_eof (entries : list tar.Header)
    (files : list filetree.FileInfo) :
  Variant.getFileList_loop entries None files
  = Continues (getFileList_loop entries None files).
Proof.
  revert files. induction entries as [|h rest IH]; intros files; simpl;
    [done |].
  destruct (tar.Typeflag h =? tar.TypeXGlobalHeader); [done |].
  destruct (tar.Typeflag h =? tar.TypeXHeader); [done |]. apply IH.
Qed.

Lemma Variant_getFileList_loop_failure (entries : list tar.Header)
    (err : error) (files : list filetree.FileInfo) :
  Forall (fun h => isExtendedHeader h = false) entries →
  Variant.getFileList_loop entries (Some err) files = Exits 1.
Proof.
  revert files. induction entries as [|h rest IH]; intros files Hall; simpl;
    [done |].
  apply Forall_cons in Hall as [Hh Hrest].
  unfold isExtendedHeader in Hh. apply orb_false_iff in Hh as [-> ->].
  by apply IH.
Qed.

(** X7. The two versions of [getFileList] return the same on an archive
    that is read to its end; on an archive without an entry of
    extended-header type that ends in a read error, the second
    version exits with code 1 where the first returns the error. *)
Theorem getFileList_versions (tarReader : tar.Reader) :
  (tar.failure tarReader = None →
   Variant.getFileList tarReader = Continues (getFileList tarReader))
  ∧ (∀ err,
       tar.failure tarReader = Some err →
       Forall (fun h => isExtendedHeader h = false) (tar.entries tarReader) →
       Variant.getFileList tarReader = Exits 1
       ∧ getFileList tarReader = Err err).
Proof.
  unfold Variant.getFileList, getFileList. split.
  - intros ->. apply Variant_getFileList_loop_eof.
  - intros err -> Hall. split.
    + by apply Variant_getFileList_loop_failure.
    + by apply getFileList_loop_failure.
Qed.

Lemma getFileList_versions_witness :
  Variant.getFileList (archiveOf extendedFiles)
  = Continues (getFileList (archiveOf extendedFiles))
  ∧ Variant.getFileList
      {| tar.entries := baseFiles;
         tar.failure := Some (libError "unexpected EOF") |} = Exits 1.
Proof.
  split.
  - apply (proj1 (getFileList_versions (archiveOf extendedFiles))).
    reflexivity.
  - apply (proj2 (getFileList_versions
                    {| tar.entries := baseFiles;
                       tar.failure := Some (libError "unexpected EOF") |})
             (libError "unexpected EOF")).
    + reflexivity.
    + repeat constructor.
Defined.

(** ** The config of an image *)

Lemma at_index_beyond {A : Type} (xs : list A) (i : nat) :
  (length xs ≤ i)%nat → at_index xs (Z.of_nat i) = Panic IndexOutOfRange.
Proof.
  intros H. unfold at_index.
  replace (Z.of_nat i <? Z.of_nat (length xs)) with false;
    [by rewrite andb_false_r |].
  symmetry. apply Z.ltb_ge. lia.
Qed.

Lemma assignIDs_shape (diffIds : list string)
    (history : list dockerImageHistoryEntry) :
  ∀ (z : Z) (history' : list dockerImageHistoryEntry),
    assignIDs diffIds z history = Return history' →
    Forall2 (fun h h' =>
               CreatedBy h' = CreatedBy h ∧ Size h' = Size h
               ∧ EmptyLayer h' = EmptyLayer h
               ∧ (EmptyLayer h = true → ID h' = "<missing>"))
            history history'.
Proof.
  induction history as [|h rest IH]; intros z history' Hrun; simpl in Hrun.
  - injection Hrun as <-. constructor.
  - destruct (EmptyLayer h) eqn:Hh.
    + go_inv Hrun as rest' Hrest. injection Hrun as <-.
      constructor; [by rewrite Hh | by eauto].
    + go_inv Hrun as diffId Hd. go_inv Hrun as rest' Hrest.
      injection Hrun as <-.
      constructor; [by rewrite Hh | by eauto].
Qed.

Lemma assignIDs_short (diffIds : list string)
    (history : list dockerImageHistoryEntry) :
  ∀ i : nat,
    (0 < length (contentHistory history))%nat →
    (length diffIds < i + length (contentHistory history))%nat →
    assignIDs diffIds (Z.of_nat i) history = Panic IndexOutOfRange.
Proof.
  induction history as [|h rest IH]; intros i Hpos Hlen; simpl.
  - simpl in Hpos. lia.
  - destruct (EmptyLayer h) eqn:Hh.
    + rewrite contentHistory_cons_empty in Hpos, Hlen by done.
      by rewrite IH.
    + rewrite contentHistory_cons_content in Hlen by done. simpl in Hlen.
      destruct (decide (length diffIds ≤ i)%nat) as [Hi | Hi].
      * by rewrite at_index_beyond.
      * destruct (lookup_lt_is_Some_2 diffIds i) as [d Hd]; [lia |].
        rewrite (at_index_lookup _ _ _ Hd), go_bind_unit.
        replace (Z.of_nat i + 1) with (Z.of_nat (S i)) by lia.
        rewrite IH by lia. done.
Qed.

(** X8. When the config decodes and has a diff id for every history entry
    with contents, [newDockerImageConfig] returns it with the same
    root fs and a history of the same entries, in which an empty layer
    has the id [<missing>] and the entry that is number [j] among the
    entries with contents has the diff id number [j]. *)
Theorem newDockerImageConfig_assigns_ids (env : Environment)
    (configBytes : list Byte.byte) (cfg : dockerImageConfig) :
  json_Unmarshal_config env configBytes = Ok cfg →
  (length (contentHistory (History cfg)) ≤ length (DiffIds (RootFs cfg)))%nat →
  ∃ config,
    newDockerImageConfig env configBytes = Return config
    ∧ RootFs config = RootFs cfg
    ∧ Forall2 (fun h h' =>
                 CreatedBy h' = CreatedBy h ∧ Size h' = Size h
                 ∧ EmptyLayer h' = EmptyLayer h
                 ∧ (EmptyLayer h = true → ID h' = "<missing>"))
              (History cfg) (History config)
    ∧ ∀ j h', contentHistory (History config) !! j = Some h' →
              DiffIds (RootFs cfg) !! j = Some (ID h').
Proof.
  intros Hcfg Hlen. unfold newDockerImageConfig. rewrite Hcfg.
  destruct (assignIDs_total (DiffIds (RootFs cfg)) (History cfg) 0%nat)
    as [history Hhistory]; [lia |].
  change (Z.of_nat 0) with 0 in Hhistory. rewrite Hhistory, go_bind_unit.
  eexists. split; [reflexivity |]. split; [reflexivity |]. cbn [History].
  split; [by eapply assignIDs_shape |].
  apply (assignIDs_Return _ _ 0%nat) in Hhistory as [Hcount Hids].
  intros j h' Hj.
  destruct (lookup_lt_is_Some_2 (contentHistory (History cfg)) j) as [h Hh].
  { apply lookup_lt_Some in Hj. lia. }
  destruct (Hids j h Hh) as (diffId & Hd & Hj').
  rewrite Hj in Hj'. injection Hj' as ->. exact Hd.
Qed.

Lemma newDockerImageConfig_assigns_ids_witness :
  ∃ config,
    newDockerImageConfig sampleEnv (list_byte_of_string configJSON)
    = Return config
    ∧ RootFs config = RootFs sampleConfig
    ∧ Forall2 (fun h h' =>
                 CreatedBy h' = CreatedBy h ∧ Size h' = Size h
                 ∧ EmptyLayer h' = EmptyLayer h
                 ∧ (EmptyLayer h = true → ID h' = "<missing>"))
              (History sampleConfig) (History config)
    ∧ ∀ j h', contentHistory (History config) !! j = Some h' →
              DiffIds (RootFs sampleConfig) !! j = Some (ID h').
Proof.
  apply (newDockerImageConfig_assigns_ids sampleEnv
           (list_byte_of_string configJSON) sampleConfig).
  - reflexivity.
  - simpl. lia.
Defined.

(** X9. When the config decodes and has fewer diff ids than history
    entries with contents, [newDockerImageConfig] panics on the read
    of the diff id that is not there. *)
Theorem newDockerImageConfig_few_diff_ids (env : Environment)
    (configBytes : list Byte.byte) (cfg : dockerImageConfig) :
  json_Unmarshal_config env configBytes = Ok cfg →
  (length (DiffIds (RootFs cfg)) < length (contentHistory (History cfg)))%nat →
  newDockerImageConfig env configBytes = Panic IndexOutOfRange.
Proof.
  intros Hcfg Hlen. unfold newDockerImageConfig. rewrite Hcfg.
  change 0 with (Z.of_nat 0). rewrite assignIDs_short; [done | lia | lia].
Qed.

Lemma newDockerImageConfig_few_diff_ids_witness :
  newDockerImageConfig shortDiffIdsEnv [] = Panic IndexOutOfRange.
Proof.
  apply (newDockerImageConfig_few_diff_ids shortDiffIdsEnv []
           {| History := History sampleConfig;
              RootFs := {| DiffIds := ["sha256:aa"] |} |}).
  - reflexivity.
  - simpl. lia.
Defined.

(** ** More on the analysis *)

Lemma Analyze_Return_image (env : Environment)
    (image image' : dockerImageAnalyzer) (res : result AnalysisResult) :
  Analyze env image = Return (image', res) →
  id image' = id image
  ∧ jsonFiles image' = jsonFiles image
  ∧ layerMap image' = layerMap image.
Proof.
  unfold Analyze. intros Hrun.
  go_inv Hrun as m Hm. go_inv Hrun as config Hconfig.
  go_inv Hrun as vs Hvs.
  go_inv Hrun as scored Hscored. destruct scored as [efficiency inefficiencies].
  go_inv Hrun as summed Hsummed. destruct summed as [[ls sizeBytes] userSizeBytes].
  injection Hrun as <- _. done.
Qed.

(** X10. [Analyze] returns exactly on the well-formed images: those whose
    manifest and config decode, whose history has as many entries with
    contents as the manifest has layers and the config has diff ids
    for, whose layers all have a tree in the layer map, and on whose
    trees [Efficiency] returns. On every other image it panics. *)
Theorem Analyze_returns_iff_wellFormed (env : Environment)
    (image : dockerImageAnalyzer) :
  (∃ image' res, Analyze env image = Return (image', res))
  ↔ ∃ m cfg, wellFormed env image m cfg.
Proof.
  split.
  - intros (image' & res & Hrun).
    pose proof Hrun as Hrun'.
    apply Analyze_Return in Hrun'
      as (m' & ms' & _ & _ & _ & eff & ineffs & Hm' & _ & _ & _ & Heff & _).
    apply Analyze_Return_layers in Hrun
      as (m & ms & cfg & r & Hm & Hcfg & _ & _ & Hcount & _ & Hall
          & Hlayers & _).
    rewrite Hm in Hm'. injection Hm' as <- <-.
    exists m, cfg. split; [by eauto |]. split; [exact Hcfg |].
    split; [exact Hcount |]. split; [| split; [exact Hall | by eauto]].
    destruct (decide (length (contentHistory (History cfg))
                      ≤ length (DiffIds (RootFs cfg)))%nat) as [| Hlt];
      [done |].
    destruct (lookup_lt_is_Some_2 (contentHistory (History cfg))
                (length (DiffIds (RootFs cfg)))) as [h Hh]; [lia |].
    destruct (Hlayers _ _ Hh) as (diffId & _ & Hd & _).
    apply lookup_lt_Some in Hd. lia.
  - intros (m & cfg & Hwf).
    destruct (Analyze_total _ _ _ _ Hwf) as (image' & r & Hrun). eauto.
Qed.

Lemma Analyze_returns_iff_wellFormed_witness :
  ∃ image' res, Analyze sampleEnv twoLayerImage = Return (image', res).
Proof.
  apply (proj2 (Analyze_returns_iff_wellFormed sampleEnv twoLayerImage)).
  exists (sampleManifest ["a/layer.tar"; "b/layer.tar"]), sampleConfig.
  split; [by exists [] |]. split; [reflexivity |]. split; [reflexivity |].
  split; [simpl; lia |]. split.
  - intros path Hpath. apply list_elem_of_In in Hpath. simpl in Hpath.
    destruct Hpath as [<- | [<- | []]]; vm_compute; eauto.
  - eexists. reflexivity.
Defined.

(** X11. A returning [Analyze] leaves the id, the JSON files and the layer
    map of the analyzer as they are; it sets the trees of the
    analyzer to the trees of the result, which are the trees that the
    layer map holds for the tar paths of the manifest, in their order,
    and the layers of the analyzer to the layers of the result. *)
Theorem Analyze_updates_trees_and_layers (env : Environment)
    (image image' : dockerImageAnalyzer) (res : result AnalysisResult) :
  Analyze env image = Return (image', res) →
  id image' = id image
  ∧ jsonFiles image' = jsonFiles image
  ∧ layerMap image' = layerMap image
  ∧ ∃ m ms r,
      json_Unmarshal_manifest env (jsonFile image "manifest.json")
      = Ok (m :: ms)
      ∧ res = Ok r
      ∧ trees image' = RefTrees r
      ∧ RefTrees r
        = (fun path => layerMap image !! path) <$> LayerTarPaths m
      ∧ layers image' = Some <$> Layers r.
Proof.
  intros Hrun.
  destruct (Analyze_Return_image _ _ _ _ Hrun) as (Hid & Hjson & Hmap).
  split; [exact Hid |]. split; [exact Hjson |]. split; [exact Hmap |].
  apply Analyze_Return in Hrun
    as (m & ms & cfg & history & ls & eff & ineffs
        & Hm & _ & _ & _ & _ & Htrees & Hlayers & ->).
  exists m, ms. eexists. split; [exact Hm |]. split; [reflexivity |].
  by repeat split.
Qed.

Lemma Analyze_updates_trees_and_layers_witness :
  ∃ image' res,
    Analyze sampleEnv twoLayerImage = Return (image', res)
    ∧ id image' = id twoLayerImage
    ∧ jsonFiles image' = jsonFiles twoLayerImage
    ∧ layerMap image' = layerMap twoLayerImage
    ∧ ∃ m ms r,
        json_Unmarshal_manifest sampleEnv (jsonFile twoLayerImage "manifest.json")
        = Ok (m :: ms)
        ∧ res = Ok r
        ∧ trees image' = RefTrees r
        ∧ RefTrees r
          = (fun path => layerMap twoLayerImage !! path) <$> LayerTarPaths m
        ∧ layers image' = Some <$> Layers r.
Proof.
  eexists _, _. split; [vm_compute; reflexivity |].
  apply (Analyze_updates_trees_and_layers sampleEnv twoLayerImage).
  vm_compute. reflexivity.
Defined.

(** X12. In a returned result the layer at the position [s] has the index
    [s] and holds the tree at the position [s] of the trees of the
    result, and its size is the [FileSize] of the tree at the position
    [n - 1 - s]; there are as many layers as trees. *)
Theorem layer_at_position (env : Environment)
    (image image' : dockerImageAnalyzer) (r : AnalysisResult) :
  Analyze env image = Return (image', Ok r) →
  length (Layers r) = length (RefTrees r)
  ∧ ∀ s layer, Layers r !! s = Some layer →
      dockerLayer_Index layer = Z.of_nat s
      ∧ RefTrees r !! s = Some (dockerLayer_Tree layer)
      ∧ ∃ t, RefTrees r !! (length (RefTrees r) - 1 - s)%nat = Some (Some t)
             ∧ dockerLayer_Size layer = uint64 (filetree.FileSize t).
Proof.
  intros Hrun. split.
  - apply Analyze_Return_layers in Hrun
      as (m & ms & cfg & r' & _ & _ & [= <-] & Htrees & _ & Hlen & _).
    by rewrite Htrees, length_manifestTrees.
  - by apply (Analyze_tree_and_size env image image').
Qed.

Lemma layer_at_position_witness :
  ∃ image' r,
    Analyze sampleEnv twoLayerImage = Return (image', Ok r)
    ∧ length (Layers r) = length (RefTrees r)
    ∧ ∀ s layer, Layers r !! s = Some layer →
        dockerLayer_Index layer = Z.of_nat s
        ∧ RefTrees r !! s = Some (dockerLayer_Tree layer)
        ∧ ∃ t, RefTrees r !! (length (RefTrees r) - 1 - s)%nat = Some (Some t)
               ∧ dockerLayer_Size layer = uint64 (filetree.FileSize t).
Proof.
  eexists _, _. split; [vm_compute; reflexivity |].
  eapply (layer_at_position sampleEnv twoLayerImage). vm_compute. reflexivity.
Defined.

Lemma foldl_add64 {A : Type} (f : A → Z) (xs : list A) :
  ∀ a, a = uint64 a →
       foldl (fun acc x => add64 acc (uint64 (f x))) a xs
       = uint64 (a + sumZ (f <$> xs)).
Proof.
  induction xs as [|x xs IH]; intros a Ha; simpl.
  - by rewrite Z.add_0_r.
  - rewrite IH by (by rewrite add64_uint64_r, uint64_idemp).
    rewrite add64_uint64_r, uint64_add_l. f_equal. symmetry. apply Z.add_assoc.
Qed.

Lemma sumWasted_sum (inefficiencies : list filetree.EfficiencyData) :
  sumWasted inefficiencies
  = uint64 (sumZ (filetree.CumulativeSize <$> inefficiencies)).
Proof.
  unfold sumWasted. rewrite foldl_add64 by done.
  by rewrite fmap_reverse, sumZ_reverse.
Qed.

(** X13. In a returned result the score and the inefficiencies are what
    [Efficiency] returns on the trees of the result, and
    [WastedBytes] is the sum, modulo 2^64, of the cumulative sizes of
    the inefficiencies: that the loop reads them from the last to the
    first does not show. *)
Theorem WastedBytes_is_the_sum (env : Environment)
    (image image' : dockerImageAnalyzer) (r : AnalysisResult) :
  Analyze env image = Return (image', Ok r) →
  filetree_Efficiency env (RefTrees r) = Return (Efficiency r, Inefficiencies r)
  ∧ WastedBytes r
    = uint64 (sumZ (filetree.CumulativeSize <$> Inefficiencies r)).
Proof.
  intros Hrun.
  apply Analyze_forwards_efficiency in Hrun as (Heff & Hwasted & _).
  split; [exact Heff |]. by rewrite Hwasted, sumWasted_sum.
Qed.

Lemma WastedBytes_is_the_sum_witness :
  ∃ image' r,
    Analyze wastefulEnv twoLayerImage = Return (image', Ok r)
    ∧ filetree_Efficiency wastefulEnv (RefTrees r)
      = Return (Efficiency r, Inefficiencies r)
    ∧ WastedBytes r
      = uint64 (sumZ (filetree.CumulativeSize <$> Inefficiencies r))
    ∧ WastedBytes r = 140.
Proof.
  eexists _, _. split; [vm_compute; reflexivity |].
  match goal with |- _ ∧ _ ∧ ?P => assert P as Hvalue by reflexivity end.
  destruct (WastedBytes_is_the_sum wastefulEnv twoLayerImage _ _
              ltac:(vm_compute; reflexivity)) as [Heff Hsum].
  split; [exact Heff |]. split; [exact Hsum | exact Hvalue].
Defined.

(** ** The ratio of the wasted bytes *)







(** X14. An image of one layer: the layer has the index 0, holds the one
    tree and has its size, [SizeBytes] is that size and
    [UserSizeByes] is 0, so that [WastedUserPercent] is a division by
    [float64(0)]. *)
Theorem single_layer_result (env : Environment)
    (image image' : dockerImageAnalyzer) (r : AnalysisResult) :
  Analyze env image = Return (image', Ok r) →
  length (Layers r) = 1%nat →
  ∃ layer t,
    Layers r = [layer]
    ∧ RefTrees r = [Some t]
    ∧ dockerLayer_Index layer = 0
    ∧ dockerLayer_Tree layer = Some t
    ∧ dockerLayer_Size layer = uint64 (filetree.FileSize t)
    ∧ SizeBytes r = uint64 (filetree.FileSize t)
    ∧ UserSizeByes r = 0
    ∧ WastedUserPercent r
      = float64_quo (float64_of_uint64 (WastedBytes r)) (float64_of_uint64 0).
Proof.
  intros Hrun Hone.
  pose proof (Analyze_tree_and_size _ _ _ _ Hrun) as Hpair.
  pose proof (Analyze_forwards_efficiency _ _ _ _ Hrun) as (_ & _ & Hpercent).
  apply Analyze_Return_layers in Hrun
    as (m & ms & cfg & r' & _ & _ & [= <-] & Htrees & _ & Hlen & _ & _
        & Hsize & Huser).
  assert (length (RefTrees r) = 1%nat) as Hn
    by (rewrite Htrees, length_manifestTrees; lia).
  destruct (Layers r) as [|layer [|? ?]] eqn:Hlayers; try discriminate.
  destruct (Hpair 0%nat layer) as (Hindex & Htree & t & Ht & Hsz); [done |].
  rewrite Hn in Ht. simpl in Ht. rewrite Ht in Htree. injection Htree as Htree.
  destruct (RefTrees r) as [|t0 [|? ?]]; try discriminate.
  injection Ht as ->.
  exists layer, t. split; [done |]. split; [done |]. split; [exact Hindex |].
  split; [done |]. split; [exact Hsz |].
  assert (UserSizeByes r = 0) as Hzero by (by rewrite Huser).
  split; [| split; [exact Hzero | by rewrite Hpercent, Hzero]].
  rewrite Hsize. cbn [fmap list_fmap sumZ foldr].
  by rewrite Z.add_0_r, Hsz, uint64_idemp.
Qed.

Lemma single_layer_result_witness :
  ∃ image' r layer t,
    Analyze oneLayerEnv oneLayerImage = Return (image', Ok r)
    ∧ Layers r = [layer]
    ∧ RefTrees r = [Some t]
    ∧ dockerLayer_Index layer = 0
    ∧ dockerLayer_Tree layer = Some t
    ∧ dockerLayer_Size layer = uint64 (filetree.FileSize t)
    ∧ SizeBytes r = uint64 (filetree.FileSize t)
    ∧ UserSizeByes r = 0
    ∧ WastedUserPercent r
      = float64_quo (float64_of_uint64 (WastedBytes r)) (float64_of_uint64 0).
Proof.
  assert (∃ image' r, Analyze oneLayerEnv oneLayerImage = Return (image', Ok r))
    as (image' & r & Hrun) by (eexists _, _; vm_compute; reflexivity).
  assert (length (Layers r) = 1%nat) as Hone.
  { vm_compute in Hrun. injection Hrun as _ <-. reflexivity. }
  destruct (single_layer_result oneLayerEnv oneLayerImage image' r Hrun Hone)
    as (layer & t & H).
  exists image', r, layer, t. split; [exact Hrun | exact H].
Defined.

Lemma sumZ_cons (x : Z) (xs : list Z) : sumZ (x :: xs) = x + sumZ xs.
Proof. reflexivity. Qed.

(** X15. When the sizes of the layers of a returned result add up to less
    than 2^64, [SizeBytes] is their sum and [UserSizeByes] the sum
    without the first layer, so that [UserSizeByes] is at most
    [SizeBytes]. *)
Theorem sizes_without_overflow (env : Environment)
    (image image' : dockerImageAnalyzer) (r : AnalysisResult) :
  Analyze env image = Return (image', Ok r) →
  sumZ (dockerLayer_Size <$> Layers r) < uint64_modulus →
  SizeBytes r = sumZ (dockerLayer_Size <$> Layers r)
  ∧ UserSizeByes r = sumZ (dockerLayer_Size <$> drop 1 (Layers r))
  ∧ 0 ≤ UserSizeByes r ≤ SizeBytes r.
Proof.
  intros Hrun Hsum.
  pose proof (Analyze_tree_and_size _ _ _ _ Hrun) as Hpair.
  apply Analyze_Return_layers in Hrun
    as (m & ms & cfg & r' & _ & _ & [= <-] & _ & _ & _ & _ & _ & Hsize & Huser).
  assert (Forall (fun x => 0 ≤ x) (dockerLayer_Size <$> Layers r)) as Hpos.
  { apply Forall_fmap, Forall_lookup. intros s layer Hs.
    destruct (Hpair s layer Hs) as (_ & _ & t & _ & Hsz).
    simpl. rewrite Hsz. apply uint64_range. }
  assert (0 ≤ sumZ (dockerLayer_Size <$> drop 1 (Layers r))
          ≤ sumZ (dockerLayer_Size <$> Layers r)) as Hdrop.
  { destruct (Layers r) as [|l rest]; [done |].
    rewrite fmap_cons in Hpos. apply Forall_cons in Hpos as [Hl Hrest].
    simpl drop. rewrite drop_0, fmap_cons, sumZ_cons.
    pose proof (sumZ_nonneg _ Hrest). lia. }
  rewrite Hsize, Huser. unfold uint64.
  rewrite !Z.mod_small by lia. lia.
Qed.

Lemma sizes_without_overflow_witness :
  ∃ image' r,
    Analyze sampleEnv twoLayerImage = Return (image', Ok r)
    ∧ SizeBytes r = sumZ (dockerLayer_Size <$> Layers r)
    ∧ UserSizeByes r = sumZ (dockerLayer_Size <$> drop 1 (Layers r))
    ∧ 0 ≤ UserSizeByes r ≤ SizeBytes r.
Proof.
  eexists _, _. split; [vm_compute; reflexivity |].
  eapply (sizes_without_overflow sampleEnv twoLayerImage).
  - vm_compute. reflexivity.
  - reflexivity.
Defined.

(** X16. An analyzer that has no [manifest.json], or none of the config
    file that its manifest names, hands the nil slice to the decoder;
    when the decoder rejects the empty input, [Analyze] panics with
    its error. This is the case of an analyzer on which [Parse] has
    not run. *)
Theorem Analyze_without_json_files (env : Environment)
    (image : dockerImageAnalyzer) (err : error) :
  (jsonFiles image !! "manifest.json" = None →
   json_Unmarshal_manifest env [] = Err err →
   Analyze env image = Panic (LogrusPanic err))
  ∧ (∀ m ms,
       json_Unmarshal_manifest env (jsonFile image "manifest.json")
       = Ok (m :: ms) →
       jsonFiles image !! ConfigPath m = None →
       json_Unmarshal_config env [] = Err err →
       Analyze env image = Panic (LogrusPanic err)).
Proof.
  split.
  - intros Hnone Herr. unfold Analyze, newDockerImageManifest, jsonFile.
    by rewrite Hnone; simpl; rewrite Herr.
  - intros m ms Hm Hnone Herr.
    unfold Analyze, newDockerImageManifest, newDockerImageConfig.
    rewrite Hm, at_index_head, go_bind_unit.
    unfold jsonFile at 1. by rewrite Hnone; simpl; rewrite Herr.
Qed.

Lemma Analyze_without_json_files_witness :
  Analyze sampleEnv (GetAnalyzer "sample") = Panic (LogrusPanic jsonUnexpectedEnd)
  ∧ Analyze sampleEnv manifestOnlyImage
    = Panic (LogrusPanic jsonUnexpectedEnd).
Proof.
  split.
  - apply (proj1 (Analyze_without_json_files sampleEnv (GetAnalyzer "sample")
                    jsonUnexpectedEnd)); reflexivity.
  - apply (proj2 (Analyze_without_json_files sampleEnv manifestOnlyImage
                    jsonUnexpectedEnd)
             (sampleManifest ["a/layer.tar"; "b/layer.tar"]) []); reflexivity.
Defined.

(** ** Reading the image archive *)

Lemma processLayerTar_layerIdx (name : string) (i j : Z) (reader : tar.Reader) :
  processLayerTar name i reader = processLayerTar name j reader.
Proof. reflexivity. Qed.

Lemma Parse_loop_counter (entries : list imageEntry) (failure : option error) :
  ∀ (c c' : Z) (image : dockerImageAnalyzer),
    Parse_loop entries failure c image = Parse_loop entries failure c' image.
Proof.
  induction entries as [|e rest IH]; intros c c' image; simpl; [done |].
  destruct (negb (tar.Typeflag (entryHeader e) =? tar.TypeSymlink)
            && negb (tar.Typeflag (entryHeader e) =? tar.TypeReg));
    [by apply IH |].
  destruct (GoStrings.HasSuffix (tar.Name (entryHeader e)) "layer.tar").
  - rewrite (processLayerTar_layerIdx _ (c + 1) (c' + 1)).
    destruct (processLayerTar _ _ _); [by apply IH | done].
  - destruct (GoStrings.HasSuffix (tar.Name (entryHeader e)) ".json");
      [| by apply IH].
    destruct (entryBytes e); [by apply IH | done].
Qed.

(** One round of the loop of [Parse]. *)
Lemma Parse_loop_cons (e : imageEntry) (rest : list imageEntry)
    (failure : option error) (c : Z) (image : dockerImageAnalyzer) :
  Parse_loop (e :: rest) failure c image
  = if isLayerEntry e then
      match processLayerTar (entryName e) c (entryLayer e) with
      | Err err => Continues (image, Some err)
      | Ok tree =>
          Parse_loop rest failure c
            (setLayerMap (<[entryName e := tree]> (layerMap image)) image)
      end
    else if isJsonEntry e then
      match entryBytes e with
      | Err err => Continues (image, Some err)
      | Ok fileBuffer =>
          Parse_loop rest failure c
            (setJsonFiles (<[entryName e := fileBuffer]> (jsonFiles image)) image)
      end
    else Parse_loop rest failure c image.
Proof.
  simpl. unfold isLayerEntry, isJsonEntry, isFileEntry, entryName.
  destruct (tar.Typeflag (entryHeader e) =? tar.TypeSymlink);
    destruct (tar.Typeflag (entryHeader e) =? tar.TypeReg); simpl;
    try reflexivity;
    (destruct (GoStrings.HasSuffix (tar.Name (entryHeader e)) "layer.tar");
     simpl;
     [ rewrite (processLayerTar_layerIdx _ (c + 1) c);
       destruct (processLayerTar _ _ _); [apply Parse_loop_counter | done]
     | destruct (GoStrings.HasSuffix (tar.Name (entryHeader e)) ".json");
       simpl; reflexivity ]).
Qed.

Lemma Parse_loop_nil (failure : option error) (c : Z)
    (image : dockerImageAnalyzer) :
  Parse_loop [] failure c image
  = match failure with
    | None => Continues (image, None)
    | Some _ => Exits 1
    end.
Proof. reflexivity. Qed.

(** X17. [Parse] passes over every entry that it reads neither as a layer
    archive nor as a JSON file: an entry that is no regular file and
    no symlink, such as a directory or an extended header of the outer
    archive, and a file of another name. The archive without these
    entries parses to the same. *)
Theorem Parse_passes_over_other_entries (image : dockerImageAnalyzer)
    (tarFile : imageArchive) :
  Parse image
    {| imageEntries :=
         filter (fun e => isLayerEntry e || isJsonEntry e = true)
                (imageEntries tarFile);
       imageFailure := imageFailure tarFile |}
  = Parse image tarFile.
Proof.
  unfold Parse. simpl. generalize 0.
  revert image.
  induction (imageEntries tarFile) as [|e rest IH]; intros image c; [done |].
  rewrite (Parse_loop_cons e rest).
  destruct (isLayerEntry e) eqn:Hlayer; simpl.
  - rewrite filter_cons_True by (by rewrite Hlayer).
    rewrite Parse_loop_cons, Hlayer.
    destruct (processLayerTar _ _ _); [apply IH | done].
  - destruct (isJsonEntry e) eqn:Hjson.
    + rewrite filter_cons_True by (by rewrite Hlayer, Hjson).
      rewrite Parse_loop_cons, Hlayer, Hjson.
      destruct (entryBytes e); [apply IH | done].
    + rewrite filter_cons_False by (by rewrite Hlayer, Hjson).
      apply IH.
Qed.

Lemma lastEntry_cons (select : imageEntry → bool) (name : string)
    (e : imageEntry) (rest : list imageEntry) :
  lastEntry select name (e :: rest)
  = match lastEntry select name rest with
    | Some e' => Some e'
    | None =>
        if decide (select e = true ∧ entryName e = name) then Some e else None
    end.
Proof.
  unfold lastEntry.
  destruct (decide (select e = true ∧ entryName e = name)) as [H | H].
  - rewrite filter_cons_True by done. apply last_cons.
  - rewrite filter_cons_False by done. by destruct (last _).
Qed.

Lemma lastEntry_Some (select : imageEntry → bool) (name : string)
    (entries : list imageEntry) (e : imageEntry) :
  lastEntry select name entries = Some e →
  e ∈ entries ∧ select e = true ∧ entryName e = name.
Proof.
  unfold lastEntry. intros H. apply last_Some_elem_of in H.
  apply list_elem_of_filter in H as [[? ?] ?]. done.
Qed.

Lemma lastEntry_None (select : imageEntry → bool) (name : string)
    (entries : list imageEntry) (e : imageEntry) :
  lastEntry select name entries = None →
  e ∈ entries → select e = true → entryName e ≠ name.
Proof.
  unfold lastEntry. intros H Hin Hsel Hname.
  apply last_None in H.
  assert (e ∈ filter (fun e => select e = true ∧ entryName e = name) entries)
    as Hfilter by (by apply list_elem_of_filter).
  rewrite H in Hfilter. by apply elem_of_nil in Hfilter.
Qed.

Lemma isLayerEntry_not_json (e : imageEntry) :
  isLayerEntry e = true → isJsonEntry e = false.
Proof.
  unfold isLayerEntry, isJsonEntry.
  intros [Hfile Hsuffix]%andb_true_iff. by rewrite Hfile, Hsuffix.
Qed.

Lemma processLayerTar_Name (name : string) (layerIdx : Z)
    (reader : tar.Reader) (tree : filetree.FileTree) :
  processLayerTar name layerIdx reader = Ok tree → filetree.Name tree = name.
Proof.
  unfold processLayerTar. intros Hrun.
  destruct (getFileList reader) as [files | err]; [| discriminate].
  match type of Hrun with processLayerTar_loop ?t ?fs = _ =>
    destruct (processLayerTar_loop_FileSize fs t)
      as (tree' & Hrun' & Hname & _) end.
  rewrite Hrun in Hrun'. by injection Hrun' as <-.
Qed.

(** What a run of the loop of [Parse] without an error has done. *)
Lemma Parse_loop_success (entries : list imageEntry) :
  ∀ (failure : option error) (c : Z) (image image' : dockerImageAnalyzer),
    Parse_loop entries failure c image = Continues (image', None) →
    failure = None
    ∧ id image' = id image
    ∧ trees image' = trees image
    ∧ layers image' = layers image
    ∧ (∀ name,
         layerMap image' !! name
         = match lastEntry isLayerEntry name entries with
           | Some e =>
               match processLayerTar name c (entryLayer e) with
               | Ok tree => Some tree
               | Err _ => None
               end
           | None => layerMap image !! name
           end)
    ∧ (∀ name,
         jsonFiles image' !! name
         = match lastEntry isJsonEntry name entries with
           | Some e =>
               match entryBytes e with
               | Ok fileBuffer => Some fileBuffer
               | Err _ => None
               end
           | None => jsonFiles image !! name
           end)
    ∧ (∀ e, e ∈ entries → isLayerEntry e = true →
            ∃ tree, processLayerTar (entryName e) c (entryLayer e) = Ok tree)
    ∧ (∀ e, e ∈ entries → isJsonEntry e = true →
            ∃ fileBuffer, entryBytes e = Ok fileBuffer).
Proof.
  induction entries as [|e rest IH]; intros failure c image image' Hrun.
  - rewrite Parse_loop_nil in Hrun.
    destruct failure; [discriminate |]. injection Hrun as <-.
    repeat split; try done; intros e He; by apply elem_of_nil in He.
  - rewrite Parse_loop_cons in Hrun.
    destruct (isLayerEntry e) eqn:Hlayer.
    + pose proof (isLayerEntry_not_json e Hlayer) as Hjson.
      destruct (processLayerTar (entryName e) c (entryLayer e))
        as [tree | err] eqn:Htree; [| discriminate].
      apply IH in Hrun
        as (Hf & Hid & Htrees & Hlayers & Hmap & Hfiles & Hok & Hbytes).
      split; [exact Hf |]. split; [exact Hid |]. split; [exact Htrees |].
      split; [exact Hlayers |]. split; [| split; [| split]].
      * intros name. rewrite Hmap, lastEntry_cons.
        destruct (lastEntry isLayerEntry name rest); [done |].
        destruct (decide (isLayerEntry e = true ∧ entryName e = name))
          as [[_ <-] | Hne].
        -- simpl. by rewrite lookup_insert_eq, Htree.
        -- simpl. apply lookup_insert_ne. intros Heq. by apply Hne.
      * intros name. rewrite Hfiles, lastEntry_cons.
        destruct (lastEntry isJsonEntry name rest); [done |].
        destruct (decide (isJsonEntry e = true ∧ entryName e = name))
          as [[Hj _] | _]; [congruence | done].
      * intros e' [-> | Hin]%elem_of_cons Hl; [by eauto | by eauto].
      * intros e' [-> | Hin]%elem_of_cons Hj; [congruence | by eauto].
    + destruct (isJsonEntry e) eqn:Hjson.
      * destruct (entryBytes e) as [buf | err] eqn:Hbuf; [| discriminate].
        apply IH in Hrun
          as (Hf & Hid & Htrees & Hlayers & Hmap & Hfiles & Hok & Hbytes).
        split; [exact Hf |]. split; [exact Hid |]. split; [exact Htrees |].
        split; [exact Hlayers |]. split; [| split; [| split]].
        -- intros name. rewrite Hmap, lastEntry_cons.
           destruct (lastEntry isLayerEntry name rest); [done |].
           destruct (decide (isLayerEntry e = true ∧ entryName e = name))
             as [[Hl _] | _]; [congruence | done].
        -- intros name. rewrite Hfiles, lastEntry_cons.
           destruct (lastEntry isJsonEntry name rest); [done |].
           destruct (decide (isJsonEntry e = true ∧ entryName e = name))
             as [[_ <-] | Hne].
           ++ simpl. by rewrite lookup_insert_eq, Hbuf.
           ++ simpl. apply lookup_insert_ne. intros Heq. by apply Hne.
        -- intros e' [-> | Hin]%elem_of_cons Hl; [congruence | by eauto].
        -- intros e' [-> | Hin]%elem_of_cons Hj; [by eauto | by eauto].
      * apply IH in Hrun
          as (Hf & Hid & Htrees & Hlayers & Hmap & Hfiles & Hok & Hbytes).
        split; [exact Hf |]. split; [exact Hid |]. split; [exact Htrees |].
        split; [exact Hlayers |]. split; [| split; [| split]].
        -- intros name. rewrite Hmap, lastEntry_cons.
           destruct (lastEntry isLayerEntry name rest); [done |].
           destruct (decide (isLayerEntry e = true ∧ entryName e = name))
             as [[Hl _] | _]; [congruence | done].
        -- intros name. rewrite Hfiles, lastEntry_cons.
           destruct (lastEntry isJsonEntry name rest); [done |].
           destruct (decide (isJsonEntry e = true ∧ entryName e = name))
             as [[Hj _] | _]; [congruence | done].
        -- intros e' [-> | Hin]%elem_of_cons Hl; [congruence | by eauto].
        -- intros e' [-> | Hin]%elem_of_cons Hj; [congruence | by eauto].
Qed.

Lemma Parse_success_layer (entries : list imageEntry)
    (failure : option error) (c : Z) (image image' : dockerImageAnalyzer)
    (e : imageEntry) :
  Parse_loop entries failure c image = Continues (image', None) →
  e ∈ entries → isLayerEntry e = true →
  ∃ tree, layerMap image' !! entryName e = Some tree
          ∧ filetree.Name tree = entryName e.
Proof.
  intros Hrun Hin Hl.
  apply Parse_loop_success in Hrun as (_ & _ & _ & _ & Hmap & _ & Hok & _).
  rewrite Hmap.
  destruct (lastEntry isLayerEntry (entryName e) entries) as [e' |] eqn:Hlast.
  - apply lastEntry_Some in Hlast as (Hin' & Hl' & Hname).
    destruct (Hok e' Hin' Hl') as [tree Htree].
    rewrite Hname in Htree. rewrite Htree.
    exists tree. split; [done |]. by eapply processLayerTar_Name.
  - by eapply lastEntry_None in Hlast.
Qed.

(** X18. When [Parse] returns without an error, the outer archive was read
    to its end and the id, the trees and the layers of the analyzer are
    as before. For every entry read as a layer archive the layer map
    holds, under the name of the entry, the tree built from the last
    layer archive of that name, a tree of that name. For every entry
    read as a JSON file the JSON files hold, under the name of the
    entry, the bytes of the last JSON file of that name: the bytes of
    the entry itself when no later entry has its name, and those of
    the later entry otherwise. *)
Theorem Parse_keeps_every_layer_and_file (image image' : dockerImageAnalyzer)
    (tarFile : imageArchive) :
  Parse image tarFile = Continues (image', None) →
  imageFailure tarFile = None
  ∧ id image' = id image
  ∧ trees image' = trees image
  ∧ layers image' = layers image
  ∧ (∀ e, e ∈ imageEntries tarFile → isLayerEntry e = true →
       ∃ final tree,
         lastEntry isLayerEntry (entryName e) (imageEntries tarFile)
         = Some final
         ∧ (∀ layerIdx,
              processLayerTar (entryName e) layerIdx (entryLayer final)
              = Ok tree)
         ∧ layerMap image' !! entryName e = Some tree
         ∧ filetree.Name tree = entryName e)
  ∧ (∀ e, e ∈ imageEntries tarFile → isJsonEntry e = true →
       ∃ final fileBuffer,
         lastEntry isJsonEntry (entryName e) (imageEntries tarFile)
         = Some final
         ∧ entryBytes final = Ok fileBuffer
         ∧ jsonFiles image' !! entryName e = Some fileBuffer).
Proof.
  unfold Parse. intros Hrun.
  apply Parse_loop_success in Hrun
    as (Hf & Hid & Htrees & Hlayers & Hmap & Hfiles & Hok & Hbytes).
  split; [exact Hf |]. split; [exact Hid |]. split; [exact Htrees |].
  split; [exact Hlayers |]. split.
  - intros e Hin Hl. rewrite Hmap.
    destruct (lastEntry isLayerEntry (entryName e) (imageEntries tarFile))
      as [final |] eqn:Hlast.
    + apply lastEntry_Some in Hlast as (Hin' & Hl' & Hname).
      destruct (Hok final Hin' Hl') as [tree Htree].
      rewrite Hname in Htree. rewrite Htree.
      exists final, tree. split; [done |]. split; [| split; [done |]].
      * intros layerIdx.
        by rewrite (processLayerTar_layerIdx _ layerIdx 0).
      * by eapply processLayerTar_Name.
    + by eapply lastEntry_None in Hlast.
  - intros e Hin Hj. rewrite Hfiles.
    destruct (lastEntry isJsonEntry (entryName e) (imageEntries tarFile))
      as [final |] eqn:Hlast.
    + apply lastEntry_Some in Hlast as (Hin' & Hj' & Hname).
      destruct (Hbytes final Hin' Hj') as [buf Hbuf]. rewrite Hbuf.
      by exists final, buf.
    + by eapply lastEntry_None in Hlast.
Qed.

Lemma Parse_keeps_every_layer_and_file_witness :
  ∃ image',
    Parse (GetAnalyzer "sample") savedImage = Continues (image', None)
    ∧ imageFailure savedImage = None
    ∧ id image' = id (GetAnalyzer "sample")
    ∧ trees image' = trees (GetAnalyzer "sample")
    ∧ layers image' = layers (GetAnalyzer "sample")
    ∧ (∀ e, e ∈ imageEntries savedImage → isLayerEntry e = true →
         ∃ final tree,
           lastEntry isLayerEntry (entryName e) (imageEntries savedImage)
           = Some final
           ∧ (∀ layerIdx,
                processLayerTar (entryName e) layerIdx (entryLayer final)
                = Ok tree)
           ∧ layerMap image' !! entryName e = Some tree
           ∧ filetree.Name tree = entryName e)
    ∧ (∀ e, e ∈ imageEntries savedImage → isJsonEntry e = true →
         ∃ final fileBuffer,
           lastEntry isJsonEntry (entryName e) (imageEntries savedImage)
           = Some final
           ∧ entryBytes final = Ok fileBuffer
           ∧ jsonFiles image' !! entryName e = Some fileBuffer).
Proof.
  eexists. split; [vm_compute; reflexivity |].
  apply (Parse_keeps_every_layer_and_file (GetAnalyzer "sample")).
  vm_compute. reflexivity.
Defined.

(** X19. When [Parse] returns without an error, the layer map holds under
    a name the tree of the last entry of that name that was read as a
    layer archive, and what it held before under a name that no such
    entry has; the same holds of the JSON files and the entries read
    as JSON files. *)
Theorem Parse_last_entry_wins (image image' : dockerImageAnalyzer)
    (tarFile : imageArchive) :
  Parse image tarFile = Continues (image', None) →
  (∀ name layerIdx,
     layerMap image' !! name
     = match lastEntry isLayerEntry name (imageEntries tarFile) with
       | Some e =>
           match processLayerTar name layerIdx (entryLayer e) with
           | Ok tree => Some tree
           | Err _ => None
           end
       | None => layerMap image !! name
       end)
  ∧ (∀ name,
       jsonFiles image' !! name
       = match lastEntry isJsonEntry name (imageEntries tarFile) with
         | Some e =>
             match entryBytes e with
             | Ok fileBuffer => Some fileBuffer
             | Err _ => None
             end
         | None => jsonFiles image !! name
         end).
Proof.
  unfold Parse. intros Hrun.
  apply Parse_loop_success in Hrun as (_ & _ & _ & _ & Hmap & Hfiles & _).
  split; [| exact Hfiles].
  intros name layerIdx. rewrite Hmap.
  destruct (lastEntry isLayerEntry name (imageEntries tarFile)); [| done].
  by rewrite (processLayerTar_layerIdx name 0 layerIdx).
Qed.

Lemma Parse_last_entry_wins_witness :
  ∃ image',
    Parse twoLayerImage savedImageTwice = Continues (image', None)
    ∧ (filetree.FileSize <$> layerMap image' !! "a/layer.tar") = Some 10
    ∧ (filetree.FileSize <$> layerMap image' !! "b/layer.tar") = Some 10.
Proof.
  eexists. split; [vm_compute; reflexivity |].
  match goal with |- context [layerMap ?i] =>
    destruct (Parse_last_entry_wins twoLayerImage i savedImageTwice
                ltac:(vm_compute; reflexivity)) as [Hmap _] end.
  rewrite (Hmap "a/layer.tar" 0), (Hmap "b/layer.tar" 0).
  split; by vm_compute.
Defined.

Lemma Parse_loop_app (before after : list imageEntry) :
  ∀ (failure : option error) (c : Z) (image : dockerImageAnalyzer),
    Parse_loop (before ++ after) failure c image
    = match Parse_loop before None c image with
      | Continues (image1, None) => Parse_loop after failure c image1
      | other => other
      end.
Proof.
  induction before as [|e rest IH]; intros failure c image; [done |].
  rewrite <- app_comm_cons, !Parse_loop_cons.
  destruct (isLayerEntry e).
  - destruct (processLayerTar _ _ _); [apply IH | done].
  - destruct (isJsonEntry e); [| apply IH].
    destruct (entryBytes e); [apply IH | done].
Qed.

Lemma Parse_loop_eof_continues (entries : list imageEntry) :
  ∀ (c : Z) (image : dockerImageAnalyzer),
    ∃ done, Parse_loop entries None c image = Continues done.
Proof.
  induction entries as [|e rest IH]; intros c image; [by eexists |].
  rewrite Parse_loop_cons.
  destruct (isLayerEntry e).
  - destruct (processLayerTar _ _ _); [apply IH | by eexists].
  - destruct (isJsonEntry e); [| apply IH].
    destruct (entryBytes e); [apply IH | by eexists].
Qed.

Lemma Parse_loop_failure (entries : list imageEntry) (err : error) :
  ∀ (c : Z) (image : dockerImageAnalyzer),
    Parse_loop entries (Some err) c image
    = match Parse_loop entries None c image with
      | Continues (image', None) => Exits 1
      | other => other
      end.
Proof.
  intros c image. rewrite <- (app_nil_r entries) at 1.
  rewrite Parse_loop_app.
  destruct (Parse_loop entries None c image) as [[image' [e|]] | code]; done.
Qed.

(** X20. [Parse] returns the first error that the build of a layer or the
    read of a JSON file gives: the entries after it are not read, and
    the analyzer is as the entries before it have left it. *)
Theorem Parse_returns_first_error (image image1 : dockerImageAnalyzer)
    (before after : list imageEntry) (e : imageEntry)
    (failure : option error) (err : error) :
  Parse image {| imageEntries := before; imageFailure := None |}
  = Continues (image1, None) →
  (isLayerEntry e = true
   ∧ ∃ layerIdx, processLayerTar (entryName e) layerIdx (entryLayer e) = Err err)
  ∨ (isJsonEntry e = true ∧ entryBytes e = Err err) →
  Parse image {| imageEntries := before ++ e :: after;
                 imageFailure := failure |}
  = Continues (image1, Some err).
Proof.
  unfold Parse. simpl. intros Hbefore Herr.
  rewrite Parse_loop_app, Hbefore, Parse_loop_cons.
  destruct Herr as [[Hl [layerIdx Herr]] | [Hj Herr]].
  - rewrite Hl, (processLayerTar_layerIdx _ 0 layerIdx). by rewrite Herr.
  - destruct (isLayerEntry e) eqn:Hl.
    + apply isLayerEntry_not_json in Hl. congruence.
    + by rewrite Hj, Herr.
Qed.

(** X21. When a layer archive of the image holds a record of type
    [XGlobalHeader] and the entries before that layer are read
    without an error, [Parse] returns the format error of the first
    such record that [Next] yields in the layer. *)
Theorem Parse_fails_on_global_header (image image1 : dockerImageAnalyzer)
    (before after : list imageEntry) (e : imageEntry)
    (archive : tarfile.Archive) (failure : option error) :
  Parse image {| imageEntries := before; imageFailure := None |}
  = Continues (image1, None) →
  isLayerEntry e = true →
  entryLayer e = tarfile.NewReader archive →
  (∃ b, b ∈ tarfile.blocks archive
        ∧ tar.Typeflag (tarfile.header b) = tar.TypeXGlobalHeader) →
  ∃ front h back,
    tar.entries (entryLayer e) = front ++ h :: back
    ∧ Forall (fun x => isExtendedHeader x = false) front
    ∧ tar.Typeflag h = tar.TypeXGlobalHeader
    ∧ Parse image {| imageEntries := before ++ e :: after;
                     imageFailure := failure |}
      = Continues
          (image1,
           Some (fmtErrorf
                   ("Provided Tar file '" +:+ tar.Name h
                    +:+ "' has unexpected header '103' (XGlobalHeader)"))).
Proof.
  unfold Parse. simpl. intros Hbefore Hl Hlayer Hglobal.
  destruct (NewReader_global archive Hglobal)
    as (front & h & back & Hsplit & Hfront & Hg & Hrun).
  exists front, h, back. rewrite Hlayer.
  split; [exact Hsplit |]. split; [exact Hfront |]. split; [exact Hg |].
  rewrite Parse_loop_app, Hbefore, Parse_loop_cons, Hl, Hlayer.
  unfold processLayerTar. by rewrite Hrun.
Qed.

Lemma Parse_returns_first_error_witness :
  ∃ image1,
    Parse (GetAnalyzer "sample")
      {| imageEntries :=
           [layerEntry "a/layer.tar" baseFiles]
           ++ {| entryHeader := regularFile "config.json" 0;
                 entryLayer := noArchive;
                 entryBytes := Err (libError "unexpected EOF") |}
              :: [jsonEntry "manifest.json" manifestTwoJSON];
         imageFailure := None |}
    = Continues (image1, Some (libError "unexpected EOF"))
    ∧ jsonFiles image1 = ∅.
Proof.
  eexists. split.
  - apply (Parse_returns_first_error (GetAnalyzer "sample")).
    + vm_compute. reflexivity.
    + right. split; reflexivity.
  - reflexivity.
Defined.

Lemma Parse_fails_on_global_header_witness :
  ∃ image1 front h back,
    tar.entries (entryLayer (layerArchiveEntry "b/layer.tar" globalArchive))
    = front ++ h :: back
    ∧ Forall (fun x => isExtendedHeader x = false) front
    ∧ tar.Typeflag h = tar.TypeXGlobalHeader
    ∧ Parse (GetAnalyzer "sample")
        {| imageEntries :=
             [layerEntry "a/layer.tar" baseFiles]
             ++ layerArchiveEntry "b/layer.tar" globalArchive
                :: [jsonEntry "config.json" configJSON;
                    jsonEntry "manifest.json" manifestTwoJSON];
           imageFailure := None |}
      = Continues
          (image1,
           Some (fmtErrorf
                   ("Provided Tar file '" +:+ tar.Name h
                    +:+ "' has unexpected header '103' (XGlobalHeader)"))).
Proof.
  eexists.
  apply (Parse_fails_on_global_header (GetAnalyzer "sample") _ _ _ _
           globalArchive).
  - vm_compute. reflexivity.
  - reflexivity.
  - reflexivity.
  - exists globalBlock. split; [| reflexivity].
    apply list_elem_of_lookup. by exists 1%nat.
Defined.

(** X22. [Parse] exits, with code 1, exactly when the outer archive ends in
    a read error and every entry before that is read without an
    error. *)
Theorem Parse_exits_iff (image : dockerImageAnalyzer) (tarFile : imageArchive)
    (code : Z) :
  Parse image tarFile = Exits code
  ↔ code = 1
    ∧ is_Some (imageFailure tarFile)
    ∧ ∃ image',
        Parse image {| imageEntries := imageEntries tarFile;
                       imageFailure := None |}
        = Continues (image', None).
Proof.
  unfold Parse. simpl.
  destruct (imageFailure tarFile) as [err |].
  - rewrite Parse_loop_failure.
    destruct (Parse_loop_eof_continues (imageEntries tarFile) 0 image)
      as [[image' [e |]] ->].
    + split; [discriminate |]. intros (_ & _ & image'' & [=]).
    + split.
      * intros [= <-]. by eauto.
      * by intros (-> & _).
  - destruct (Parse_loop_eof_continues (imageEntries tarFile) 0 image)
      as [done ->].
    split; [discriminate |]. by intros (_ & [? [=]] & _).
Qed.

Lemma Parse_exits_iff_witness :
  Parse (GetAnalyzer "sample") savedImageCut = Exits 1.
Proof.
  apply (proj2 (Parse_exits_iff (GetAnalyzer "sample") savedImageCut 1)).
  split; [reflexivity |]. split; [by eexists |].
  eexists. vm_compute. reflexivity.
Defined.

(** ** From the archive to the result *)

(** X24. When [Parse] returns without an error on an archive that holds
    every layer of the manifest, and the manifest and the config that
    it has stored decode and agree on the number of layers, with a
    diff id for each, [Analyze] returns on the analyzer that [Parse]
    has filled, provided that [Efficiency] returns: the result has one
    layer per tar path of the manifest, and its tree number [i] is a
    tree built under the name of the tar path number [i]. *)
Theorem Parse_then_Analyze (env : Environment)
    (image image1 : dockerImageAnalyzer) (tarFile : imageArchive)
    (m : dockerImageManifest) (cfg : dockerImageConfig) :
  Parse image tarFile = Continues (image1, None) →
  (∃ ms, json_Unmarshal_manifest env (jsonFile image1 "manifest.json")
         = Ok (m :: ms)) →
  json_Unmarshal_config env (jsonFile image1 (ConfigPath m)) = Ok cfg →
  length (contentHistory (History cfg)) = length (LayerTarPaths m) →
  (length (contentHistory (History cfg)) ≤ length (DiffIds (RootFs cfg)))%nat →
  (∀ path, path ∈ LayerTarPaths m →
     ∃ e, e ∈ imageEntries tarFile ∧ isLayerEntry e = true
          ∧ entryName e = path) →
  (∃ scored, filetree_Efficiency env (manifestTrees image1 m) = Return scored) →
  ∃ image2 r,
    Analyze env image1 = Return (image2, Ok r)
    ∧ length (Layers r) = length (LayerTarPaths m)
    ∧ ∀ i path, LayerTarPaths m !! i = Some path →
        ∃ tree, RefTrees r !! i = Some (Some tree)
                ∧ filetree.Name tree = path.
Proof.
  unfold Parse. intros Hparse Hm Hcfg Hcount Hdiff Hheld Heff.
  assert (∀ path, path ∈ LayerTarPaths m →
            ∃ tree, layerMap image1 !! path = Some tree
                    ∧ filetree.Name tree = path) as Htrees.
  { intros path Hpath. destruct (Hheld path Hpath) as (e & Hin & Hl & <-).
    by eapply Parse_success_layer. }
  destruct (Analyze_total env image1 m cfg) as (image2 & r & Hrun).
  { split; [exact Hm |]. split; [exact Hcfg |]. split; [exact Hcount |].
    split; [exact Hdiff |]. split; [| exact Heff].
    intros path Hpath. destruct (Htrees path Hpath) as (tree & -> & _).
    by eexists. }
  exists image2, r. split; [exact Hrun |].
  destruct Hm as [ms Hm].
  apply Analyze_Return_layers in Hrun
    as (m' & ms' & cfg' & r' & Hm' & _ & [= <-] & Href & _ & Hlen & _).
  rewrite Hm in Hm'. injection Hm' as <- <-.
  split; [exact Hlen |].
  intros i path Hi.
  destruct (Htrees path) as (tree & Htree & Hname);
    [by eapply list_elem_of_lookup_2 |].
  exists tree. split; [| exact Hname].
  rewrite Href. unfold manifestTrees.
  by rewrite list_lookup_fmap, Hi; simpl; rewrite Htree.
Qed.

Lemma Parse_then_Analyze_witness :
  ∃ image1 image2 r,
    Parse (GetAnalyzer "sample") savedImage = Continues (image1, None)
    ∧ Analyze sampleEnv image1 = Return (image2, Ok r)
    ∧ length (Layers r)
      = length (LayerTarPaths (sampleManifest ["a/layer.tar"; "b/layer.tar"]))
    ∧ ∀ i path,
        LayerTarPaths (sampleManifest ["a/layer.tar"; "b/layer.tar"]) !! i
        = Some path →
        ∃ tree, RefTrees r !! i = Some (Some tree)
                ∧ filetree.Name tree = path.
Proof.
  assert (∃ image1,
            Parse (GetAnalyzer "sample") savedImage = Continues (image1, None))
    as [image1 Hparse] by (eexists; vm_compute; reflexivity).
  assert (jsonFiles image1 = jsonFiles twoLayerImage) as Hjson.
  { vm_compute in Hparse. injection Hparse as <-. by vm_compute. }
  destruct (Parse_then_Analyze sampleEnv (GetAnalyzer "sample") image1
              savedImage (sampleManifest ["a/layer.tar"; "b/layer.tar"])
              sampleConfig Hparse) as (image2 & r & Hrun & H).
  - exists []. unfold jsonFile. rewrite Hjson. reflexivity.
  - unfold jsonFile. rewrite Hjson. reflexivity.
  - reflexivity.
  - simpl. lia.
  - intros path Hpath. apply list_elem_of_In in Hpath. simpl in Hpath.
    destruct Hpath as [<- | [<- | []]].
    + exists (layerEntry "a/layer.tar" baseFiles).
      split; [| split; reflexivity].
      apply list_elem_of_lookup. by exists 3%nat.
    + exists (layerEntry "b/layer.tar" appFiles).
      split; [| split; reflexivity].
      apply list_elem_of_lookup. by exists 5%nat.
  - eexists. reflexivity.
  - exists image1, image2, r. split; [exact Hparse |]. split; [exact Hrun | exact H].
Defined.

(** ** The keys of the maps *)

(** The names under which an analyzer may hold trees and files. *)
Lemma Parse_loop_keys (entries : list imageEntry) :
  ∀ (failure : option error) (c : Z) (image image' : dockerImageAnalyzer)
    (err : option error),
    keysWellNamed image →
    Parse_loop entries failure c image = Continues (image', err) →
    keysWellNamed image'.
Proof.
  induction entries as [|e rest IH]; intros failure c image image' err Hinv Hrun.
  - rewrite Parse_loop_nil in Hrun. destruct failure; [discriminate |].
    by injection Hrun as <- _.
  - rewrite Parse_loop_cons in Hrun.
    destruct (isLayerEntry e) eqn:Hl.
    + destruct (processLayerTar (entryName e) c (entryLayer e))
        as [tree | err'] eqn:Htree; [| by injection Hrun as <- _].
      apply IH in Hrun; [done |].
      destruct Hinv as [Hmap Hfiles]. split; [| exact Hfiles].
      intros name t. simpl. rewrite lookup_insert.
      destruct (decide (entryName e = name)) as [<- | _]; [| by apply Hmap].
      intros [= <-]. split.
      * unfold isLayerEntry in Hl. by apply andb_true_iff in Hl as [_ ?].
      * by eapply processLayerTar_Name.
    + destruct (isJsonEntry e) eqn:Hj; [| by eauto].
      destruct (entryBytes e) as [buf | err']; [| by injection Hrun as <- _].
      apply IH in Hrun; [done |].
      destruct Hinv as [Hmap Hfiles]. split; [exact Hmap |].
      intros name. simpl. rewrite lookup_insert.
      destruct (decide (entryName e = name)) as [<- | _]; [| by apply Hfiles].
      intros _. unfold isJsonEntry in Hj.
      apply andb_true_iff in Hj as [[_ Hn%negb_true_iff]%andb_true_iff Hs].
      done.
Qed.

(** X23. Whether it ends with an error or without, [Parse] on a new
    analyzer leaves a layer map in which every key ends in
    [layer.tar] and names the tree that it holds, and JSON files in
    which every key ends in [.json] and not in [layer.tar]. *)
Theorem Parse_names_its_keys (imageID : string) (tarFile : imageArchive)
    (image' : dockerImageAnalyzer) (err : option error) :
  Parse (GetAnalyzer imageID) tarFile = Continues (image', err) →
  (∀ name tree, layerMap image' !! name = Some tree →
     GoStrings.HasSuffix name "layer.tar" = true
     ∧ filetree.Name tree = name)
  ∧ (∀ name, is_Some (jsonFiles image' !! name) →
       GoStrings.HasSuffix name ".json" = true
       ∧ GoStrings.HasSuffix name "layer.tar" = false).
Proof.
  unfold Parse. intros Hrun.
  apply (Parse_loop_keys _ _ _ (GetAnalyzer imageID)) in Hrun; [done |].
  split.
  - intros name tree H. cbn in H. by rewrite lookup_empty in H.
  - intros name [? H]. cbn in H. by rewrite lookup_empty in H.
Qed.

Lemma Parse_names_its_keys_witness :
  ∃ image',
    Parse (GetAnalyzer "sample") savedImage = Continues (image', None)
    ∧ (∀ name tree, layerMap image' !! name = Some tree →
         GoStrings.HasSuffix name "layer.tar" = true
         ∧ filetree.Name tree = name)
    ∧ (∀ name, is_Some (jsonFiles image' !! name) →
         GoStrings.HasSuffix name ".json" = true
         ∧ GoStrings.HasSuffix name "layer.tar" = false).
Proof.
  eexists. split; [vm_compute; reflexivity |].
  apply (Parse_names_its_keys "sample" savedImage _ None).
  vm_compute. reflexivity.
Defined.

(** ** The ways in which the analysis ends *)

(** X25. [Analyze] ends in one of two ways: it returns a result and a nil
    error, or it panics. A panic of [logrus] carries the error of the
    decoder of the manifest or of the config; every other panic is an
    index out of range or a nil dereference of the runtime, or the
    panic of [Efficiency]. *)
Theorem Analyze_returns_or_panics (env : Environment)
    (image : dockerImageAnalyzer) :
  (∃ image' r, Analyze env image = Return (image', Ok r))
  ∨ ∃ p,
      Analyze env image = Panic p
      ∧ ((∃ err, p = LogrusPanic err
                 ∧ (json_Unmarshal_manifest env (jsonFile image "manifest.json")
                    = Err err
                    ∨ ∃ m ms,
                        json_Unmarshal_manifest env
                          (jsonFile image "manifest.json") = Ok (m :: ms)
                        ∧ json_Unmarshal_config env
                            (jsonFile image (ConfigPath m)) = Err err))
         ∨ runtimePanic p
         ∨ ∃ m ms,
             json_Unmarshal_manifest env (jsonFile image "manifest.json")
             = Ok (m :: ms)
             ∧ filetree_Efficiency env (manifestTrees image m) = Panic p).
Proof.
  destruct (Analyze env image) as [[image' res] | p] eqn:Hrun.
  - left. apply Analyze_Return_layers in Hrun
      as (m & ms & cfg & r & _ & _ & -> & _). by eauto.
  - right. exists p. split; [done |]. by apply Analyze_Panic.
Qed.

Lemma assembleLayers_excess (ts : list (option filetree.FileTree))
    (ps : list string) (hs : list dockerImageHistoryEntry) :
  ∀ (i : nat) (ls : list (option dockerLayer)),
    length ps = length ts → length ls = length ts →
    (i ≤ length ts)%nat →
    (∀ j, (j < length ts)%nat → ∃ t, ts !! j = Some (Some t)) →
    (length ts < i + length (contentHistory hs))%nat →
    assembleLayers ts ps hs ls (Z.of_nat (length ts) - 1 - Z.of_nat i)
      (Z.of_nat i) = Panic IndexOutOfRange.
Proof.
  induction hs as [|h rest IH]; intros i ls Hps Hls Hi Hall Hk.
  { simpl in Hk. lia. }
  simpl. destruct (EmptyLayer h) eqn:Hh.
  { rewrite contentHistory_cons_empty in Hk by done. by apply IH. }
  rewrite contentHistory_cons_content in Hk by done. simpl in Hk.
  replace (Z.of_nat (length ts) - 1 - (Z.of_nat (length ts) - 1 - Z.of_nat i))
    with (Z.of_nat i) by lia.
  destruct (decide (i = length ts)) as [-> | Hne].
  { rewrite (at_index_beyond ts) by lia. reflexivity. }
  destruct (Hall i) as [t Ht]; [lia |].
  rewrite (at_index_lookup _ _ _ Ht), go_bind_unit.
  change (filetree.totalSize (Some t)) with (Return (filetree.FileSize t)).
  rewrite go_bind_unit.
  destruct (lookup_lt_is_Some_2 ts (length ts - 1 - i)) as [stored Hstored];
    [lia |].
  replace (Z.of_nat (length ts) - 1 - Z.of_nat i)
    with (Z.of_nat (length ts - 1 - i)) by lia.
  rewrite (at_index_lookup _ _ _ Hstored), go_bind_unit.
  destruct (lookup_lt_is_Some_2 ps i) as [path Hpath]; [lia |].
  rewrite (at_index_lookup _ _ _ Hpath), go_bind_unit.
  rewrite store_insert, go_bind_unit by lia.
  replace (Z.of_nat (length ts - 1 - i) - 1)
    with (Z.of_nat (length ts) - 1 - Z.of_nat (S i)) by lia.
  replace (Z.of_nat i + 1) with (Z.of_nat (S i)) by lia.
  apply IH; [done | by rewrite length_insert | lia | done | lia].
Qed.

(** X26. On an image that is well-formed but for the number of its layers,
    [Analyze] panics with an index out of range when the history has
    more entries with contents than the manifest has layers, and,
    when it has fewer and [Efficiency] returns, with the nil
    dereference of the read of the size of a layer that was never
    set. *)
Theorem count_mismatch_kinds (env : Environment)
    (image : dockerImageAnalyzer) (m : dockerImageManifest)
    (ms : list dockerImageManifest) (cfg : dockerImageConfig) :
  json_Unmarshal_manifest env (jsonFile image "manifest.json") = Ok (m :: ms) →
  json_Unmarshal_config env (jsonFile image (ConfigPath m)) = Ok cfg →
  (length (contentHistory (History cfg)) ≤ length (DiffIds (RootFs cfg)))%nat →
  (∀ path, path ∈ LayerTarPaths m → is_Some (layerMap image !! path)) →
  ((length (LayerTarPaths m) < length (contentHistory (History cfg)))%nat →
   Analyze env image = Panic IndexOutOfRange)
  ∧ ((length (contentHistory (History cfg)) < length (LayerTarPaths m))%nat →
     (∃ scored, filetree_Efficiency env (manifestTrees image m)
                = Return scored) →
     Analyze env image = Panic NilDereference).
Proof.
  intros Hm Hcfg Hdiff Htrees.
  destruct (assignIDs_total (DiffIds (RootFs cfg)) (History cfg) 0%nat)
    as [history Hhistory]; [lia |].
  change (Z.of_nat 0) with 0 in Hhistory.
  pose proof Hhistory as Hcount.
  apply (assignIDs_Return _ _ 0%nat) in Hcount as [Hcount _].
  pose proof (length_manifestTrees image m) as Hn.
  assert (∀ j, (j < length (manifestTrees image m))%nat →
            ∃ t, manifestTrees image m !! j = Some (Some t)) as Hall.
  { intros j Hj.
    destruct (lookup_lt_is_Some_2 (LayerTarPaths m) j) as [path Hpath]; [lia |].
    destruct (Htrees path) as [t Ht]; [by eapply list_elem_of_lookup_2 |].
    exists t. unfold manifestTrees.
    by rewrite list_lookup_fmap, Hpath; simpl; rewrite Ht. }
  assert (Analyze env image
          = assembleLayers (manifestTrees image m) (LayerTarPaths m) history
              (replicate (length (manifestTrees image m)) None)
              (Z.of_nat (length (manifestTrees image m)) - 1 - Z.of_nat 0)
              (Z.of_nat 0)
            ≫= fun image_layers =>
              filetree_Efficiency env (manifestTrees image m)
              ≫= fun '(efficiency, inefficiencies) =>
                sumLayers 0 image_layers [] 0 0
                ≫= fun '(layers, sizeBytes, userSizeBytes) =>
                  mret ({| id := id image; jsonFiles := jsonFiles image;
                           trees := manifestTrees image m;
                           layerMap := layerMap image;
                           layers := image_layers |},
                        Ok {| Layers := layers;
                              RefTrees := manifestTrees image m;
                              Efficiency := efficiency;
                              UserSizeByes := userSizeBytes;
                              SizeBytes := sizeBytes;
                              WastedBytes := sumWasted inefficiencies;
                              WastedUserPercent :=
                                float64_quo
                                  (float64_of_uint64 (sumWasted inefficiencies))
                                  (float64_of_uint64 userSizeBytes);
                              Inefficiencies := inefficiencies |})) as ->.
  { unfold Analyze, newDockerImageManifest, newDockerImageConfig.
    rewrite Hm, at_index_head, go_bind_unit, Hcfg.
    rewrite Hhistory, !go_bind_unit. cbn [History].
    change (Z.of_nat 0) with 0. by rewrite Z.sub_0_r. }
  split.
  - intros Hlt.
    rewrite assembleLayers_excess;
      [done | lia | apply length_replicate | lia | done | lia].
  - intros Hlt [[eff ineffs] Heff].
    destruct (assembleLayers_total (manifestTrees image m) (LayerTarPaths m)
                history 0%nat
                (replicate (length (manifestTrees image m)) None))
      as [vs Hvs]; [lia | apply length_replicate | right; lia | |].
    { intros j Hj. apply Hall. lia. }
    pose proof Hvs as Hshape.
    apply assembleLayers_Return in Hshape as (Hlen & _ & _ & Hsame);
      [| apply length_replicate].
    specialize (Hsame 0%nat). rewrite lookup_replicate_2 in Hsame by lia.
    rewrite Hvs, go_bind_unit, Heff, go_bind_unit.
    destruct vs as [|[l|] rest]; [discriminate Hsame; lia | | done].
    assert (Some (Some l) = Some None) as [=]. apply Hsame. lia.
Qed.

Lemma count_mismatch_kinds_witness :
  Analyze oneOfTwoEnv oneTreeTooFew = Panic IndexOutOfRange
  ∧ Analyze sampleEnv threeLayerImage = Panic NilDereference.
Proof.
  split.
  - apply (proj1 (count_mismatch_kinds oneOfTwoEnv oneTreeTooFew
                    (sampleManifest ["a/layer.tar"]) [] sampleConfig
                    eq_refl eq_refl ltac:(simpl; lia)
                    ltac:(intros path Hpath;
                          apply list_elem_of_In in Hpath; simpl in Hpath;
                          destruct Hpath as [<- | []]; vm_compute; eauto))).
    simpl. lia.
  - apply (proj2 (count_mismatch_kinds sampleEnv threeLayerImage
                    (sampleManifest ["a/layer.tar"; "b/layer.tar"; "c/layer.tar"])
                    [] sampleConfig
                    eq_refl eq_refl ltac:(simpl; lia)
                    ltac:(intros path Hpath;
                          apply list_elem_of_In in Hpath; simpl in Hpath;
                          destruct Hpath as [<- | [<- | [<- | []]]];
                          vm_compute; eauto))).
    + simpl. lia.
    + eexists. reflexivity.
Defined.
